(** * Payment lambdas (Stripe / MySQL): a shallow embedding

    The repository holds four Go programs, each a [package main] with one
    AWS Lambda handler:

    - [webhook]             (stripe webhook reconciler),
    - [createCustomer]      (customer identity mapper),
    - [createPaymentIntent] (intent submission),
    - [confirmPayment]      (confirmation state machine).

    The handlers talk to two collaborators, a MySQL database ([db.Exec],
    [db.QueryRow]) and the Stripe API.  Both are modelled by one explicit
    [World]: the two tables, the processor's objects, the faults and answers
    the collaborators will give next, the clock, the log and the trace of
    remote calls.  A handler is a function in the state monad over [World]
    that returns what the Go function returns, a response and an error. *)

From Stdlib Require Import List String Ascii Bool ZArith QArith Lia.
From Stdlib Require Import DecimalString.
From Stdlib Require Import SpecFloat.
Import ListNotations.

Local Open Scope string_scope.
Local Open Scope Z_scope.

(** ** Go values *)

(** A Go [error] is represented by its message ([err.Error()]). *)
Definition error := string.

(** [time.Time], as a count of clock ticks. *)
Definition Time := Z.

(** [%d] of an integer. *)
Definition fmt_d (z : Z) : string := NilZero.string_of_int (Z.to_int z).

(** *** float64

    IEEE-754 binary64, through the Standard Library's executable
    specification: 53 bits of precision, infinities at exponent 1024. *)
Definition float64 := spec_float.

Definition prec64 : Z := 53.
Definition emax64 : Z := 1024.

(** The conversion [float64(n)] of an [int64]: round to nearest, ties to
    even. *)
Definition float64_of_int64 (n : Z) : float64 :=
  binary_normalize prec64 emax64 n 0 false.

(** The constant [100.0]. *)
Definition float64_100 : float64 := float64_of_int64 100.

(** The quotient [x / y] on [float64]. *)
Definition float64_div (x y : float64) : float64 := SFdiv prec64 emax64 x y.

(** The rational number a finite [float64] stands for (infinities and NaN,
    which no conversion or division below produces, are sent to 0). *)
Definition float64_to_Q (x : float64) : Q :=
  match x with
  | S754_finite s m e =>
      let v := if s then Zneg m else Zpos m in
      match e with
      | Z0 => inject_Z v
      | Zpos p => inject_Z (v * 2 ^ Zpos p)
      | Zneg p => Qmake v (2 ^ p)%positive
      end
  | _ => 0%Q
  end.

Arguments float64_of_int64 : simpl never.
Arguments float64_div : simpl never.
Arguments float64_to_Q : simpl never.

(** ** The ledger store (MySQL database [user_management]) *)

Module Ledger.

(** A row of table [Users], columns in the order the handlers scan them.
    [StripeID] is the nullable processor-customer reference. *)
Record User := {
  UserID : string;
  Username : string;
  Email : string;
  PhoneNumber : string;
  DateOfBirth : string;
  AccountVerificationStatus : string;
  CreatedAt : string;
  UpdatedAt : string;
  AccountBalance : Q;
  StripeID : option string
}.

(** The value bound to column [TransactionDate]: the webhook binds a
    [time.Time], [confirmPayment] binds the text [currentTime.GoString()]. *)
Inductive DateArg :=
| DateTime (t : Time)
| DateGoString (t : Time).

(** A row of table [TransactionHistory]. *)
Record Transaction := {
  TransactionID : string;
  OwnerID : string;
  TransactionType : string;
  Amount : float64;
  TransactionStatus : string;
  TransactionDate : DateArg
}.

Definition set_balance (u : User) (b : Q) : User :=
  {| UserID := UserID u; Username := Username u; Email := Email u;
     PhoneNumber := PhoneNumber u; DateOfBirth := DateOfBirth u;
     AccountVerificationStatus := AccountVerificationStatus u;
     CreatedAt := CreatedAt u; UpdatedAt := UpdatedAt u;
     AccountBalance := b; StripeID := StripeID u |}.

Definition set_stripe_id (u : User) (c : option string) : User :=
  {| UserID := UserID u; Username := Username u; Email := Email u;
     PhoneNumber := PhoneNumber u; DateOfBirth := DateOfBirth u;
     AccountVerificationStatus := AccountVerificationStatus u;
     CreatedAt := CreatedAt u; UpdatedAt := UpdatedAt u;
     AccountBalance := AccountBalance u; StripeID := c |}.

Definition set_status_date (t : Transaction) (st : string) (d : DateArg)
  : Transaction :=
  {| TransactionID := TransactionID t; OwnerID := OwnerID t;
     TransactionType := TransactionType t; Amount := Amount t;
     TransactionStatus := st; TransactionDate := d |}.

(** [SELECT * FROM Users WHERE UserID = ?] read with [QueryRow]: the first
    matching row. *)
Fixpoint select_user (us : list User) (uid : string) : option User :=
  match us with
  | [] => None
  | u :: us' => if String.eqb (UserID u) uid then Some u
                else select_user us' uid
  end.

(** [UPDATE Users SET AccountBalance = AccountBalance + ? WHERE UserID = ?]
    with a [float64] bound to the first parameter: every matching row gets
    the value of the parameter added. *)
Definition add_balance (us : list User) (delta : float64) (uid : string)
  : list User :=
  map (fun u => if String.eqb (UserID u) uid
                then set_balance u (Qred (AccountBalance u + float64_to_Q delta))
                else u) us.

(** [UPDATE Users SET stripe_customer_id = ? WHERE UserID = ?]. *)
Definition update_stripe_id (us : list User) (cid : string) (uid : string)
  : list User :=
  map (fun u => if String.eqb (UserID u) uid
                then set_stripe_id u (Some cid) else u) us.

(** [UPDATE TransactionHistory SET TransactionStatus = ?,
    TransactionDate = ? WHERE TransactionID = ?]. *)
Definition update_status (ts : list Transaction) (st : string)
    (d : DateArg) (tid : string) : list Transaction :=
  map (fun t => if String.eqb (TransactionID t) tid
                then set_status_date t st d else t) ts.

(** [INSERT INTO TransactionHistory (...) VALUES (...)]: one more row. *)
Definition insert (ts : list Transaction) (t : Transaction)
  : list Transaction := ts ++ [t].

(** The rows of a transaction id. *)
Definition records_of (ts : list Transaction) (tid : string)
  : list Transaction :=
  filter (fun t => String.eqb (TransactionID t) tid) ts.

(** The balance of a user (of the first row with that id). *)
Definition balance_of (us : list User) (uid : string) : option Q :=
  option_map AccountBalance (select_user us uid).

End Ledger.

(** ** The payment processor (Stripe) *)

Module Stripe.

(** [stripe.Customer], the fields the handlers set or read. *)
Record Customer := {
  ID : string;
  Email : string;
  Name : string;
  Metadata : list (string * string)
}.

(** The parameters of [paymentintent.New]. *)
Record PaymentIntentParams := {
  Amount : Z;
  Currency : string;
  Customer_ : string;
  PaymentMethod : string;
  SetupFutureUsage : string
}.

(** [stripe.PaymentIntentStatus] is a string type; the three constants the
    confirmation switch names. *)
Definition PaymentIntentStatusRequiresAction : string := "requires_action".
Definition PaymentIntentStatusSucceeded : string := "succeeded".
Definition PaymentIntentStatusRequiresConfirmation : string :=
  "requires_confirmation".

(** [stripe.PaymentIntent] as returned by [paymentintent.Confirm] and
    [paymentintent.New]. *)
Record PaymentIntent := {
  pi_ID : string;
  pi_Status : string;
  pi_Amount : Z
}.

Fixpoint find_customer (cs : list Customer) (cid : string)
  : option Customer :=
  match cs with
  | [] => None
  | c :: cs' => if String.eqb (ID c) cid then Some c
                else find_customer cs' cid
  end.

End Stripe.

(** ** The world *)

(** One entry per remote call a handler issues, in the order issued. *)
Inductive Call :=
| QueryUser (uid : string)
| ExecUpdateBalance (delta : float64) (uid : string)
| ExecUpdateTransaction (tid status : string) (d : Ledger.DateArg)
| ExecInsertTransaction (t : Ledger.Transaction)
| ExecUpdateStripeID (cid uid : string)
| CustomerGet (cid : string)
| CustomerNew (email name uid : string)
| PaymentMethodAttach (pm cid : string)
| PaymentIntentNew (p : Stripe.PaymentIntentParams)
| PaymentIntentConfirm (id : string).

Record World := {
  users : list Ledger.User;
  history : list Ledger.Transaction;
  (** what the next database calls do: [Some e] fails with [e] and changes
      nothing, [None] (or no entry) goes through *)
  db_faults : list (option error);
  customers : list Stripe.Customer;
  intents : list (Stripe.PaymentIntent * Stripe.PaymentIntentParams);
  attached : list (string * string);
  (** what the next processor calls other than confirm do *)
  stripe_faults : list (option error);
  (** what the next confirm calls answer: an error, or the status and the
      amount of the intent after the attempt *)
  confirm_outcomes : list (error + (string * Z));
  clock : Time;
  logs : list string;
  trace : list Call
}.

(** *** The state monad over [World] *)

Definition M (A : Type) : Type := World -> A * World.

Definition ret {A} (a : A) : M A := fun w => (a, w).

Definition bind {A B} (m : M A) (k : A -> M B) : M B :=
  fun w => let (a, w') := m w in k a w'.

Declare Scope go_scope.
Delimit Scope go_scope with go.
Notation "x <- m ;; k" := (bind m (fun x => k))
  (at level 61, m at next level, right associativity) : go_scope.
Notation "m ;;; k" := (bind m (fun _ => k))
  (at level 61, right associativity) : go_scope.
Local Open Scope go_scope.

Definition with_users (w : World) (us : list Ledger.User) : World :=
  {| users := us; history := history w; db_faults := db_faults w;
     customers := customers w; intents := intents w; attached := attached w;
     stripe_faults := stripe_faults w;
     confirm_outcomes := confirm_outcomes w; clock := clock w;
     logs := logs w; trace := trace w |}.

Definition with_history (w : World) (ts : list Ledger.Transaction) : World :=
  {| users := users w; history := ts; db_faults := db_faults w;
     customers := customers w; intents := intents w; attached := attached w;
     stripe_faults := stripe_faults w;
     confirm_outcomes := confirm_outcomes w; clock := clock w;
     logs := logs w; trace := trace w |}.

Definition with_db_faults (w : World) (fs : list (option error)) : World :=
  {| users := users w; history := history w; db_faults := fs;
     customers := customers w; intents := intents w; attached := attached w;
     stripe_faults := stripe_faults w;
     confirm_outcomes := confirm_outcomes w; clock := clock w;
     logs := logs w; trace := trace w |}.

Definition with_customers (w : World) (cs : list Stripe.Customer) : World :=
  {| users := users w; history := history w; db_faults := db_faults w;
     customers := cs; intents := intents w; attached := attached w;
     stripe_faults := stripe_faults w;
     confirm_outcomes := confirm_outcomes w; clock := clock w;
     logs := logs w; trace := trace w |}.

Definition with_intents (w : World)
    (ps : list (Stripe.PaymentIntent * Stripe.PaymentIntentParams)) : World :=
  {| users := users w; history := history w; db_faults := db_faults w;
     customers := customers w; intents := ps; attached := attached w;
     stripe_faults := stripe_faults w;
     confirm_outcomes := confirm_outcomes w; clock := clock w;
     logs := logs w; trace := trace w |}.

Definition with_attached (w : World) (a : list (string * string)) : World :=
  {| users := users w; history := history w; db_faults := db_faults w;
     customers := customers w; intents := intents w; attached := a;
     stripe_faults := stripe_faults w;
     confirm_outcomes := confirm_outcomes w; clock := clock w;
     logs := logs w; trace := trace w |}.

Definition with_stripe_faults (w : World) (fs : list (option error)) : World :=
  {| users := users w; history := history w; db_faults := db_faults w;
     customers := customers w; intents := intents w; attached := attached w;
     stripe_faults := fs;
     confirm_outcomes := confirm_outcomes w; clock := clock w;
     logs := logs w; trace := trace w |}.

Definition with_confirm_outcomes (w : World)
    (os : list (error + (string * Z))) : World :=
  {| users := users w; history := history w; db_faults := db_faults w;
     customers := customers w; intents := intents w; attached := attached w;
     stripe_faults := stripe_faults w;
     confirm_outcomes := os; clock := clock w;
     logs := logs w; trace := trace w |}.

Definition with_clock (w : World) (t : Time) : World :=
  {| users := users w; history := history w; db_faults := db_faults w;
     customers := customers w; intents := intents w; attached := attached w;
     stripe_faults := stripe_faults w;
     confirm_outcomes := confirm_outcomes w; clock := t;
     logs := logs w; trace := trace w |}.

Definition with_logs (w : World) (l : list string) : World :=
  {| users := users w; history := history w; db_faults := db_faults w;
     customers := customers w; intents := intents w; attached := attached w;
     stripe_faults := stripe_faults w;
     confirm_outcomes := confirm_outcomes w; clock := clock w;
     logs := l; trace := trace w |}.

Definition with_trace (w : World) (t : list Call) : World :=
  {| users := users w; history := history w; db_faults := db_faults w;
     customers := customers w; intents := intents w; attached := attached w;
     stripe_faults := stripe_faults w;
     confirm_outcomes := confirm_outcomes w; clock := clock w;
     logs := logs w; trace := t |}.

(** *** Primitive effects *)

(** [fmt.Printf] / [log.Printf]: one more line of output. *)
Definition printf (line : string) : M unit :=
  fun w => (tt, with_logs w (logs w ++ [line])).

(** [time.Now()]: the clock is read and moves on. *)
Definition time_Now : M Time :=
  fun w => (clock w, with_clock w (clock w + 1)).

Definition record (c : Call) : M unit :=
  fun w => (tt, with_trace w (trace w ++ [c])).

(** The fault, if any, of the next database call. *)
Definition next_db_fault : M (option error) :=
  fun w => match db_faults w with
           | [] => (None, w)
           | f :: fs => (f, with_db_faults w fs)
           end.

(** The fault, if any, of the next processor call. *)
Definition next_stripe_fault : M (option error) :=
  fun w => match stripe_faults w with
           | [] => (None, w)
           | f :: fs => (f, with_stripe_faults w fs)
           end.

(** [db.Exec] of a statement: logged, then either the scheduled fault (the
    tables stay as they are) or the statement's effect.  The result is the
    [err] of [_, err := db.Exec(...)]. *)
Definition db_Exec (c : Call) (effect : World -> World) : M (option error) :=
  record c ;;;
  f <- next_db_fault ;;
  match f with
  | Some e => ret (Some e)
  | None => fun w => (None, effect w)
  end.

Definition ErrNoRows : error := "sql: no rows in result set".

(** [db.QueryRow("SELECT * FROM Users WHERE UserID = ?", uid).Scan(...)]. *)
Definition db_QueryRow_user (uid : string) : M (Ledger.User + error) :=
  record (QueryUser uid) ;;;
  f <- next_db_fault ;;
  match f with
  | Some e => ret (inr e)
  | None => fun w => match Ledger.select_user (users w) uid with
                     | Some u => (inl u, w)
                     | None => (inr ErrNoRows, w)
                     end
  end.

(** ** API Gateway *)

(** [events.APIGatewayProxyResponse], the fields the handlers set. *)
Record APIGatewayProxyResponse := {
  StatusCode : Z;
  Body : string;
  Headers : list (string * string)
}.

(** [net/http] status codes. *)
Definition StatusOK : Z := 200.
Definition StatusBadRequest : Z := 400.
Definition StatusInternalServerError : Z := 500.

(** What [json.Unmarshal([]byte(request.Body), &v)] makes of a request body:
    an error, or the decoded value. *)
Inductive Unmarshal (A : Type) :=
| Malformed (err : error)
| Decoded (v : A).
Arguments Malformed {A} err.
Arguments Decoded {A} v.

(** [events.APIGatewayProxyRequest]: the body (seen through
    [json.Unmarshal]) and [RequestContext.Identity.CognitoIdentityPoolID]. *)
Record APIGatewayProxyRequest (A : Type) := {
  RequestBody : Unmarshal A;
  CognitoIdentityPoolID : string
}.
Arguments RequestBody {A} _.
Arguments CognitoIdentityPoolID {A} _.

(** How a caller reads a response: 2xx is success; for a failure, 4xx is a
    permanent fault of the request, anything else a fault of the server,
    which a sender of webhooks answers by delivering again. *)
Inductive Classification := Success | PermanentFault | TransientFault.

Definition classify (r : APIGatewayProxyResponse) : Classification :=
  if (200 <=? StatusCode r) && (StatusCode r <? 300) then Success
  else if (400 <=? StatusCode r) && (StatusCode r <? 500) then PermanentFault
  else TransientFault.

(** ** Program 1: the webhook reconciler *)

Module Webhook.

(** The payment intent of the event ([data.object]). *)
Record PaymentIntent := {
  ID : string;
  Amount : Z;
  Currency : string;
  Description : string;
  Customer : string
}.

Record StripeData := { Object : PaymentIntent }.

Record StripeWebhookEvent := {
  Type_ : string;
  Data : StripeData
}.

Definition updateUserBalance (userID : string) (amount : Z)
  : M (option error) :=
  let amountInDollars := float64_div (float64_of_int64 amount) float64_100 in
  err <- db_Exec (ExecUpdateBalance amountInDollars userID)
           (fun w => with_users w
                       (Ledger.add_balance (users w) amountInDollars userID)) ;;
  match err with
  | Some e => ret (Some ("updateUserBalance: " ++ e))
  | None => ret None
  end.

Definition updateTransactionHistory (transactionID status : string)
    (transactionDate : Time) : M (option error) :=
  err <- db_Exec (ExecUpdateTransaction transactionID status
                    (Ledger.DateTime transactionDate))
           (fun w => with_history w
                       (Ledger.update_status (history w) status
                          (Ledger.DateTime transactionDate) transactionID)) ;;
  match err with
  | Some e => ret (Some ("updateTransactionHistory: " ++ e))
  | None => ret None
  end.

Definition received (e : StripeWebhookEvent) : APIGatewayProxyResponse :=
  {| StatusCode := StatusOK;
     Body := "Received confirmation from Stripe: "
             ++ Description (Object (Data e));
     Headers := [] |}.

Definition webhook (request : APIGatewayProxyRequest StripeWebhookEvent)
  : M (APIGatewayProxyResponse * option error) :=
  match RequestBody request with
  | Malformed err =>
      printf ("Error unmarshaling JSON: " ++ err) ;;;
      ret ({| StatusCode := StatusInternalServerError;
              Body := "Error processing request";
              Headers := [] |}, None)
  | Decoded webhookEvent =>
      let o := Object (Data webhookEvent) in
      printf ("Event Type: " ++ Type_ webhookEvent) ;;;
      printf ("Transaction ID: " ++ ID o) ;;;
      printf ("Amount: " ++ fmt_d (Amount o)) ;;;
      printf ("Currency: " ++ Currency o) ;;;
      printf ("Description: " ++ Description o) ;;;
      printf ("Customer ID: " ++ Customer o) ;;;
      if String.eqb (Type_ webhookEvent) "payment_intent.succeeded" then
        now <- time_Now ;;
        err <- updateTransactionHistory (ID o) "Completed" now ;;
        match err with
        | Some e =>
            printf ("Error updating transaction history: " ++ e) ;;;
            ret ({| StatusCode := StatusInternalServerError;
                    Body := "Failed to update transaction history";
                    Headers := [] |}, None)
        | None =>
            err <- updateUserBalance (CognitoIdentityPoolID request)
                     (Amount o) ;;
            match err with
            | Some e =>
                printf ("Error updating user balance: " ++ e) ;;;
                ret ({| StatusCode := StatusInternalServerError;
                        Body := "Failed to update user balance";
                        Headers := [] |}, None)
            | None => ret (received webhookEvent, None)
            end
        end
      else ret (received webhookEvent, None)
  end.

End Webhook.

(** ** Program 2: the customer identity mapper *)

(** The decimal name of the [n]-th object the processor creates, after a
    prefix ([cus_0], [pi_3], ...). *)
Definition fresh_id (prefix : string) (n : nat) : string :=
  prefix ++ fmt_d (Z.of_nat n).

Definition json_headers : list (string * string) :=
  [("Content-Type", "application/json")].

Module CreateCustomer.

(** [customer.Get(id, nil)]: the processor's customer of that id.  The
    library hands back a customer whenever it hands back no error. *)
Definition customer_Get (customerID : string)
  : M (Stripe.Customer + error) :=
  record (CustomerGet customerID) ;;;
  f <- next_stripe_fault ;;
  match f with
  | Some e => ret (inr e)
  | None => fun w => match Stripe.find_customer (customers w) customerID with
                     | Some c => (inl c, w)
                     | None => (inr ("No such customer: " ++ customerID), w)
                     end
  end.

(** [customer.New(params)] with [Email], [Name] and metadata [UserID]. *)
Definition customer_New (email name userID : string)
  : M (Stripe.Customer + error) :=
  record (CustomerNew email name userID) ;;;
  f <- next_stripe_fault ;;
  match f with
  | Some e => ret (inr e)
  | None => fun w =>
      let c := {| Stripe.ID := fresh_id "cus_" (List.length (customers w));
                  Stripe.Email := email; Stripe.Name := name;
                  Stripe.Metadata := [("UserID", userID)] |} in
      (inl c, with_customers w (customers w ++ [c]))
  end.

(** The Go function returns a pointer and an error; [None] is [nil]. *)
Definition findCustomerByStripeID (customerID : string)
  : M (option Stripe.Customer * option error) :=
  r <- customer_Get customerID ;;
  match r with
  | inr err => ret (None, Some err)
  | inl c => ret (Some c, None)
  end.

(** Everything after the check of the existing reference. *)
Definition create_and_store (user : Ledger.User) (userID : string)
  : M (APIGatewayProxyResponse * option error) :=
  r <- customer_New (Ledger.Email user) (Ledger.Username user) userID ;;
  match r with
  | inr err =>
      ret ({| StatusCode := StatusInternalServerError;
              Body := "Error creating new customer in Stripe: " ++ err;
              Headers := json_headers |}, Some err)
  | inl c =>
      err <- db_Exec (ExecUpdateStripeID (Stripe.ID c) userID)
               (fun w => with_users w
                  (Ledger.update_stripe_id (users w) (Stripe.ID c) userID)) ;;
      match err with
      | Some e =>
          ret ({| StatusCode := StatusInternalServerError;
                  Body := "Error updating user with new Stripe ID";
                  Headers := json_headers |}, Some e)
      | None =>
          ret ({| StatusCode := StatusOK;
                  Body := "Created new customer in Stripe with ID: "
                          ++ Stripe.ID c;
                  Headers := json_headers |}, None)
      end
  end.

Definition createCustomer {A} (request : APIGatewayProxyRequest A)
  : M (APIGatewayProxyResponse * option error) :=
  let userID := CognitoIdentityPoolID request in
  q <- db_QueryRow_user userID ;;
  match q with
  | inr err =>
      ret ({| StatusCode := StatusInternalServerError;
              Body := "Error retrieving user from database";
              Headers := json_headers |}, Some err)
  | inl user =>
      match Ledger.StripeID user with
      | Some stripeID =>
          r <- findCustomerByStripeID stripeID ;;
          match r with
          | (_, Some err) =>
              ret ({| StatusCode := StatusInternalServerError;
                      Body := "Error finding customer by Stripe ID: " ++ err;
                      Headers := json_headers |}, Some err)
          | (Some customer, None) =>
              ret ({| StatusCode := StatusOK;
                      Body := "Customer already exists with Stripe ID: "
                              ++ Stripe.ID customer;
                      Headers := json_headers |}, None)
          | (None, None) => create_and_store user userID
          end
      | None => create_and_store user userID
      end
  end.

End CreateCustomer.

(** ** Program 3: intent submission *)

Module CreatePaymentIntent.

(** The decoded request body. *)
Record PaymentIntentRequest := {
  Amount : Z;
  Currency : string;
  PaymentMethodID : string
}.

(** [paymentmethod.Attach(pm, {Customer: cid})]. *)
Definition paymentmethod_Attach (pm cid : string) : M (option error) :=
  record (PaymentMethodAttach pm cid) ;;;
  f <- next_stripe_fault ;;
  match f with
  | Some e => ret (Some e)
  | None => fun w => (None, with_attached w (attached w ++ [(pm, cid)]))
  end.

(** [paymentintent.New(params)]: a new intent of a new id, waiting for its
    confirmation. *)
Definition paymentintent_New (params : Stripe.PaymentIntentParams)
  : M (Stripe.PaymentIntent + error) :=
  record (PaymentIntentNew params) ;;;
  f <- next_stripe_fault ;;
  match f with
  | Some e => ret (inr e)
  | None => fun w =>
      let p := {| Stripe.pi_ID := fresh_id "pi_" (List.length (intents w));
                  Stripe.pi_Status :=
                    Stripe.PaymentIntentStatusRequiresConfirmation;
                  Stripe.pi_Amount := Stripe.Amount params |} in
      (inl p, with_intents w (intents w ++ [(p, params)]))
  end.

Definition dquote : string := String (ascii_of_nat 34) EmptyString.
Definition backslash : string := String (ascii_of_nat 92) EmptyString.

(** A JSON string literal: quotes and backslashes escaped (the ids the
    processor issues hold letters, digits and underscores only). *)
Fixpoint json_escape (s : string) : string :=
  match s with
  | EmptyString => EmptyString
  | String c s' =>
      (if Ascii.eqb c (ascii_of_nat 34) then backslash ++ dquote
       else if Ascii.eqb c (ascii_of_nat 92) then backslash ++ backslash
       else String c EmptyString) ++ json_escape s'
  end.

Definition json_string (s : string) : string :=
  dquote ++ json_escape s ++ dquote.

(** [json.Marshal(map[string]string{k: v})]; a map of strings always
    encodes. *)
Definition json_Marshal (k v : string) : string + error :=
  inl ("{" ++ json_string k ++ ":" ++ json_string v ++ "}").

Definition status_only (code : Z) : APIGatewayProxyResponse :=
  {| StatusCode := code; Body := ""; Headers := [] |}.

Definition createPaymentIntent
    (request : APIGatewayProxyRequest PaymentIntentRequest)
  : M (APIGatewayProxyResponse * option error) :=
  match RequestBody request with
  | Malformed err => ret (status_only StatusBadRequest, Some err)
  | Decoded paymentIntent =>
      let userID := CognitoIdentityPoolID request in
      q <- db_QueryRow_user userID ;;
      match q with
      | inr err =>
          ret ({| StatusCode := StatusInternalServerError;
                  Body := "Error retrieving user from database";
                  Headers := json_headers |}, Some err)
      | inl user =>
          match Ledger.StripeID user with
          | None =>
              ret ({| StatusCode := StatusOK;
                      Body := "Customer does not have a Stripe customer ID. Are they registered as a customer?";
                      Headers := json_headers |}, None)
          | Some stripeID =>
              err <- paymentmethod_Attach (PaymentMethodID paymentIntent)
                       stripeID ;;
              match err with
              | Some e =>
                  printf ("Error attaching payment method: " ++ e) ;;;
                  ret (status_only StatusInternalServerError, Some e)
              | None =>
                  let params :=
                    {| Stripe.Amount := Amount paymentIntent;
                       Stripe.Currency := Currency paymentIntent;
                       Stripe.Customer_ := stripeID;
                       Stripe.PaymentMethod := PaymentMethodID paymentIntent;
                       Stripe.SetupFutureUsage := "off_session" |} in
                  r <- paymentintent_New params ;;
                  match r with
                  | inr e =>
                      printf ("Error creating payment intent: " ++ e) ;;;
                      ret (status_only StatusInternalServerError, Some e)
                  | inl p =>
                      match json_Marshal "payment_intent_id"
                              (Stripe.pi_ID p) with
                      | inr e =>
                          printf ("Error marshaling response: " ++ e) ;;;
                          ret (status_only StatusInternalServerError,
                               Some "internal server error")
                      | inl response =>
                          ret ({| StatusCode := StatusOK;
                                  Body := response;
                                  Headers := [] |}, None)
                      end
                  end
              end
          end
      end
  end.

End CreatePaymentIntent.

(** ** Program 4: the confirmation state machine *)

Module ConfirmPayment.

Record ConfirmPaymentRequest := { PaymentIntentID : string }.

(** [paymentintent.Confirm(id, nil)]: the processor's next answer, for
    the intent asked about; no answer is a failed call. *)
Definition paymentintent_Confirm (id : string)
  : M (Stripe.PaymentIntent + error) :=
  record (PaymentIntentConfirm id) ;;;
  fun w => match confirm_outcomes w with
           | [] => (inr "processor unavailable", w)
           | o :: os =>
               (match o with
                | inl e => inr e
                | inr (st, amt) =>
                    inl {| Stripe.pi_ID := id; Stripe.pi_Status := st;
                           Stripe.pi_Amount := amt |}
                end, with_confirm_outcomes w os)
           end.

Definition insertTransaction (transactionID userID transactionType
    transactionStatus : string) (transactionDate : Ledger.DateArg)
    (amount : float64) : M (option error) :=
  let row := {| Ledger.TransactionID := transactionID;
                Ledger.OwnerID := userID;
                Ledger.TransactionType := transactionType;
                Ledger.Amount := amount;
                Ledger.TransactionStatus := transactionStatus;
                Ledger.TransactionDate := transactionDate |} in
  err <- db_Exec (ExecInsertTransaction row)
           (fun w => with_history w (Ledger.insert (history w) row)) ;;
  match err with
  | Some e => ret (Some ("error inserting new transaction: " ++ e))
  | None =>
      printf ("Inserted new transaction record successfully for user ID "
              ++ userID) ;;;
      ret None
  end.

Definition pending_response : APIGatewayProxyResponse :=
  {| StatusCode := 200;
     Body := "Payment succeeded and is pending. Funds will be available once payment is confrimed from Stripe.";
     Headers := [] |}.

Definition newline : string := String (ascii_of_nat 10) EmptyString.

Definition confirmPayment
    (request : APIGatewayProxyRequest ConfirmPaymentRequest)
  : M (APIGatewayProxyResponse * option error) :=
  match RequestBody request with
  | Malformed err =>
      ret ({| StatusCode := StatusBadRequest; Body := ""; Headers := [] |},
           Some err)
  | Decoded body =>
      r <- paymentintent_Confirm (PaymentIntentID body) ;;
      match r with
      | inr err =>
          ret ({| StatusCode := StatusInternalServerError; Body := "";
                  Headers := [] |}, Some err)
      | inl p =>
          let st := Stripe.pi_Status p in
          if String.eqb st Stripe.PaymentIntentStatusRequiresAction then
            ret ({| StatusCode := 200;
                    Body := "Additional authentication required. Possible issues with 3D secure auth "
                            ++ newline ++ " " ++ st;
                    Headers := [] |}, None)
          else if String.eqb st Stripe.PaymentIntentStatusSucceeded then
            currentTime <- time_Now ;;
            insertTransaction (Stripe.pi_ID p) (CognitoIdentityPoolID request)
              "Deposit" "Pending" (Ledger.DateGoString currentTime)
              (float64_of_int64 (Stripe.pi_Amount p)) ;;;
            ret (pending_response, None)
          else if String.eqb st Stripe.PaymentIntentStatusRequiresConfirmation
          then
            r2 <- paymentintent_Confirm (Stripe.pi_ID p) ;;
            match r2 with
            | inr _ =>
                ret ({| StatusCode := 500;
                        Body := "Failed to confirm payment intent";
                        Headers := [] |}, None)
            | inl piAttemptTwo =>
                if String.eqb (Stripe.pi_Status piAttemptTwo)
                     Stripe.PaymentIntentStatusSucceeded then
                  currentTime <- time_Now ;;
                  insertTransaction (Stripe.pi_ID p)
                    (CognitoIdentityPoolID request)
                    "Deposit" "Pending" (Ledger.DateGoString currentTime)
                    (float64_of_int64 (Stripe.pi_Amount piAttemptTwo)) ;;;
                  ret (pending_response, None)
                else
                  ret ({| StatusCode := 400;
                          Body := "Tried to confirm the payment again, but failed... "
                                  ++ newline
                                  ++ Stripe.pi_Status piAttemptTwo;
                          Headers := [] |}, None)
            end
          else
            ret ({| StatusCode := 400;
                    Body := "Unhandled payment intent status "
                            ++ newline ++ " " ++ st;
                    Headers := [] |}, None)
      end
  end.

End ConfirmPayment.

(** ** Observations on runs *)

(** The statements that write to the ledger. *)
Definition is_ledger_write (c : Call) : bool :=
  match c with
  | ExecUpdateBalance _ _ | ExecUpdateTransaction _ _ _
  | ExecInsertTransaction _ | ExecUpdateStripeID _ _ => true
  | _ => false
  end.

Definition is_confirm_call (c : Call) : bool :=
  match c with
  | PaymentIntentConfirm _ => true
  | _ => false
  end.

Definition is_processor_call (c : Call) : bool :=
  match c with
  | CustomerGet _ | CustomerNew _ _ _ | PaymentMethodAttach _ _
  | PaymentIntentNew _ | PaymentIntentConfirm _ => true
  | _ => false
  end.

Definition count_calls (p : Call -> bool) (cs : list Call) : nat :=
  List.length (filter p cs).

(** The calls issued between two worlds of one run. *)
Definition calls_since (w w' : World) : list Call :=
  skipn (List.length (trace w)) (trace w').

Arguments calls_since : simpl never.

(** Whether a diagnostic text shows in what the handler returns: in the body
    of the response or in the error. *)
Definition contains (text s : string) : bool :=
  match String.index 0 text s with
  | Some _ => true
  | None => false
  end.

Definition carries_detail (out : APIGatewayProxyResponse * option error)
    (detail : string) : bool :=
  contains detail (Body (fst out))
  || match snd out with
     | Some e => contains detail e
     | None => false
     end.

(** A transaction row without its date. *)
Definition undated (t : Ledger.Transaction)
  : string * string * string * float64 * string :=
  (Ledger.TransactionID t, Ledger.OwnerID t, Ledger.TransactionType t,
   Ledger.Amount t, Ledger.TransactionStatus t).

(** [n] deliveries of one webhook request, one after the other. *)
Fixpoint deliver (n : nat)
    (request : APIGatewayProxyRequest Webhook.StripeWebhookEvent)
    (w : World) : World :=
  match n with
  | O => w
  | S n' => deliver n' request (snd (Webhook.webhook request w))
  end.

(** What [updateUserBalance] hands to the store for an amount in cents. *)
Definition balance_delta (amount : Z) : float64 :=
  float64_div (float64_of_int64 amount) float64_100.

(** *** Sample data *)

Definition no_world : World :=
  {| users := []; history := []; db_faults := []; customers := [];
     intents := []; attached := []; stripe_faults := [];
     confirm_outcomes := []; clock := 0; logs := []; trace := [] |}.

Definition sample_user (balance : Q) (cus : option string) : Ledger.User :=
  {| Ledger.UserID := "7"; Ledger.Username := "jenny";
     Ledger.Email := "jenny@example.com"; Ledger.PhoneNumber := "";
     Ledger.DateOfBirth := ""; Ledger.AccountVerificationStatus := "";
     Ledger.CreatedAt := ""; Ledger.UpdatedAt := "";
     Ledger.AccountBalance := balance; Ledger.StripeID := cus |}.

Definition sample_customer : Stripe.Customer :=
  {| Stripe.ID := "cus_0"; Stripe.Email := "jenny@example.com";
     Stripe.Name := "jenny"; Stripe.Metadata := [("UserID", "7")] |}.

Definition sample_pending (tid : string) (cents : Z) : Ledger.Transaction :=
  {| Ledger.TransactionID := tid; Ledger.OwnerID := "7";
     Ledger.TransactionType := "Deposit";
     Ledger.Amount := float64_of_int64 cents;
     Ledger.TransactionStatus := "Pending";
     Ledger.TransactionDate := Ledger.DateGoString 0 |}.

Definition succeeded_event (tid : string) (cents : Z)
  : Webhook.StripeWebhookEvent :=
  {| Webhook.Type_ := "payment_intent.succeeded";
     Webhook.Data :=
       {| Webhook.Object :=
            {| Webhook.ID := tid; Webhook.Amount := cents;
               Webhook.Currency := "usd"; Webhook.Description := "deposit";
               Webhook.Customer := "cus_0" |} |} |}.

Definition request_of {A} (body : Unmarshal A) : APIGatewayProxyRequest A :=
  {| RequestBody := body; CognitoIdentityPoolID := "7" |}.

(** A ledger with user 7 (mapped to [cus_0], balance 0) and the given
    transaction rows. *)
Definition ledger_world (ts : list Ledger.Transaction) : World :=
  with_customers
    (with_history (with_users no_world [sample_user 0 (Some "cus_0")]) ts)
    [sample_customer].

(** * Properties *)

(** ** The primitive effects, as equations *)

Lemma db_Exec_eq (c : Call) (effect : World -> World) (w : World) :
  db_Exec c effect w =
  let w1 := with_trace w (trace w ++ [c]) in
  match db_faults w with
  | [] => (None, effect w1)
  | Some e :: fs => (Some e, with_db_faults w1 fs)
  | None :: fs => (None, effect (with_db_faults w1 fs))
  end.
Proof.
  unfold db_Exec, bind, record, next_db_fault, ret; simpl.
  destruct (db_faults w) as [|[e|] fs]; reflexivity.
Qed.

Lemma db_QueryRow_user_eq (uid : string) (w : World) :
  db_QueryRow_user uid w =
  let w1 := with_trace w (trace w ++ [QueryUser uid]) in
  match db_faults w with
  | Some e :: fs => (inr e, with_db_faults w1 fs)
  | None :: fs =>
      (match Ledger.select_user (users w) uid with
       | Some u => inl u
       | None => inr ErrNoRows
       end, with_db_faults w1 fs)
  | [] =>
      (match Ledger.select_user (users w) uid with
       | Some u => inl u
       | None => inr ErrNoRows
       end, w1)
  end.
Proof.
  unfold db_QueryRow_user, bind, record, next_db_fault, ret; simpl.
  destruct (db_faults w) as [|[e|] fs]; simpl;
    destruct (Ledger.select_user (users w) uid); reflexivity.
Qed.

Lemma calls_since_app (w w' : World) (cs : list Call) :
  trace w' = (trace w ++ cs)%list -> calls_since w w' = cs.
Proof.
  intros H. unfold calls_since. rewrite H.
  rewrite skipn_app, skipn_all, Nat.sub_diag. reflexivity.
Qed.

Lemma count_since (w w' : World) (cs : list Call) (p : Call -> bool)
    (n : nat) :
  trace w' = (trace w ++ cs)%list -> count_calls p cs = n ->
  count_calls p (calls_since w w') = n.
Proof.
  intros T C. rewrite (calls_since_app _ _ _ T). exact C.
Qed.

(** ** The ledger's statements *)

Lemma select_user_add_balance (us : list Ledger.User) (d : float64)
    (uid : string) :
  Ledger.select_user (Ledger.add_balance us d uid) uid =
  option_map
    (fun u => Ledger.set_balance u (Qred (Ledger.AccountBalance u + float64_to_Q d)))
    (Ledger.select_user us uid).
Proof.
  induction us as [|u us IH]; simpl; [reflexivity|].
  destruct (String.eqb (Ledger.UserID u) uid) eqn:E; simpl; rewrite E.
  - reflexivity.
  - exact IH.
Qed.

Lemma update_status_twice (ts : list Ledger.Transaction) (st : string)
    (d1 d2 : Ledger.DateArg) (tid : string) :
  Ledger.update_status (Ledger.update_status ts st d1 tid) st d2 tid =
  Ledger.update_status ts st d2 tid.
Proof.
  unfold Ledger.update_status. rewrite map_map. apply map_ext.
  intros t. destruct (String.eqb (Ledger.TransactionID t) tid) eqn:E; simpl;
    rewrite E; reflexivity.
Qed.

Lemma undated_update_status (ts : list Ledger.Transaction) (st : string)
    (d1 d2 : Ledger.DateArg) (tid : string) :
  map undated (Ledger.update_status ts st d1 tid) =
  map undated (Ledger.update_status ts st d2 tid).
Proof.
  unfold Ledger.update_status. rewrite !map_map. apply map_ext.
  intros t. destruct (String.eqb (Ledger.TransactionID t) tid); reflexivity.
Qed.

Lemma update_status_absent (ts : list Ledger.Transaction) (st : string)
    (d : Ledger.DateArg) (tid : string) :
  Ledger.records_of ts tid = [] -> Ledger.update_status ts st d tid = ts.
Proof.
  unfold Ledger.records_of, Ledger.update_status.
  induction ts as [|t ts IH]; simpl; [reflexivity|].
  destruct (String.eqb (Ledger.TransactionID t) tid); [discriminate|].
  intros H. rewrite (IH H). reflexivity.
Qed.

Lemma records_of_update_status (ts : list Ledger.Transaction) (st : string)
    (d : Ledger.DateArg) (tid : string) :
  Forall (fun t => Ledger.TransactionStatus t = st
                   /\ Ledger.TransactionDate t = d)
         (Ledger.records_of (Ledger.update_status ts st d tid) tid).
Proof.
  unfold Ledger.records_of, Ledger.update_status.
  induction ts as [|t ts IH]; simpl; [constructor|].
  destruct (String.eqb (Ledger.TransactionID t) tid) eqn:E; simpl; rewrite E.
  - constructor; [split; reflexivity | exact IH].
  - exact IH.
Qed.

(** Traces grow at the end; these put a run's calls in one list. *)
Lemma snoc2 {A} (l : list A) (a b : A) :
  (l ++ [a; b])%list = ((l ++ [a]) ++ [b])%list.
Proof. rewrite <- app_assoc. reflexivity. Qed.

Lemma snoc3 {A} (l : list A) (a b c : A) :
  (l ++ [a; b; c])%list = (((l ++ [a]) ++ [b]) ++ [c])%list.
Proof. rewrite <- !app_assoc. reflexivity. Qed.

(** Runs are computed on a world taken apart into its fields. *)
Ltac open_world w :=
  destruct w as [us hs dbf cs ps att sf co ck lg tr];
  cbn [users history db_faults customers intents attached stripe_faults
       confirm_outcomes clock logs trace hd tl] in *.

Ltac conjuncts :=
  repeat match goal with |- _ /\ _ => split end.

(** ** The webhook reconciler *)

Section WebhookRun.

Variable request : APIGatewayProxyRequest Webhook.StripeWebhookEvent.
Variable event : Webhook.StripeWebhookEvent.
Hypothesis Hbody : RequestBody request = Decoded event.
Hypothesis Htype : Webhook.Type_ event = "payment_intent.succeeded".

Let tid := Webhook.ID (Webhook.Object (Webhook.Data event)).
Let cents := Webhook.Amount (Webhook.Object (Webhook.Data event)).
Let uid := CognitoIdentityPoolID request.

(** A delivery of a success event that meets no fault of the store: the
    two statements, in this order, and the answer 200. *)
Lemma webhook_succeeded_run (w : World) :
  hd None (db_faults w) = None ->
  hd None (tl (db_faults w)) = None ->
  let out := Webhook.webhook request w in
  fst out = (Webhook.received event, None)
  /\ users (snd out) = Ledger.add_balance (users w) (balance_delta cents) uid
  /\ history (snd out) =
     Ledger.update_status (history w) "Completed"
       (Ledger.DateTime (clock w)) tid
  /\ db_faults (snd out) = tl (tl (db_faults w))
  /\ clock (snd out) = clock w + 1
  /\ trace (snd out) =
     (trace w ++ [ExecUpdateTransaction tid "Completed"
                    (Ledger.DateTime (clock w));
                  ExecUpdateBalance (balance_delta cents) uid])%list.
Proof.
  intros H1 H2. unfold Webhook.webhook. rewrite Hbody, Htype.
  rewrite snoc2. open_world w.
  destruct dbf as [|[e|] [|[e'|] fs]];
    try discriminate H1; try discriminate H2; conjuncts; reflexivity.
Qed.

(** The store refuses the update of the transaction: nothing is written. *)
Lemma webhook_history_fault_run (w : World) (e : error)
    (fs : list (option error)) :
  db_faults w = Some e :: fs ->
  let out := Webhook.webhook request w in
  fst out = ({| StatusCode := StatusInternalServerError;
                Body := "Failed to update transaction history";
                Headers := [] |}, None)
  /\ users (snd out) = users w
  /\ history (snd out) = history w
  /\ In ("Error updating transaction history: updateTransactionHistory: "
         ++ e) (logs (snd out)).
Proof.
  intros H. unfold Webhook.webhook. rewrite Hbody, Htype.
  open_world w. subst dbf. conjuncts; try reflexivity.
  cbn. apply in_or_app. right. left. reflexivity.
Qed.

(** The store takes the update of the transaction and refuses the one of
    the balance. *)
Lemma webhook_balance_fault_run (w : World) (e : error)
    (fs : list (option error)) :
  db_faults w = None :: Some e :: fs ->
  let out := Webhook.webhook request w in
  fst out = ({| StatusCode := StatusInternalServerError;
                Body := "Failed to update user balance";
                Headers := [] |}, None)
  /\ users (snd out) = users w
  /\ In ("Error updating user balance: updateUserBalance: " ++ e)
        (logs (snd out)).
Proof.
  intros H. unfold Webhook.webhook. rewrite Hbody, Htype.
  open_world w. subst dbf. conjuncts; try reflexivity.
  cbn. apply in_or_app. right. left. reflexivity.
Qed.

End WebhookRun.

(** *** Repeated deliveries *)

Section WebhookDeliveries.

Variable request : APIGatewayProxyRequest Webhook.StripeWebhookEvent.
Variable event : Webhook.StripeWebhookEvent.
Hypothesis Hbody : RequestBody request = Decoded event.
Hypothesis Htype : Webhook.Type_ event = "payment_intent.succeeded".

Let tid := Webhook.ID (Webhook.Object (Webhook.Data event)).
Let cents := Webhook.Amount (Webhook.Object (Webhook.Data event)).
Let uid := CognitoIdentityPoolID request.

Lemma deliver_no_fault (n : nat) (w : World) :
  db_faults w = [] -> db_faults (deliver n request w) = [].
Proof.
  revert w. induction n as [|n IH]; intros w H; simpl; [exact H|].
  apply IH.
  destruct (webhook_succeeded_run request event Hbody Htype w)
    as (_ & _ & _ & F & _); rewrite ?H; try reflexivity.
  rewrite F, H. reflexivity.
Qed.

(** Every delivery reads the clock once. *)
Lemma deliver_clock (n : nat) (w : World) :
  db_faults w = [] ->
  clock (deliver n request w) = clock w + Z.of_nat n.
Proof.
  revert w. induction n as [|n IH]; intros w H.
  - simpl. lia.
  - destruct (webhook_succeeded_run request event Hbody Htype w)
      as (_ & _ & _ & F & Hc & _); rewrite ?H; try reflexivity.
    change (deliver (S n) request w)
      with (deliver n request (snd (Webhook.webhook request w))).
    rewrite IH by (rewrite F, H; reflexivity).
    rewrite Hc. lia.
Qed.

(** After one or more deliveries the rows are those of the first delivery,
    dated by the last one. *)
Lemma deliver_history (n : nat) (w : World) :
  db_faults w = [] ->
  history (deliver (S n) request w) =
  Ledger.update_status (history w) "Completed"
    (Ledger.DateTime (clock w + Z.of_nat n)) tid.
Proof.
  revert w. induction n as [|n IH]; intros w H.
  - destruct (webhook_succeeded_run request event Hbody Htype w)
      as (_ & _ & Hh & _); rewrite ?H; try reflexivity.
    simpl. rewrite Hh, Z.add_0_r. reflexivity.
  - destruct (webhook_succeeded_run request event Hbody Htype w)
      as (_ & _ & Hh & F & Hc & _); rewrite ?H; try reflexivity.
    change (deliver (S (S n)) request w)
      with (deliver (S n) request (snd (Webhook.webhook request w))).
    rewrite IH by (rewrite F, H; reflexivity).
    rewrite Hh, Hc, update_status_twice.
    replace (clock w + 1 + Z.of_nat n) with (clock w + Z.of_nat (S n)) by lia.
    reflexivity.
Qed.

(** Every delivery adds the amount once more. *)
Lemma deliver_balance (n : nat) (w : World) (u : Ledger.User) :
  db_faults w = [] ->
  Ledger.select_user (users w) uid = Some u ->
  exists u',
    Ledger.select_user (users (deliver n request w)) uid = Some u'
    /\ (Ledger.AccountBalance u' ==
        Ledger.AccountBalance u
        + inject_Z (Z.of_nat n) * float64_to_Q (balance_delta cents))%Q.
Proof.
  revert w u. induction n as [|n IH]; intros w u H Hu.
  - exists u. split; [exact Hu|]. simpl. ring.
  - destruct (webhook_succeeded_run request event Hbody Htype w)
      as (_ & Hus & _ & F & _); rewrite ?H; try reflexivity.
    change (deliver (S n) request w)
      with (deliver n request (snd (Webhook.webhook request w))).
    destruct (IH (snd (Webhook.webhook request w))
                (Ledger.set_balance u
                   (Qred (Ledger.AccountBalance u
                          + float64_to_Q (balance_delta cents)))))
      as (u' & Hu' & Hb).
    + rewrite F, H. reflexivity.
    + rewrite Hus, select_user_add_balance. fold uid. rewrite Hu. reflexivity.
    + exists u'. split; [exact Hu'|].
      rewrite Hb. cbn [Ledger.AccountBalance Ledger.set_balance].
      rewrite Qred_correct, Nat2Z.inj_succ.
      unfold Z.succ. rewrite inject_Z_plus. ring.
Qed.

End WebhookDeliveries.

(** ** Money as binary64

    [updateUserBalance] divides the cents by [100.0] in [float64].  The
    lemmas below follow the Standard Library's specification of the
    conversion and of the division far enough to say when the quotient is
    the exact number of currency units. *)

Lemma digits2_pos_log2 (p : positive) :
  Zpos (digits2_pos p) = Z.log2 (Zpos p) + 1.
Proof.
  assert (S : forall q, digits2_pos q = Pos.size q).
  { induction q; simpl; congruence. }
  rewrite S. destruct p; simpl; lia.
Qed.

Lemma iter_xO (p k : positive) :
  Zpos (Pos.iter xO p k) = Zpos p * 2 ^ Zpos k.
Proof.
  induction k using Pos.peano_ind.
  - simpl. lia.
  - rewrite Pos.iter_succ, Pos2Z.inj_succ, Z.pow_succ_r by lia.
    rewrite Pos2Z.inj_xO, IHk. lia.
Qed.

Lemma round_exact_53 (s : bool) (m : positive) (e : Z) :
  Z.log2 (Zpos m) = 52 -> -1074 <= e <= 971 ->
  binary_round_aux prec64 emax64 s (Zpos m) e loc_Exact = S754_finite s m e.
Proof.
  intros L He.
  unfold binary_round_aux, shr_fexp, Zdigits2.
  rewrite digits2_pos_log2, L.
  replace (fexp prec64 emax64 (52 + 1 + e) - e) with 0
    by (unfold fexp, emin, prec64, emax64; lia).
  cbn [shr shr_record_of_loc shr_m loc_of_shr_record round_nearest_even Zdigits2].
  rewrite digits2_pos_log2, L.
  replace (fexp prec64 emax64 (52 + 1 + e) - e) with 0
    by (unfold fexp, emin, prec64, emax64; lia).
  cbn [shr shr_record_of_loc shr_m].
  replace (e <=? emax64 - prec64) with true; [reflexivity|].
  symmetry. apply Z.leb_le. unfold emax64, prec64. lia.
Qed.

Lemma round_exact_54 (s : bool) (m : positive) (e : Z) :
  Z.log2 (Zpos m) = 52 -> -1075 <= e <= 970 ->
  binary_round_aux prec64 emax64 s (Zpos (xO m)) e loc_Exact
  = S754_finite s m (e + 1).
Proof.
  intros L He.
  assert (L' : Z.log2 (Zpos (xO m)) = 53).
  { rewrite Pos2Z.inj_xO, Z.log2_double by lia. lia. }
  unfold binary_round_aux, shr_fexp, Zdigits2.
  rewrite digits2_pos_log2, L'.
  replace (fexp prec64 emax64 (53 + 1 + e) - e) with 1
    by (unfold fexp, emin, prec64, emax64; lia).
  cbn [shr shr_record_of_loc shr_m loc_of_shr_record round_nearest_even
       Zdigits2 iter_pos shr_1 orb].
  rewrite digits2_pos_log2, L.
  replace (fexp prec64 emax64 (52 + 1 + (e + 1)) - (e + 1)) with 0
    by (unfold fexp, emin, prec64, emax64; lia).
  cbn [shr shr_record_of_loc shr_m].
  replace (e + 1 <=? emax64 - prec64) with true; [reflexivity|].
  symmetry. apply Z.leb_le. unfold emax64, prec64. lia.
Qed.

Lemma float64_100_eq : float64_100 = S754_finite false 7036874417766400 (-46).
Proof. reflexivity. Qed.

Lemma float64_of_int64_pos (p : positive) :
  Zpos p < 2 ^ 53 ->
  exists m,
    float64_of_int64 (Zpos p) = S754_finite false m (Z.log2 (Zpos p) - 52)
    /\ Zpos m = Zpos p * 2 ^ (52 - Z.log2 (Zpos p))
    /\ Z.log2 (Zpos m) = 52.
Proof.
  intros B.
  assert (L0 : 0 <= Z.log2 (Zpos p)) by apply Z.log2_nonneg.
  assert (L1 : Z.log2 (Zpos p) < 53) by (apply Z.log2_lt_pow2; lia).
  unfold float64_of_int64, binary_normalize, binary_round, shl_align.
  rewrite digits2_pos_log2.
  set (l := Z.log2 (Zpos p)) in *.
  replace (fexp prec64 emax64 (l + 1 + 0)) with (l - 52)
    by (unfold fexp, emin, prec64, emax64; lia).
  destruct (l - 52 - 0) as [|d|d] eqn:D; try lia.
  - exists p. assert (l = 52) by lia.
    replace (52 - l) with 0 by lia. rewrite Z.mul_1_r.
    split; [|split; [reflexivity | assumption]].
    replace (l - 52) with 0 by lia.
    apply round_exact_53; [assumption | lia].
  - exists (Pos.iter xO p d).
    assert (E : Zpos (Pos.iter xO p d) = Zpos p * 2 ^ (52 - l)).
    { rewrite iter_xO. f_equal. f_equal. lia. }
    assert (L : Z.log2 (Zpos (Pos.iter xO p d)) = 52).
    { rewrite E, Z.log2_mul_pow2 by lia. fold l. lia. }
    split; [|split; assumption].
    apply round_exact_53; [assumption | lia].
Qed.

(** The amount [insertTransaction] is handed, [float64(pi.Amount)], is the
    amount itself below 2^53; above, the conversion rounds. *)
Lemma float64_of_int64_exact (a : Z) :
  0 <= a < 2 ^ 53 ->
  (float64_to_Q (float64_of_int64 a) == inject_Z a)%Q.
Proof.
  intros [H0 Hb]. destruct a as [|p|p]; try lia; [reflexivity|].
  destruct (float64_of_int64_pos p Hb) as (m & Em & Vm & Lm).
  assert (L0 : 0 <= Z.log2 (Zpos p)) by apply Z.log2_nonneg.
  assert (L1 : Z.log2 (Zpos p) < 53) by (apply Z.log2_lt_pow2; lia).
  rewrite Em. unfold float64_to_Q.
  destruct (Z.log2 (Zpos p) - 52) as [|e|e] eqn:E; try lia.
  - replace (52 - Z.log2 (Zpos p)) with 0 in Vm by lia.
    rewrite Vm, Z.mul_1_r. reflexivity.
  - unfold Qeq. cbn [Qnum Qden inject_Z]. rewrite Pos2Z.inj_pow, Vm.
    replace (Zpos e) with (52 - Z.log2 (Zpos p)) by lia. ring.
Qed.

Lemma float64_of_int64_rounds :
  float64_of_int64 (2 ^ 53 + 1) = float64_of_int64 (2 ^ 53).
Proof. reflexivity. Qed.

Lemma div_by_100_core (m : positive) (l k : Z) :
  Z.log2 (Zpos m) = 52 -> 0 <= l <= 52 -> 0 < k ->
  Zpos m = 25 * k * 2 ^ (52 - l) ->
  SFdiv_core_binary prec64 emax64 (Zpos m) (l - 52)
    (Zpos 7036874417766400) (-46)
  = (k * 2 ^ (57 - l), l - 59, loc_Exact).
Proof.
  intros L Hl Hk E.
  unfold SFdiv_core_binary, Zdigits2. rewrite digits2_pos_log2, L.
  change (Zpos (digits2_pos 7036874417766400)) with 53.
  cbv zeta.
  replace (Z.min (fexp prec64 emax64 (52 + 1 + (l - 52) - (53 + -46)))
             (l - 52 - -46)) with (l - 59)
    by (unfold fexp, emin, prec64, emax64; lia).
  replace (l - 52 - -46 - (l - 59)) with 53 by lia.
  rewrite Z.shiftl_mul_pow2 by lia.
  assert (X : Zpos m * 2 ^ 53 = Zpos 7036874417766400 * (k * 2 ^ (57 - l))).
  { rewrite E. change (Zpos 7036874417766400) with (25 * 2 ^ 48).
    replace (2 ^ 53) with (2 ^ 48 * 2 ^ 5) by reflexivity.
    replace (57 - l) with (5 + (52 - l)) by lia.
    rewrite (Z.pow_add_r 2 5 (52 - l)) by lia. ring. }
  pose proof (Z_div_mod (Zpos m * 2 ^ 53) (Zpos 7036874417766400) eq_refl) as DM.
  destruct (Z.div_eucl (Zpos m * 2 ^ 53) (Zpos 7036874417766400)) as [q r].
  destruct DM as [DM Hr]. rewrite X in DM.
  assert (q = k * 2 ^ (57 - l) /\ r = 0) as [-> ->] by nia.
  reflexivity.
Qed.

Lemma quotient_digits (a k l : Z) :
  0 < k -> a = 25 * k -> l = Z.log2 a -> 0 <= l <= 52 ->
  let q := k * 2 ^ (57 - l) in
  0 < q /\ (Z.log2 q = 52 \/ Z.log2 q = 53) /\ Z.even q = true.
Proof.
  intros Hk Ha Hl Bl q.
  assert (Pa : 0 < a) by lia.
  destruct (Z.log2_spec a Pa) as [Lo Hi]. rewrite <- Hl in Lo, Hi.
  assert (PP : 0 < 2 ^ (57 - l)) by (apply Z.pow_pos_nonneg; lia).
  assert (Pq : 0 < q) by (unfold q; nia).
  assert (E57 : 2 ^ l * 2 ^ (57 - l) = 2 ^ 57).
  { rewrite <- Z.pow_add_r by lia. f_equal. lia. }
  assert (E58 : 2 ^ Z.succ l * 2 ^ (57 - l) = 2 ^ 58).
  { rewrite <- Z.pow_add_r by lia. f_equal. lia. }
  assert (B1 : 2 ^ 57 <= 25 * q) by (unfold q; nia).
  assert (B2 : 25 * q < 2 ^ 58) by (unfold q; nia).
  split; [exact Pq|]. split.
  - assert (52 <= Z.log2 q) by (apply Z.log2_le_pow2; [exact Pq|]; lia).
    assert (Z.log2 q < 54) by (apply Z.log2_lt_pow2; [exact Pq|]; lia).
    lia.
  - unfold q. replace (57 - l) with (Z.succ (56 - l)) by lia.
    rewrite Z.pow_succ_r by lia.
    replace (k * (2 * 2 ^ (56 - l))) with (2 * (k * 2 ^ (56 - l))) by ring.
    rewrite Z.even_mul. reflexivity.
Qed.

Lemma balance_delta_exact_pos (a k : Z) :
  0 < k -> a = 25 * k -> a < 2 ^ 53 ->
  (float64_to_Q (balance_delta a) == a # 100)%Q.
Proof.
  intros Hk Ha Hb.
  destruct a as [|p|p]; try lia.
  destruct (float64_of_int64_pos p Hb) as (m & Em & Vm & Lm).
  set (l := Z.log2 (Zpos p)) in *.
  assert (Bl : 0 <= l <= 52).
  { split; [apply Z.log2_nonneg|].
    assert (l < 53) by (apply Z.log2_lt_pow2; lia). lia. }
  unfold balance_delta. rewrite Em, float64_100_eq. unfold float64_div, SFdiv.
  rewrite (div_by_100_core m l k Lm Bl Hk) by (rewrite Vm, Ha; ring).
  destruct (quotient_digits (Zpos p) k l Hk Ha eq_refl Bl) as (Pq & Dq & Eq).
  destruct (k * 2 ^ (57 - l)) as [|q|q] eqn:Q; try lia.
  cbn [xorb].
  assert (V : Zpos q * 100 = Zpos p * 2 ^ (59 - l)).
  { rewrite <- Q, Ha. replace (59 - l) with (2 + (57 - l)) by lia.
    rewrite Z.pow_add_r by lia. change (2 ^ 2) with 4. ring. }
  destruct Dq as [Dq|Dq].
  - rewrite round_exact_53 by (try assumption; lia).
    unfold float64_to_Q.
    destruct (l - 59) as [|e|e] eqn:He; try lia.
    unfold Qeq. cbn [Qnum Qden]. rewrite Pos2Z.inj_pow.
    replace (Zpos e) with (59 - l) by lia. exact V.
  - destruct q as [q|q|]; try discriminate Eq.
    assert (Lq : Z.log2 (Zpos q) = 52).
    { rewrite Pos2Z.inj_xO, Z.log2_double in Dq by lia. lia. }
    rewrite round_exact_54 by (try assumption; lia).
    unfold float64_to_Q.
    destruct (l - 59 + 1) as [|e|e] eqn:He; try lia.
    unfold Qeq. cbn [Qnum Qden]. rewrite Pos2Z.inj_pow.
    replace (Zpos e) with (58 - l) by lia.
    rewrite Pos2Z.inj_xO in V.
    replace (59 - l) with (Z.succ (58 - l)) in V by lia.
    rewrite Z.pow_succ_r in V by lia. lia.
Qed.

(** The quotient is exact for every multiple of 25 cents below 2^53. *)
Lemma balance_delta_exact (a : Z) :
  0 <= a < 2 ^ 53 -> a mod 25 = 0 ->
  (float64_to_Q (balance_delta a) == a # 100)%Q.
Proof.
  intros [H0 Hb] Hm.
  destruct (Z.eq_dec a 0) as [->|N]; [reflexivity|].
  apply Z.mod_divide in Hm; [|lia]. destruct Hm as [k Hk].
  apply (balance_delta_exact_pos a k); lia.
Qed.

Lemma divide_25_pow2 (e : positive) (a : Z) :
  (25 | 2 ^ Zpos e * a) -> (25 | a).
Proof.
  induction e as [|e IH] using Pos.peano_ind; intros H.
  - apply (Z.gauss 25 2 a); [exact H | reflexivity].
  - apply IH. apply (Z.gauss 25 2); [|reflexivity].
    rewrite Pos2Z.inj_succ, Z.pow_succ_r, <- Z.mul_assoc in H by lia.
    exact H.
Qed.

(** No binary64 value is [a/100] when [a] is not a multiple of 25. *)
Lemma float64_not_hundredths (x : float64) (a : Z) :
  a mod 25 <> 0 -> ~ (float64_to_Q x == a # 100)%Q.
Proof.
  intros Hm E. apply Hm. apply Z.mod_divide; [lia|].
  assert (Z0 : forall v : Z, v * 100 = a * 1 -> (25 | a)).
  { intros v H. exists (4 * v). lia. }
  unfold float64_to_Q in E.
  destruct x as [s|s| |s m e]; try (apply (Z0 0); exact E).
  destruct e as [|e|e]; unfold Qeq in E; cbn [Qnum Qden inject_Z] in E.
  - apply (Z0 (if s then Z.neg m else Z.pos m)). exact E.
  - eapply Z0. exact E.
  - rewrite Pos2Z.inj_pow in E.
    apply (divide_25_pow2 e).
    exists (4 * (if s then Z.neg m else Z.pos m)). lia.
Qed.

(** ** Claims on the webhook reconciler *)

(** C1, as stated, fails: two deliveries of the success event of intent
    [pi_1] (2000 cents) to a ledger that holds the pending row of [pi_1]
    leave the balance at 40, one delivery leaves it at 20; the second
    delivery is not a no-op. *)
Lemma webhook_second_delivery_adds_again :
  let rq := request_of (Decoded (succeeded_event "pi_1" 2000)) in
  let w0 := ledger_world [sample_pending "pi_1" 2000] in
  Ledger.balance_of (users (deliver 1 rq w0)) "7" = Some (20 # 1)
  /\ Ledger.balance_of (users (deliver 2 rq w0)) "7" = Some (40 # 1)
  /\ users (deliver 2 rq w0) <> users (deliver 1 rq w0).
Proof.
  vm_compute. repeat split; discriminate.
Qed.

(** C1, amended: [N >= 1] deliveries of a success event (no fault of the
    store) leave the rows of TransactionHistory as one delivery leaves them
    but for TransactionDate, every row of the intent with status Completed
    and dated by the time the last delivery read, and add the amount to the
    balance of the caller's user [N] times. *)
Theorem webhook_repeated_delivery
    (request : APIGatewayProxyRequest Webhook.StripeWebhookEvent)
    (event : Webhook.StripeWebhookEvent) (w : World) (u : Ledger.User)
    (N : nat) :
  RequestBody request = Decoded event ->
  Webhook.Type_ event = "payment_intent.succeeded" ->
  db_faults w = [] ->
  Ledger.select_user (users w) (CognitoIdentityPoolID request) = Some u ->
  (1 <= N)%nat ->
  let tid := Webhook.ID (Webhook.Object (Webhook.Data event)) in
  let cents := Webhook.Amount (Webhook.Object (Webhook.Data event)) in
  let wN := deliver N request w in
  map undated (history wN) = map undated (history (deliver 1 request w))
  /\ Forall (fun t => Ledger.TransactionStatus t = "Completed")
            (Ledger.records_of (history wN) tid)
  /\ Forall (fun t => Ledger.TransactionDate t
                      = Ledger.DateTime (clock (deliver (N - 1) request w)))
            (Ledger.records_of (history wN) tid)
  /\ exists uN,
       Ledger.select_user (users wN) (CognitoIdentityPoolID request) = Some uN
       /\ (Ledger.AccountBalance uN ==
           Ledger.AccountBalance u
           + inject_Z (Z.of_nat N) * float64_to_Q (balance_delta cents))%Q.
Proof.
  intros Hbody Htype Hf Hu HN tid cents wN. subst wN.
  destruct N as [|n]; [lia|].
  rewrite (deliver_history request event Hbody Htype n w Hf).
  rewrite (deliver_history request event Hbody Htype 0 w Hf).
  split; [apply undated_update_status|].
  split; [|split].
  - eapply Forall_impl; [|apply records_of_update_status].
    intros t [Ht _]. exact Ht.
  - replace (S n - 1)%nat with n by lia.
    rewrite (deliver_clock request event Hbody Htype n w Hf).
    eapply Forall_impl; [|apply records_of_update_status].
    intros t [_ Ht]. exact Ht.
  - apply (deliver_balance request event Hbody Htype (S n) w u Hf Hu).
Qed.

Lemma webhook_repeated_delivery_witness :
  let rq := request_of (Decoded (succeeded_event "pi_1" 2000)) in
  let w0 := ledger_world [sample_pending "pi_1" 2000] in
  (1 <= 3)%nat
  /\ map undated (history (deliver 3 rq w0))
     = map undated (history (deliver 1 rq w0))
  /\ Forall (fun t => Ledger.TransactionStatus t = "Completed")
            (Ledger.records_of (history (deliver 3 rq w0)) "pi_1")
  /\ Forall (fun t => Ledger.TransactionDate t
                      = Ledger.DateTime (clock (deliver 2 rq w0)))
            (Ledger.records_of (history (deliver 3 rq w0)) "pi_1")
  /\ exists uN,
       Ledger.select_user (users (deliver 3 rq w0)) "7" = Some uN
       /\ (Ledger.AccountBalance uN ==
           0 + inject_Z (Z.of_nat 3) * float64_to_Q (balance_delta 2000))%Q.
Proof.
  intros rq w0. split; [lia|].
  apply (webhook_repeated_delivery rq (succeeded_event "pi_1" 2000) w0
           (sample_user 0 (Some "cus_0")) 3);
    [reflexivity | reflexivity | reflexivity | reflexivity | lia].
Defined.

(** C2, as stated, fails: the success event of an intent the ledger has no
    row for is answered 200 and the balance grows, but no row is created. *)
Lemma webhook_unseen_intent_no_record :
  let rq := request_of (Decoded (succeeded_event "pi_9" 2000)) in
  let out := Webhook.webhook rq (ledger_world []) in
  StatusCode (fst (fst out)) = 200
  /\ Ledger.balance_of (users (snd out)) "7" = Some (20 # 1)
  /\ history (snd out) = []
  /\ ~ (exists t, In t (history (snd out))
                  /\ Ledger.TransactionID t = "pi_9"
                  /\ Ledger.TransactionStatus t = "Completed").
Proof.
  vm_compute. repeat split; try reflexivity.
  intros (t & [] & _).
Qed.

(** C2, amended: on a success event for an intent id without a row in
    TransactionHistory the webhook (no fault of the store) answers 200 with
    a nil error, leaves TransactionHistory as it is, and adds the amount
    once to the balance of the caller's user, with two statements. *)
Theorem webhook_unseen_intent
    (request : APIGatewayProxyRequest Webhook.StripeWebhookEvent)
    (event : Webhook.StripeWebhookEvent) (w : World) (u : Ledger.User) :
  RequestBody request = Decoded event ->
  Webhook.Type_ event = "payment_intent.succeeded" ->
  Ledger.records_of (history w)
    (Webhook.ID (Webhook.Object (Webhook.Data event))) = [] ->
  hd None (db_faults w) = None ->
  hd None (tl (db_faults w)) = None ->
  Ledger.select_user (users w) (CognitoIdentityPoolID request) = Some u ->
  let cents := Webhook.Amount (Webhook.Object (Webhook.Data event)) in
  let out := Webhook.webhook request w in
  StatusCode (fst (fst out)) = StatusOK
  /\ snd (fst out) = None
  /\ history (snd out) = history w
  /\ count_calls is_ledger_write (calls_since w (snd out)) = 2%nat
  /\ exists u',
       Ledger.select_user (users (snd out)) (CognitoIdentityPoolID request)
       = Some u'
       /\ (Ledger.AccountBalance u' ==
           Ledger.AccountBalance u + float64_to_Q (balance_delta cents))%Q.
Proof.
  intros Hbody Htype Habs H1 H2 Hu cents out.
  destruct (webhook_succeeded_run request event Hbody Htype w H1 H2)
    as (Hr & Hus & Hh & _ & _ & Ht).
  fold out in Hr, Hus, Hh, Ht.
  rewrite Hr, Hh, Hus, (calls_since_app _ _ _ Ht).
  rewrite (update_status_absent _ _ _ _ Habs).
  repeat split.
  rewrite select_user_add_balance, Hu. cbn [option_map].
  eexists. split; [reflexivity|].
  cbn [Ledger.AccountBalance Ledger.set_balance]. apply Qred_correct.
Qed.

Lemma webhook_unseen_intent_witness :
  let rq := request_of (Decoded (succeeded_event "pi_9" 2000)) in
  let w := ledger_world [] in
  let out := Webhook.webhook rq w in
  Ledger.records_of (history w) "pi_9" = []
  /\ StatusCode (fst (fst out)) = StatusOK
  /\ snd (fst out) = None
  /\ history (snd out) = history w
  /\ count_calls is_ledger_write (calls_since w (snd out)) = 2%nat
  /\ exists u',
       Ledger.select_user (users (snd out)) "7" = Some u'
       /\ (Ledger.AccountBalance u' ==
           0 + float64_to_Q (balance_delta 2000))%Q.
Proof.
  intros rq w out. split; [reflexivity|].
  apply (webhook_unseen_intent rq (succeeded_event "pi_9" 2000) w
           (sample_user 0 (Some "cus_0")));
    reflexivity.
Defined.

(** C6, as stated, fails: a body that does not parse is answered with status
    500, the class of a fault of the server, exactly as a refused ledger
    write is; it is not classified as a permanent fault. *)
Lemma webhook_malformed_body_is_server_fault :
  let bad := request_of (Malformed "unexpected end of JSON input") in
  let good := request_of (Decoded (succeeded_event "pi_1" 2000)) in
  let w := ledger_world [sample_pending "pi_1" 2000] in
  classify (fst (fst (Webhook.webhook bad w))) = TransientFault
  /\ classify (fst (fst (Webhook.webhook bad w))) <> PermanentFault
  /\ StatusCode (fst (fst (Webhook.webhook bad w)))
     = StatusCode (fst (fst (Webhook.webhook good
                               (with_db_faults w [Some "connection lost"])))).
Proof.
  vm_compute. repeat split; discriminate.
Qed.

(** C6, amended: for every webhook request whose body fails to parse, the
    handler answers status 500 with body [Error processing request] and a
    nil error, a server fault by its class, and issues no remote call and
    changes neither table. *)
Theorem webhook_malformed_body
    (request : APIGatewayProxyRequest Webhook.StripeWebhookEvent)
    (err : error) (w : World) :
  RequestBody request = Malformed err ->
  let out := Webhook.webhook request w in
  fst out = ({| StatusCode := StatusInternalServerError;
                Body := "Error processing request"; Headers := [] |}, None)
  /\ classify (fst (fst out)) = TransientFault
  /\ users (snd out) = users w
  /\ history (snd out) = history w
  /\ trace (snd out) = trace w.
Proof.
  intros H out. subst out. unfold Webhook.webhook. rewrite H.
  repeat split.
Qed.

Lemma webhook_malformed_body_witness :
  let rq : APIGatewayProxyRequest Webhook.StripeWebhookEvent :=
    request_of (Malformed "unexpected end of JSON input") in
  let out := Webhook.webhook rq no_world in
  RequestBody rq = Malformed "unexpected end of JSON input"
  /\ fst out = ({| StatusCode := StatusInternalServerError;
                   Body := "Error processing request"; Headers := [] |}, None)
  /\ classify (fst (fst out)) = TransientFault
  /\ users (snd out) = users no_world
  /\ history (snd out) = history no_world
  /\ trace (snd out) = trace no_world.
Proof.
  intros rq out. split; [reflexivity|].
  apply (webhook_malformed_body rq "unexpected end of JSON input" no_world).
  reflexivity.
Defined.

(** C10: for every request and every state of the collaborators, the error
    the webhook handler returns is nil, and each of its three failures shows
    in the status code and the body of the response alone: a body that does
    not parse answers 500 with the body [Error processing request]; a
    success event whose update of the transaction the store refuses answers
    500 with [Failed to update transaction history]; one whose update of the
    balance the store refuses answers 500 with [Failed to update user
    balance].  The status is 200 or 500, and a response of status 200 is the
    acknowledgement of a parsed event none of whose statements was
    refused. *)
Theorem webhook_error_is_nil
    (request : APIGatewayProxyRequest Webhook.StripeWebhookEvent) (w : World) :
  let out := Webhook.webhook request w in
  let failure (body : string) : APIGatewayProxyResponse * option error :=
    ({| StatusCode := StatusInternalServerError; Body := body;
        Headers := [] |}, None) in
  snd (fst out) = None
  /\ (forall err, RequestBody request = Malformed err ->
        fst out = failure "Error processing request")
  /\ (forall event e,
        RequestBody request = Decoded event ->
        Webhook.Type_ event = "payment_intent.succeeded" ->
        hd None (db_faults w) = Some e ->
        fst out = failure "Failed to update transaction history")
  /\ (forall event e,
        RequestBody request = Decoded event ->
        Webhook.Type_ event = "payment_intent.succeeded" ->
        hd None (db_faults w) = None ->
        hd None (tl (db_faults w)) = Some e ->
        fst out = failure "Failed to update user balance")
  /\ (StatusCode (fst (fst out)) = StatusOK
      \/ StatusCode (fst (fst out)) = StatusInternalServerError)
  /\ (StatusCode (fst (fst out)) = StatusOK ->
        exists event,
          RequestBody request = Decoded event
          /\ fst out = (Webhook.received event, None)
          /\ (Webhook.Type_ event = "payment_intent.succeeded" ->
                hd None (db_faults w) = None
                /\ hd None (tl (db_faults w)) = None)).
Proof.
  intros out failure. subst out failure. unfold Webhook.webhook.
  destruct (RequestBody request) as [err|ev] eqn:Hbody.
  { conjuncts; try reflexivity.
    - intros event e H. discriminate H.
    - intros event e H. discriminate H.
    - right. reflexivity.
    - intros H. discriminate H. }
  destruct (String.eqb_spec (Webhook.Type_ ev) "payment_intent.succeeded")
    as [Htype|Htype].
  2: { conjuncts; try reflexivity.
       - intros err H. discriminate H.
       - intros event e H T. injection H as <-. contradiction.
       - intros event e H T. injection H as <-. contradiction.
       - left. reflexivity.
       - intros _. exists ev. conjuncts; try reflexivity.
         all: contradiction. }
  open_world w.
  destruct dbf as [|[e|] [|[e'|] fs]]; conjuncts; try reflexivity.
  all: try (intros err H; discriminate H).
  all: try (intros event e0 _ _ H; discriminate H).
  all: try (intros event e0 _ _ _ H; discriminate H).
  all: try (intros event e0 _ _ _; reflexivity).
  all: try (intros event e0 _ _ _ _; reflexivity).
  all: try (left; reflexivity).
  all: try (right; reflexivity).
  all: try (intros H; discriminate H).
  all: intros _; exists ev; split; [reflexivity|]; split; [reflexivity|];
    intros _; split; reflexivity.
Qed.

Lemma webhook_error_is_nil_witness :
  let bad : APIGatewayProxyRequest Webhook.StripeWebhookEvent :=
    request_of (Malformed "unexpected end of JSON input") in
  let rq := request_of (Decoded (succeeded_event "pi_0" 2000)) in
  let w := ledger_world [sample_pending "pi_0" 2000] in
  let w1 := with_db_faults w [Some "connection refused"] in
  let w2 := with_db_faults w [None; Some "connection refused"] in
  let answer rq w := fst (fst (Webhook.webhook rq w)) in
  let err rq w := snd (fst (Webhook.webhook rq w)) in
  (classify (answer bad w) = TransientFault
   /\ Body (answer bad w) = "Error processing request"
   /\ err bad w = None)
  /\ (classify (answer rq w1) = TransientFault
      /\ Body (answer rq w1) = "Failed to update transaction history"
      /\ err rq w1 = None)
  /\ (classify (answer rq w2) = TransientFault
      /\ Body (answer rq w2) = "Failed to update user balance"
      /\ err rq w2 = None)
  /\ (classify (answer rq w) = Success /\ err rq w = None).
Proof.
  intros bad rq w w1 w2 answer err. subst answer err. cbv beta.
  destruct (webhook_error_is_nil bad w) as (N0 & F0 & _).
  destruct (webhook_error_is_nil rq w1) as (N1 & _ & F1 & _).
  destruct (webhook_error_is_nil rq w2) as (N2 & _ & _ & F2 & _).
  destruct (webhook_error_is_nil rq w) as (N3 & _).
  specialize (F0 _ eq_refl).
  specialize (F1 _ "connection refused" eq_refl eq_refl eq_refl).
  specialize (F2 _ "connection refused" eq_refl eq_refl eq_refl eq_refl).
  conjuncts.
  - rewrite F0. reflexivity.
  - rewrite F0. reflexivity.
  - exact N0.
  - rewrite F1. reflexivity.
  - rewrite F1. reflexivity.
  - exact N1.
  - rewrite F2. reflexivity.
  - rewrite F2. reflexivity.
  - exact N2.
  - reflexivity.
  - exact N3.
Defined.

(** ** The confirmation state machine *)

Section ConfirmRun.

Variable request : APIGatewayProxyRequest ConfirmPayment.ConfirmPaymentRequest.
Variable body : ConfirmPayment.ConfirmPaymentRequest.
Hypothesis Hbody : RequestBody request = Decoded body.

Let id := ConfirmPayment.PaymentIntentID body.

(** The row a successful confirmation inserts: the intent id, the caller,
    a pending deposit of the amount the processor reported, dated now. *)
Let row (w : World) (cents : Z) : Ledger.Transaction :=
  {| Ledger.TransactionID := id;
     Ledger.OwnerID := CognitoIdentityPoolID request;
     Ledger.TransactionType := "Deposit";
     Ledger.Amount := float64_of_int64 cents;
     Ledger.TransactionStatus := "Pending";
     Ledger.TransactionDate := Ledger.DateGoString (clock w) |}.

(** The first confirm call fails: status 500 and the processor's error. *)
Lemma confirm_first_call_fails (w : World) (e : error)
    (rest : list (error + (string * Z))) :
  confirm_outcomes w = inl e :: rest ->
  let out := ConfirmPayment.confirmPayment request w in
  fst out = ({| StatusCode := StatusInternalServerError; Body := "";
                Headers := [] |}, Some e)
  /\ users (snd out) = users w
  /\ history (snd out) = history w
  /\ trace (snd out) = (trace w ++ [PaymentIntentConfirm id])%list.
Proof.
  intros H. unfold ConfirmPayment.confirmPayment. rewrite Hbody.
  open_world w. subst co. conjuncts; reflexivity.
Qed.

(** No answer of the processor at all. *)
Lemma confirm_no_answer (w : World) :
  confirm_outcomes w = [] ->
  let out := ConfirmPayment.confirmPayment request w in
  fst out = ({| StatusCode := StatusInternalServerError; Body := "";
                Headers := [] |}, Some "processor unavailable")
  /\ users (snd out) = users w
  /\ history (snd out) = history w
  /\ trace (snd out) = (trace w ++ [PaymentIntentConfirm id])%list.
Proof.
  intros H. unfold ConfirmPayment.confirmPayment. rewrite Hbody.
  open_world w. subst co. conjuncts; reflexivity.
Qed.

(** The processor asks for an action of the user. *)
Lemma confirm_requires_action_run (w : World) (cents : Z)
    (rest : list (error + (string * Z))) :
  confirm_outcomes w
  = inr (Stripe.PaymentIntentStatusRequiresAction, cents) :: rest ->
  let out := ConfirmPayment.confirmPayment request w in
  fst out = ({| StatusCode := 200;
                Body := "Additional authentication required. Possible issues with 3D secure auth "
                        ++ ConfirmPayment.newline ++ " requires_action";
                Headers := [] |}, None)
  /\ users (snd out) = users w
  /\ history (snd out) = history w
  /\ trace (snd out) = (trace w ++ [PaymentIntentConfirm id])%list.
Proof.
  intros H. unfold ConfirmPayment.confirmPayment. rewrite Hbody.
  open_world w. subst co. conjuncts; reflexivity.
Qed.

(** The first attempt succeeds: one insert, whose error is dropped. *)
Lemma confirm_succeeded_run (w : World) (cents : Z)
    (rest : list (error + (string * Z))) :
  confirm_outcomes w
  = inr (Stripe.PaymentIntentStatusSucceeded, cents) :: rest ->
  let out := ConfirmPayment.confirmPayment request w in
  fst out = (ConfirmPayment.pending_response, None)
  /\ users (snd out) = users w
  /\ history (snd out) =
     match hd None (db_faults w) with
     | Some _ => history w
     | None => Ledger.insert (history w) (row w cents)
     end
  /\ trace (snd out) =
     (trace w ++ [PaymentIntentConfirm id;
                  ExecInsertTransaction (row w cents)])%list.
Proof.
  intros H. unfold ConfirmPayment.confirmPayment. rewrite Hbody.
  rewrite snoc2. open_world w. subst co.
  destruct dbf as [|[e|] fs]; conjuncts; reflexivity.
Qed.

(** The retry fails as a call: status 500, a fixed body, no error. *)
Lemma confirm_retry_call_fails (w : World) (cents : Z) (e : error)
    (rest : list (error + (string * Z))) :
  confirm_outcomes w
  = inr (Stripe.PaymentIntentStatusRequiresConfirmation, cents)
    :: inl e :: rest ->
  let out := ConfirmPayment.confirmPayment request w in
  fst out = ({| StatusCode := 500;
                Body := "Failed to confirm payment intent";
                Headers := [] |}, None)
  /\ users (snd out) = users w
  /\ history (snd out) = history w
  /\ trace (snd out) =
     (trace w ++ [PaymentIntentConfirm id; PaymentIntentConfirm id])%list.
Proof.
  intros H. unfold ConfirmPayment.confirmPayment. rewrite Hbody.
  rewrite snoc2. open_world w. subst co. conjuncts; reflexivity.
Qed.

(** The retry has no answer. *)
Lemma confirm_retry_no_answer (w : World) (cents : Z) :
  confirm_outcomes w
  = [inr (Stripe.PaymentIntentStatusRequiresConfirmation, cents)] ->
  let out := ConfirmPayment.confirmPayment request w in
  fst out = ({| StatusCode := 500;
                Body := "Failed to confirm payment intent";
                Headers := [] |}, None)
  /\ users (snd out) = users w
  /\ history (snd out) = history w
  /\ trace (snd out) =
     (trace w ++ [PaymentIntentConfirm id; PaymentIntentConfirm id])%list.
Proof.
  intros H. unfold ConfirmPayment.confirmPayment. rewrite Hbody.
  rewrite snoc2. open_world w. subst co. conjuncts; reflexivity.
Qed.

(** The retry succeeds: the row carries the id of the first answer and the
    amount of the second. *)
Lemma confirm_retry_succeeded_run (w : World) (c1 c2 : Z)
    (rest : list (error + (string * Z))) :
  confirm_outcomes w
  = inr (Stripe.PaymentIntentStatusRequiresConfirmation, c1)
    :: inr (Stripe.PaymentIntentStatusSucceeded, c2) :: rest ->
  let out := ConfirmPayment.confirmPayment request w in
  fst out = (ConfirmPayment.pending_response, None)
  /\ users (snd out) = users w
  /\ history (snd out) =
     match hd None (db_faults w) with
     | Some _ => history w
     | None => Ledger.insert (history w) (row w c2)
     end
  /\ confirm_outcomes (snd out) = rest
  /\ trace (snd out) =
     (trace w ++ [PaymentIntentConfirm id; PaymentIntentConfirm id;
                  ExecInsertTransaction (row w c2)])%list.
Proof.
  intros H. unfold ConfirmPayment.confirmPayment. rewrite Hbody.
  rewrite snoc3. open_world w. subst co.
  destruct dbf as [|[e|] fs]; conjuncts; reflexivity.
Qed.

(** The retry answers with another status than success. *)
Lemma confirm_retry_other_run (w : World) (c1 c2 : Z) (st : string)
    (rest : list (error + (string * Z))) :
  confirm_outcomes w
  = inr (Stripe.PaymentIntentStatusRequiresConfirmation, c1)
    :: inr (st, c2) :: rest ->
  String.eqb st Stripe.PaymentIntentStatusSucceeded = false ->
  let out := ConfirmPayment.confirmPayment request w in
  fst out = ({| StatusCode := 400;
                Body := "Tried to confirm the payment again, but failed... "
                        ++ ConfirmPayment.newline ++ st;
                Headers := [] |}, None)
  /\ users (snd out) = users w
  /\ history (snd out) = history w
  /\ confirm_outcomes (snd out) = rest
  /\ trace (snd out) =
     (trace w ++ [PaymentIntentConfirm id; PaymentIntentConfirm id])%list.
Proof.
  intros H Hst. unfold ConfirmPayment.confirmPayment. rewrite Hbody.
  rewrite snoc2. open_world w. subst co.
  cbn. rewrite Hst. conjuncts; reflexivity.
Qed.

(** Whatever the processor answers, a run confirms twice at most. *)
Lemma confirm_at_most_twice (w : World) :
  (count_calls is_confirm_call
     (calls_since w (snd (ConfirmPayment.confirmPayment request w))) <= 2)%nat.
Proof.
  assert (G : forall cs,
             trace (snd (ConfirmPayment.confirmPayment request w))
             = (trace w ++ cs)%list ->
             (count_calls is_confirm_call cs <= 2)%nat ->
             (count_calls is_confirm_call
                (calls_since w (snd (ConfirmPayment.confirmPayment request w)))
              <= 2)%nat).
  { intros cs E L. rewrite (calls_since_app _ _ _ E). exact L. }
  unfold ConfirmPayment.confirmPayment in *. rewrite Hbody in *.
  open_world w.
  destruct co as [|[e|[st c]] rest].
  - apply (G [PaymentIntentConfirm id]); [reflexivity | cbn; lia].
  - apply (G [PaymentIntentConfirm id]); [reflexivity | cbn; lia].
  - cbn in *.
    destruct (String.eqb st Stripe.PaymentIntentStatusRequiresAction).
    { apply (G [PaymentIntentConfirm id]); [reflexivity | cbn; lia]. }
    destruct (String.eqb st Stripe.PaymentIntentStatusSucceeded).
    { destruct dbf as [|[e|] fs];
        (eapply G; [cbn; rewrite <- app_assoc; reflexivity | cbn; lia]). }
    destruct (String.eqb st Stripe.PaymentIntentStatusRequiresConfirmation).
    2: { apply (G [PaymentIntentConfirm id]); [reflexivity | cbn; lia]. }
    cbn in *.
    destruct rest as [|[e|[st2 c2]] rest]; cbn in *.
    + eapply G; [rewrite <- app_assoc; reflexivity | cbn; lia].
    + eapply G; [rewrite <- app_assoc; reflexivity | cbn; lia].
    + destruct (String.eqb st2 Stripe.PaymentIntentStatusSucceeded); cbn in *.
      * destruct dbf as [|[e|] fs]; cbn in *;
          (eapply G; [rewrite <- !app_assoc; reflexivity | cbn; lia]).
      * eapply G; [rewrite <- app_assoc; reflexivity | cbn; lia].
Qed.

End ConfirmRun.

(** ** Claims on the confirmation state machine *)

(** C3: when the first confirm call answers [requires_confirmation], the
    state machine confirms once more and never a third time.  With the
    second answer [succeeded] the run is two confirm calls and one ledger
    write, the insert of the pending deposit; with any other second answer,
    [requires_confirmation] among them, it is two confirm calls, no ledger
    write, and a 400 response that quotes the status of the retry.  In no
    run at all are there more than two confirm calls. *)
Theorem confirmPayment_bounded_retry
    (request : APIGatewayProxyRequest ConfirmPayment.ConfirmPaymentRequest)
    (body : ConfirmPayment.ConfirmPaymentRequest) (w : World)
    (c1 c2 : Z) (st2 : string) (rest : list (error + (string * Z))) :
  RequestBody request = Decoded body ->
  confirm_outcomes w
  = inr (Stripe.PaymentIntentStatusRequiresConfirmation, c1)
    :: inr (st2, c2) :: rest ->
  let id := ConfirmPayment.PaymentIntentID body in
  let row := {| Ledger.TransactionID := id;
                Ledger.OwnerID := CognitoIdentityPoolID request;
                Ledger.TransactionType := "Deposit";
                Ledger.Amount := float64_of_int64 c2;
                Ledger.TransactionStatus := "Pending";
                Ledger.TransactionDate := Ledger.DateGoString (clock w) |} in
  let out := ConfirmPayment.confirmPayment request w in
  let calls := calls_since w (snd out) in
  count_calls is_confirm_call calls = 2%nat
  /\ confirm_outcomes (snd out) = rest
  /\ (st2 = Stripe.PaymentIntentStatusSucceeded ->
      calls = [PaymentIntentConfirm id; PaymentIntentConfirm id;
               ExecInsertTransaction row]
      /\ count_calls is_ledger_write calls = 1%nat
      /\ fst out = (ConfirmPayment.pending_response, None)
      /\ (hd None (db_faults w) = None ->
          history (snd out) = (history w ++ [row])%list))
  /\ (st2 <> Stripe.PaymentIntentStatusSucceeded ->
      calls = [PaymentIntentConfirm id; PaymentIntentConfirm id]
      /\ count_calls is_ledger_write calls = 0%nat
      /\ fst out = ({| StatusCode := 400;
                       Body := "Tried to confirm the payment again, but failed... "
                               ++ ConfirmPayment.newline ++ st2;
                       Headers := [] |}, None)
      /\ classify (fst (fst out)) = PermanentFault
      /\ history (snd out) = history w
      /\ users (snd out) = users w)
  /\ (forall w' : World,
        (count_calls is_confirm_call
           (calls_since w' (snd (ConfirmPayment.confirmPayment request w')))
         <= 2)%nat).
Proof.
  intros Hbody Hco id row out calls.
  assert (Hcases :
            (st2 = Stripe.PaymentIntentStatusSucceeded
             /\ calls = [PaymentIntentConfirm id; PaymentIntentConfirm id;
                         ExecInsertTransaction row])
            \/ (st2 <> Stripe.PaymentIntentStatusSucceeded
                /\ calls = [PaymentIntentConfirm id; PaymentIntentConfirm id])).
  { destruct (String.eqb_spec st2 Stripe.PaymentIntentStatusSucceeded) as [E|E].
    - left. split; [exact E|]. subst st2.
      destruct (confirm_retry_succeeded_run request body Hbody w c1 c2 rest Hco)
        as (_ & _ & _ & _ & T).
      exact (calls_since_app _ _ _ T).
    - right. split; [exact E|].
      destruct (confirm_retry_other_run request body Hbody w c1 c2 st2 rest Hco
                  (proj2 (String.eqb_neq _ _) E)) as (_ & _ & _ & _ & T).
      exact (calls_since_app _ _ _ T). }
  split; [destruct Hcases as [[_ C]|[_ C]]; rewrite C; reflexivity|].
  split.
  { destruct (String.eqb_spec st2 Stripe.PaymentIntentStatusSucceeded) as [E|E].
    - subst st2.
      apply (confirm_retry_succeeded_run request body Hbody w c1 c2 rest Hco).
    - apply (confirm_retry_other_run request body Hbody w c1 c2 st2 rest Hco
               (proj2 (String.eqb_neq _ _) E)). }
  split; [|split].
  - intros E. destruct Hcases as [[_ C]|[N _]]; [|contradiction].
    subst st2.
    destruct (confirm_retry_succeeded_run request body Hbody w c1 c2 rest Hco)
      as (R & _ & H & _ & _).
    split; [exact C|]. split; [rewrite C; reflexivity|].
    split; [exact R|]. intros F. fold out in H. rewrite H, F. reflexivity.
  - intros N. destruct Hcases as [[E _]|[_ C]]; [contradiction|].
    destruct (confirm_retry_other_run request body Hbody w c1 c2 st2 rest Hco
                (proj2 (String.eqb_neq _ _) N)) as (R & U & H & _ & _).
    fold out in R, U, H.
    split; [exact C|]. split; [rewrite C; reflexivity|].
    split; [exact R|]. split; [rewrite R; reflexivity|].
    split; [exact H | exact U].
  - intros w'. apply (confirm_at_most_twice request body Hbody).
Qed.

Lemma confirmPayment_bounded_retry_witness :
  let rq := request_of (Decoded {| ConfirmPayment.PaymentIntentID := "pi_1" |}) in
  let w1 := with_confirm_outcomes (ledger_world [])
              [inr ("requires_confirmation", 2000); inr ("succeeded", 2000)] in
  let w2 := with_confirm_outcomes (ledger_world [])
              [inr ("requires_confirmation", 2000);
               inr ("requires_confirmation", 2000)] in
  let out1 := ConfirmPayment.confirmPayment rq w1 in
  let out2 := ConfirmPayment.confirmPayment rq w2 in
  (count_calls is_confirm_call (calls_since w1 (snd out1)) = 2%nat
   /\ count_calls is_ledger_write (calls_since w1 (snd out1)) = 1%nat
   /\ List.length (history (snd out1)) = 1%nat)
  /\ (count_calls is_confirm_call (calls_since w2 (snd out2)) = 2%nat
      /\ count_calls is_ledger_write (calls_since w2 (snd out2)) = 0%nat
      /\ classify (fst (fst out2)) = PermanentFault
      /\ history (snd out2) = []).
Proof.
  intros rq w1 w2 out1 out2. split.
  - destruct (confirmPayment_bounded_retry rq
                {| ConfirmPayment.PaymentIntentID := "pi_1" |} w1
                2000 2000 "succeeded" [] eq_refl eq_refl)
      as (H2 & _ & HS & _).
    destruct (HS eq_refl) as (_ & H1 & _ & Hh).
    split; [exact H2|]. split; [exact H1|].
    fold out1 in Hh. rewrite (Hh eq_refl). reflexivity.
  - destruct (confirmPayment_bounded_retry rq
                {| ConfirmPayment.PaymentIntentID := "pi_1" |} w2
                2000 2000 "requires_confirmation" [] eq_refl eq_refl)
      as (H2 & _ & _ & HN & _).
    assert (N : "requires_confirmation" <> Stripe.PaymentIntentStatusSucceeded)
      by discriminate.
    destruct (HN N) as (_ & H0 & _ & Hc & Hh & _).
    split; [exact H2|]. split; [exact H0|]. split; [exact Hc | exact Hh].
Defined.

(** C8: when the confirm call answers [requires_action], the handler
    returns status 200, the text that more authentication is needed and a
    nil error, after that single processor call; it issues no statement to
    the ledger, so no row is created and no balance changes. *)
Theorem confirmPayment_requires_action
    (request : APIGatewayProxyRequest ConfirmPayment.ConfirmPaymentRequest)
    (body : ConfirmPayment.ConfirmPaymentRequest) (w : World)
    (cents : Z) (rest : list (error + (string * Z))) :
  RequestBody request = Decoded body ->
  confirm_outcomes w
  = inr (Stripe.PaymentIntentStatusRequiresAction, cents) :: rest ->
  let out := ConfirmPayment.confirmPayment request w in
  fst out = ({| StatusCode := 200;
                Body := "Additional authentication required. Possible issues with 3D secure auth "
                        ++ ConfirmPayment.newline ++ " requires_action";
                Headers := [] |}, None)
  /\ classify (fst (fst out)) = Success
  /\ calls_since w (snd out)
     = [PaymentIntentConfirm (ConfirmPayment.PaymentIntentID body)]
  /\ count_calls is_ledger_write (calls_since w (snd out)) = 0%nat
  /\ history (snd out) = history w
  /\ users (snd out) = users w.
Proof.
  intros Hbody Hco out.
  destruct (confirm_requires_action_run request body Hbody w cents rest Hco)
    as (R & U & H & T).
  fold out in R, U, H, T.
  rewrite (calls_since_app _ _ _ T), R.
  repeat split; assumption.
Qed.

Lemma confirmPayment_requires_action_witness :
  let rq := request_of (Decoded {| ConfirmPayment.PaymentIntentID := "pi_1" |}) in
  let w := with_confirm_outcomes (ledger_world [sample_pending "pi_0" 500])
             [inr ("requires_action", 2000)] in
  let out := ConfirmPayment.confirmPayment rq w in
  confirm_outcomes w = [inr (Stripe.PaymentIntentStatusRequiresAction, 2000)]
  /\ classify (fst (fst out)) = Success
  /\ snd (fst out) = None
  /\ count_calls is_ledger_write (calls_since w (snd out)) = 0%nat
  /\ history (snd out) = [sample_pending "pi_0" 500]
  /\ Ledger.balance_of (users (snd out)) "7" = Some 0%Q.
Proof.
  intros rq w out. split; [reflexivity|].
  destruct (confirmPayment_requires_action rq
              {| ConfirmPayment.PaymentIntentID := "pi_1" |} w 2000 []
              eq_refl eq_refl) as (R & C & _ & N & H & U).
  fold out in R, C, N, H, U.
  split; [exact C|]. split; [rewrite R; reflexivity|].
  split; [exact N|]. split; [rewrite H; reflexivity|].
  rewrite U. reflexivity.
Defined.

(** ** Failures of remote calls *)

(** C5, as stated, fails: when the store refuses the webhook's update of the
    transaction, what the handler returns is the same whatever the store's
    diagnostic was, and the diagnostic shows neither in the body nor in the
    error, which is nil. *)
Lemma webhook_fault_detail_not_returned :
  let rq := request_of (Decoded (succeeded_event "pi_1" 2000)) in
  let run e := Webhook.webhook rq
                 (with_db_faults (ledger_world [sample_pending "pi_1" 2000])
                    [Some e]) in
  let d1 := "Error 1205: Lock wait timeout exceeded" in
  let d2 := "invalid connection" in
  fst (run d1) = fst (run d2)
  /\ fst (run d1) = ({| StatusCode := 500;
                        Body := "Failed to update transaction history";
                        Headers := [] |}, None)
  /\ carries_detail (fst (run d1)) d1 = false
  /\ carries_detail (fst (run d2)) d2 = false.
Proof.
  vm_compute. repeat split.
Qed.

(** The insert of [confirmPayment] is a case apart: its error is dropped,
    and the handler answers 200 although no row was written. *)
Lemma confirmPayment_insert_failure_unreported :
  let rq := request_of (Decoded {| ConfirmPayment.PaymentIntentID := "pi_1" |}) in
  let w := with_db_faults
             (with_confirm_outcomes (ledger_world []) [inr ("succeeded", 2000)])
             [Some "invalid connection"] in
  let out := ConfirmPayment.confirmPayment rq w in
  fst out = (ConfirmPayment.pending_response, None)
  /\ classify (fst (fst out)) = Success
  /\ history (snd out) = [].
Proof.
  vm_compute. repeat split.
Qed.

(** C5, amended: a failed processor confirm call in the confirmation state
    machine and a failed ledger statement in the webhook reconciler are
    answered with status 500, never with a success.  The failure of the first
    confirm call comes back with the processor's error as the handler's
    error; the failure of the retried confirm call and the failures of the
    webhook's two statements come back with a fixed body and a nil error,
    and the webhook writes the store's diagnostic to its log. *)
Theorem remote_failures_reported :
  (forall (request : APIGatewayProxyRequest ConfirmPayment.ConfirmPaymentRequest)
          (body : ConfirmPayment.ConfirmPaymentRequest) (w : World)
          (e : error) (rest : list (error + (string * Z))),
      RequestBody request = Decoded body ->
      confirm_outcomes w = inl e :: rest ->
      let out := ConfirmPayment.confirmPayment request w in
      fst out = ({| StatusCode := 500; Body := ""; Headers := [] |}, Some e)
      /\ classify (fst (fst out)) = TransientFault)
  /\ (forall (request : APIGatewayProxyRequest ConfirmPayment.ConfirmPaymentRequest)
             (body : ConfirmPayment.ConfirmPaymentRequest) (w : World)
             (cents : Z) (e : error) (rest : list (error + (string * Z))),
         RequestBody request = Decoded body ->
         confirm_outcomes w
         = inr (Stripe.PaymentIntentStatusRequiresConfirmation, cents)
           :: inl e :: rest ->
         let out := ConfirmPayment.confirmPayment request w in
         fst out = ({| StatusCode := 500;
                       Body := "Failed to confirm payment intent";
                       Headers := [] |}, None)
         /\ classify (fst (fst out)) = TransientFault)
  /\ (forall (request : APIGatewayProxyRequest Webhook.StripeWebhookEvent)
             (event : Webhook.StripeWebhookEvent) (w : World)
             (e : error) (fs : list (option error)),
         RequestBody request = Decoded event ->
         Webhook.Type_ event = "payment_intent.succeeded" ->
         db_faults w = Some e :: fs ->
         let out := Webhook.webhook request w in
         fst out = ({| StatusCode := 500;
                       Body := "Failed to update transaction history";
                       Headers := [] |}, None)
         /\ classify (fst (fst out)) = TransientFault
         /\ In ("Error updating transaction history: updateTransactionHistory: "
                ++ e) (logs (snd out)))
  /\ (forall (request : APIGatewayProxyRequest Webhook.StripeWebhookEvent)
             (event : Webhook.StripeWebhookEvent) (w : World)
             (e : error) (fs : list (option error)),
         RequestBody request = Decoded event ->
         Webhook.Type_ event = "payment_intent.succeeded" ->
         db_faults w = None :: Some e :: fs ->
         let out := Webhook.webhook request w in
         fst out = ({| StatusCode := 500;
                       Body := "Failed to update user balance";
                       Headers := [] |}, None)
         /\ classify (fst (fst out)) = TransientFault
         /\ In ("Error updating user balance: updateUserBalance: " ++ e)
               (logs (snd out))).
Proof.
  split; [|split; [|split]].
  - intros request body w e rest Hbody Hco out.
    destruct (confirm_first_call_fails request body Hbody w e rest Hco)
      as (R & _). fold out in R. rewrite R. split; reflexivity.
  - intros request body w cents e rest Hbody Hco out.
    destruct (confirm_retry_call_fails request body Hbody w cents e rest Hco)
      as (R & _). fold out in R. rewrite R. split; reflexivity.
  - intros request event w e fs Hbody Htype Hf out.
    destruct (webhook_history_fault_run request event Hbody Htype w e fs Hf)
      as (R & _ & _ & L). fold out in R, L. rewrite R.
    repeat split. exact L.
  - intros request event w e fs Hbody Htype Hf out.
    destruct (webhook_balance_fault_run request event Hbody Htype w e fs Hf)
      as (R & _ & L). fold out in R, L. rewrite R.
    repeat split. exact L.
Qed.

Lemma remote_failures_reported_witness :
  let crq := request_of (Decoded {| ConfirmPayment.PaymentIntentID := "pi_1" |}) in
  let wrq := request_of (Decoded (succeeded_event "pi_1" 2000)) in
  let w := ledger_world [sample_pending "pi_1" 2000] in
  classify (fst (fst (ConfirmPayment.confirmPayment crq
                        (with_confirm_outcomes w [inl "timeout"]))))
  = TransientFault
  /\ classify (fst (fst (ConfirmPayment.confirmPayment crq
                           (with_confirm_outcomes w
                              [inr ("requires_confirmation", 2000);
                               inl "timeout"]))))
     = TransientFault
  /\ classify (fst (fst (Webhook.webhook wrq
                           (with_db_faults w [Some "invalid connection"]))))
     = TransientFault
  /\ classify (fst (fst (Webhook.webhook wrq
                           (with_db_faults w
                              [None; Some "invalid connection"]))))
     = TransientFault.
Proof.
  intros crq wrq w.
  destruct remote_failures_reported as (F1 & F2 & F3 & F4).
  split; [|split; [|split]].
  - exact (proj2 (F1 crq {| ConfirmPayment.PaymentIntentID := "pi_1" |}
                     (with_confirm_outcomes w [inl "timeout"]) "timeout" []
                     eq_refl eq_refl)).
  - exact (proj2 (F2 crq {| ConfirmPayment.PaymentIntentID := "pi_1" |}
                     (with_confirm_outcomes w
                        [inr ("requires_confirmation", 2000); inl "timeout"])
                     2000 "timeout" [] eq_refl eq_refl)).
  - exact (proj1 (proj2 (F3 wrq (succeeded_event "pi_1" 2000)
                            (with_db_faults w [Some "invalid connection"])
                            "invalid connection" [] eq_refl eq_refl eq_refl))).
  - exact (proj1 (proj2 (F4 wrq (succeeded_event "pi_1" 2000)
                            (with_db_faults w [None; Some "invalid connection"])
                            "invalid connection" [] eq_refl eq_refl eq_refl))).
Defined.

(** ** Intent submission *)

Section SubmitRun.

Variable request :
  APIGatewayProxyRequest CreatePaymentIntent.PaymentIntentRequest.
Variable submission : CreatePaymentIntent.PaymentIntentRequest.
Hypothesis Hbody : RequestBody request = Decoded submission.

Let uid := CognitoIdentityPoolID request.

(** The caller's user has no processor customer: the handler stops after the
    query of the user. *)
Lemma submit_without_customer_run (w : World) (u : Ledger.User) :
  hd None (db_faults w) = None ->
  Ledger.select_user (users w) uid = Some u ->
  Ledger.StripeID u = None ->
  let out := CreatePaymentIntent.createPaymentIntent request w in
  fst out = ({| StatusCode := StatusOK;
                Body := "Customer does not have a Stripe customer ID. Are they registered as a customer?";
                Headers := json_headers |}, None)
  /\ users (snd out) = users w
  /\ history (snd out) = history w
  /\ customers (snd out) = customers w
  /\ intents (snd out) = intents w
  /\ attached (snd out) = attached w
  /\ trace (snd out) = (trace w ++ [QueryUser uid])%list.
Proof.
  intros Hf Hu Hs. unfold CreatePaymentIntent.createPaymentIntent.
  rewrite Hbody. unfold bind. rewrite db_QueryRow_user_eq.
  open_world w. fold uid. rewrite Hu.
  destruct dbf as [|[e|] fs]; try discriminate Hf; cbn; rewrite Hs;
    conjuncts; reflexivity.
Qed.

End SubmitRun.

(** C7, as stated, fails: for a user without a processor customer the
    handler answers status 200 with a nil error, in status and error what it
    answers when the intent was created; by its class the response is a
    success.  (No customer is created.) *)
Lemma createPaymentIntent_without_customer_answers_200 :
  let rq := request_of
              (Decoded {| CreatePaymentIntent.Amount := 2000;
                          CreatePaymentIntent.Currency := "usd";
                          CreatePaymentIntent.PaymentMethodID := "pm_1" |}) in
  let unmapped := with_users no_world [sample_user 0 None] in
  let out := CreatePaymentIntent.createPaymentIntent rq unmapped in
  let created := CreatePaymentIntent.createPaymentIntent rq (ledger_world []) in
  StatusCode (fst (fst out)) = 200
  /\ snd (fst out) = None
  /\ classify (fst (fst out)) = Success
  /\ classify (fst (fst out)) <> PermanentFault
  /\ StatusCode (fst (fst out)) = StatusCode (fst (fst created))
  /\ snd (fst out) = snd (fst created)
  /\ customers (snd out) = [].
Proof.
  vm_compute. repeat split; discriminate.
Qed.

(** C7, amended: for every intent-submission request by a user who holds no
    processor customer reference (the query of the user going through), the
    handler returns status 200 with a nil error and a fixed body that says
    the customer reference is missing; it makes no processor call, so it
    creates no customer, attaches no method and creates no intent, and it
    writes nothing to the ledger. *)
Theorem createPaymentIntent_without_customer
    (request : APIGatewayProxyRequest CreatePaymentIntent.PaymentIntentRequest)
    (submission : CreatePaymentIntent.PaymentIntentRequest)
    (w : World) (u : Ledger.User) :
  RequestBody request = Decoded submission ->
  hd None (db_faults w) = None ->
  Ledger.select_user (users w) (CognitoIdentityPoolID request) = Some u ->
  Ledger.StripeID u = None ->
  let out := CreatePaymentIntent.createPaymentIntent request w in
  fst out = ({| StatusCode := StatusOK;
                Body := "Customer does not have a Stripe customer ID. Are they registered as a customer?";
                Headers := json_headers |}, None)
  /\ classify (fst (fst out)) = Success
  /\ count_calls is_processor_call (calls_since w (snd out)) = 0%nat
  /\ count_calls is_ledger_write (calls_since w (snd out)) = 0%nat
  /\ customers (snd out) = customers w
  /\ intents (snd out) = intents w
  /\ attached (snd out) = attached w
  /\ users (snd out) = users w
  /\ history (snd out) = history w.
Proof.
  intros Hbody Hf Hu Hs out.
  destruct (submit_without_customer_run request submission Hbody w u Hf Hu Hs)
    as (R & U & H & C & I & A & T).
  fold out in R, U, H, C, I, A, T.
  rewrite (calls_since_app _ _ _ T), R.
  repeat split; assumption.
Qed.

Lemma createPaymentIntent_without_customer_witness :
  let rq := request_of
              (Decoded {| CreatePaymentIntent.Amount := 2000;
                          CreatePaymentIntent.Currency := "usd";
                          CreatePaymentIntent.PaymentMethodID := "pm_1" |}) in
  let w := with_users no_world [sample_user 0 None] in
  let out := CreatePaymentIntent.createPaymentIntent rq w in
  Ledger.StripeID (sample_user 0 None) = None
  /\ StatusCode (fst (fst out)) = StatusOK
  /\ snd (fst out) = None
  /\ count_calls is_processor_call (calls_since w (snd out)) = 0%nat
  /\ customers (snd out) = [].
Proof.
  intros rq w out. split; [reflexivity|].
  destruct (createPaymentIntent_without_customer rq
              {| CreatePaymentIntent.Amount := 2000;
                 CreatePaymentIntent.Currency := "usd";
                 CreatePaymentIntent.PaymentMethodID := "pm_1" |}
              w (sample_user 0 None) eq_refl eq_refl eq_refl eq_refl)
    as (R & _ & P & _ & C & _).
  fold out in R, P, C.
  split; [rewrite R; reflexivity|]. split; [rewrite R; reflexivity|].
  split; [exact P | exact C].
Defined.

(** ** The customer identity mapper *)

Lemma select_user_update_stripe_id (us : list Ledger.User)
    (cid uid : string) :
  Ledger.select_user (Ledger.update_stripe_id us cid uid) uid =
  option_map (fun u => Ledger.set_stripe_id u (Some cid))
    (Ledger.select_user us uid).
Proof.
  induction us as [|u us IH]; simpl; [reflexivity|].
  destruct (String.eqb (Ledger.UserID u) uid) eqn:E; simpl; rewrite E.
  - reflexivity.
  - exact IH.
Qed.

Lemma select_user_some (us : list Ledger.User) (uid : string)
    (u : Ledger.User) :
  Ledger.select_user us uid = Some u -> In u us /\ Ledger.UserID u = uid.
Proof.
  induction us as [|v us IH]; simpl; [discriminate|].
  destruct (String.eqb_spec (Ledger.UserID v) uid) as [E|E].
  - intros H. injection H as ->. split; [left; reflexivity | exact E].
  - intros H. destruct (IH H) as [I U]. split; [right; exact I | exact U].
Qed.

Lemma find_customer_id (cs : list Stripe.Customer) (cid : string)
    (c : Stripe.Customer) :
  Stripe.find_customer cs cid = Some c -> Stripe.ID c = cid.
Proof.
  induction cs as [|d cs IH]; simpl; [discriminate|].
  destruct (String.eqb_spec (Stripe.ID d) cid) as [E|E].
  - intros H. injection H as ->. exact E.
  - exact IH.
Qed.

(** A customer just created is found under its id (the first of that id). *)
Lemma find_customer_created (cs : list Stripe.Customer)
    (c : Stripe.Customer) :
  exists c', Stripe.find_customer (cs ++ [c]) (Stripe.ID c) = Some c'.
Proof.
  induction cs as [|d cs IH]; simpl.
  - rewrite String.eqb_refl. eexists. reflexivity.
  - destruct (String.eqb (Stripe.ID d) (Stripe.ID c)).
    + eexists. reflexivity.
    + exact IH.
Qed.

(** Rows that the update of the reference does not select stay. *)
Lemma update_stripe_id_other (us : list Ledger.User) (cid uid : string)
    (u : Ledger.User) :
  In u us -> Ledger.UserID u <> uid ->
  In u (Ledger.update_stripe_id us cid uid).
Proof.
  intros I N. unfold Ledger.update_stripe_id. apply in_map_iff.
  exists u. split; [|exact I].
  destruct (String.eqb_spec (Ledger.UserID u) uid); [contradiction|reflexivity].
Qed.

(** Under the key of table Users, two rows of one id are one row. *)
Lemma keyed_rows_agree (us : list Ledger.User) (u v : Ledger.User) :
  NoDup (map Ledger.UserID us) -> In u us -> In v us ->
  Ledger.UserID u = Ledger.UserID v -> u = v.
Proof.
  induction us as [|x us IH]; simpl; [contradiction|].
  intros K Iu Iv E. inversion K as [|? ? Nx K']; subst.
  destruct Iu as [->|Iu], Iv as [->|Iv].
  - reflexivity.
  - exfalso. apply Nx. rewrite E. apply in_map. exact Iv.
  - exfalso. apply Nx. rewrite <- E. apply in_map. exact Iu.
  - apply IH; assumption.
Qed.

Section CustomerRun.

Variable A : Type.
Variable request : APIGatewayProxyRequest A.

Let uid := CognitoIdentityPoolID request.

(** The user holds a reference the processor knows: no write. *)
Lemma customer_existing_run (w : World) (u : Ledger.User) (sid : string)
    (c : Stripe.Customer) :
  hd None (db_faults w) = None ->
  Ledger.select_user (users w) uid = Some u ->
  Ledger.StripeID u = Some sid ->
  hd None (stripe_faults w) = None ->
  Stripe.find_customer (customers w) sid = Some c ->
  let out := CreateCustomer.createCustomer request w in
  fst out = ({| StatusCode := StatusOK;
                Body := "Customer already exists with Stripe ID: " ++ sid;
                Headers := json_headers |}, None)
  /\ users (snd out) = users w
  /\ customers (snd out) = customers w
  /\ trace (snd out) = (trace w ++ [QueryUser uid; CustomerGet sid])%list.
Proof.
  intros Hf Hu Hs Hsf Hc. unfold CreateCustomer.createCustomer.
  unfold bind. rewrite db_QueryRow_user_eq. rewrite snoc2.
  rewrite <- (find_customer_id _ _ _ Hc) at 1.
  open_world w. fold uid. rewrite Hu.
  destruct dbf as [|[e|] fs]; try discriminate Hf; cbn; rewrite Hs;
    unfold CreateCustomer.findCustomerByStripeID, CreateCustomer.customer_Get,
      bind, record, next_stripe_fault, ret; cbn;
    (destruct sf as [|[e|] sf']; try discriminate Hsf; cbn; rewrite Hc;
     conjuncts; reflexivity).
Qed.

(** The user holds no reference: a customer is created and its id stored. *)
Lemma customer_new_run (w : World) (u : Ledger.User) :
  hd None (db_faults w) = None ->
  Ledger.select_user (users w) uid = Some u ->
  Ledger.StripeID u = None ->
  hd None (stripe_faults w) = None ->
  hd None (tl (db_faults w)) = None ->
  let cid := fresh_id "cus_" (List.length (customers w)) in
  let c := {| Stripe.ID := cid; Stripe.Email := Ledger.Email u;
              Stripe.Name := Ledger.Username u;
              Stripe.Metadata := [("UserID", uid)] |} in
  let out := CreateCustomer.createCustomer request w in
  fst out = ({| StatusCode := StatusOK;
                Body := "Created new customer in Stripe with ID: " ++ cid;
                Headers := json_headers |}, None)
  /\ users (snd out) = Ledger.update_stripe_id (users w) cid uid
  /\ customers (snd out) = (customers w ++ [c])%list
  /\ db_faults (snd out) = tl (tl (db_faults w))
  /\ stripe_faults (snd out) = tl (stripe_faults w)
  /\ trace (snd out) =
     (trace w ++ [QueryUser uid;
                  CustomerNew (Ledger.Email u) (Ledger.Username u) uid;
                  ExecUpdateStripeID cid uid])%list.
Proof.
  intros Hf Hu Hs Hsf Hf2. unfold CreateCustomer.createCustomer.
  unfold bind. rewrite db_QueryRow_user_eq. rewrite snoc3.
  open_world w. fold uid. rewrite Hu.
  destruct dbf as [|[e|] [|[e'|] fs]];
    try discriminate Hf; try discriminate Hf2; cbn; rewrite Hs;
    (destruct sf as [|[e|] sf']; try discriminate Hsf;
     conjuncts; reflexivity).
Qed.

(** A run that returns a nil error is one of the two runs above. *)
Lemma customer_nil_error (w : World) :
  snd (fst (CreateCustomer.createCustomer request w)) = None ->
  exists u,
    hd None (db_faults w) = None
    /\ Ledger.select_user (users w) uid = Some u
    /\ hd None (stripe_faults w) = None
    /\ ((exists sid c, Ledger.StripeID u = Some sid
                       /\ Stripe.find_customer (customers w) sid = Some c)
        \/ (Ledger.StripeID u = None
            /\ hd None (tl (db_faults w)) = None)).
Proof.
  unfold CreateCustomer.createCustomer.
  unfold bind. rewrite db_QueryRow_user_eq.
  open_world w. fold uid.
  destruct (Ledger.select_user us uid) as [u|] eqn:Hu.
  2: { destruct dbf as [|[e|] fs]; cbn; discriminate. }
  destruct (Ledger.StripeID u) as [sid|] eqn:Hs.
  - destruct dbf as [|[e|] fs]; cbn; rewrite ?Hs;
      unfold CreateCustomer.findCustomerByStripeID, CreateCustomer.customer_Get,
        bind, record, next_stripe_fault, ret; cbn; try discriminate.
    all: destruct sf as [|[e|] sf']; cbn; try discriminate.
    all: destruct (Stripe.find_customer cs sid) as [c|] eqn:Hc; cbn;
      try discriminate.
    all: intros _; exists u.
    all: split; [reflexivity|].
    all: split; [reflexivity|].
    all: split; [reflexivity|].
    all: left; exists sid, c; split; [exact Hs | exact Hc].
  - destruct dbf as [|[e|] [|[e'|] fs]]; cbn; rewrite ?Hs; try discriminate.
    all: destruct sf as [|[e|] sf']; cbn; try discriminate.
    all: intros _; exists u.
    all: split; [reflexivity|].
    all: split; [reflexivity|].
    all: split; [reflexivity|].
    all: right; split; [exact Hs | reflexivity].
Qed.

(** What a run writes: nothing, or, for a user without a reference, the one
    update of the reference (which the store may refuse). *)
Lemma customer_write_cases (w : World) :
  let out := CreateCustomer.createCustomer request w in
  (users (snd out) = users w
   /\ count_calls is_ledger_write (calls_since w (snd out)) = 0%nat)
  \/ (exists u cid,
        Ledger.select_user (users w) uid = Some u
        /\ Ledger.StripeID u = None
        /\ (users (snd out) = users w
            \/ users (snd out) = Ledger.update_stripe_id (users w) cid uid)
        /\ count_calls is_ledger_write (calls_since w (snd out)) = 1%nat).
Proof.
  assert (G : forall (w' : World) (cs : list Call) (n : nat),
             trace w' = (trace w ++ cs)%list ->
             count_calls is_ledger_write cs = n ->
             count_calls is_ledger_write (calls_since w w') = n).
  { intros w' cs n. apply count_since. }
  unfold CreateCustomer.createCustomer in *.
  unfold bind in *. rewrite db_QueryRow_user_eq in *.
  open_world w. fold uid.
  destruct (Ledger.select_user us uid) as [u|] eqn:Hu.
  2: { left. destruct dbf as [|[e|] fs]; cbn;
         (split; [reflexivity | eapply G; [reflexivity | reflexivity]]). }
  destruct (Ledger.StripeID u) as [sid|] eqn:Hs.
  - left.
    destruct dbf as [|[e|] fs]; cbn; rewrite ?Hs;
      unfold CreateCustomer.findCustomerByStripeID, CreateCustomer.customer_Get,
        bind, record, next_stripe_fault, ret; cbn.
    2: { split; [reflexivity | eapply G; [reflexivity | reflexivity]]. }
    all: destruct sf as [|[e|] sf']; cbn.
    all: try destruct (Stripe.find_customer cs sid) as [c|] eqn:Hc; cbn.
    all: split; [reflexivity|].
    all: eapply G; [rewrite <- ?app_assoc; reflexivity | reflexivity].
  - destruct dbf as [|[e|] fs]; cbn; rewrite ?Hs.
    2: { left. split; [reflexivity | eapply G; [reflexivity | reflexivity]]. }
    all: unfold CreateCustomer.create_and_store, CreateCustomer.customer_New,
           db_Exec, bind, record, next_stripe_fault, next_db_fault, ret; cbn.
    all: destruct sf as [|[e|] sf']; cbn.
    all: try (left; split;
              [reflexivity
              | eapply G; [rewrite <- ?app_assoc; reflexivity | reflexivity]]).
    all: try destruct fs as [|[e'|] fs]; cbn.
    all: right; exists u, (fresh_id "cus_" (List.length cs));
      split; [reflexivity|]; split; [exact Hs|].
    all: split;
      [ first [left; reflexivity | right; reflexivity]
      | eapply G; [rewrite <- ?app_assoc; reflexivity | reflexivity]].
Qed.

End CustomerRun.

(** C9: an invocation of the identity mapper writes to table Users at most
    once, and not at all for a user who holds a reference, so that no
    reference in the table is overwritten (Users keyed by UserID); and when
    a first invocation has returned without error, a second one for the same
    user, the processor's customers untouched in between and no call
    failing, returns the same customer reference and writes nothing. *)
Theorem createCustomer_idempotent (A : Type)
    (request : APIGatewayProxyRequest A) (w : World) :
  let uid := CognitoIdentityPoolID request in
  let out1 := CreateCustomer.createCustomer request w in
  let out2 := CreateCustomer.createCustomer request (snd out1) in
  (count_calls is_ledger_write (calls_since w (snd out1)) <= 1)%nat
  /\ (forall u, Ledger.select_user (users w) uid = Some u ->
                Ledger.StripeID u <> None ->
                users (snd out1) = users w)
  /\ (NoDup (map Ledger.UserID (users w)) ->
      forall v, In v (users w) -> Ledger.StripeID v <> None ->
                In v (users (snd out1)))
  /\ (snd (fst out1) = None ->
      hd None (db_faults (snd out1)) = None ->
      hd None (stripe_faults (snd out1)) = None ->
      exists cid,
        (Body (fst (fst out1)) = "Created new customer in Stripe with ID: " ++ cid
         \/ Body (fst (fst out1)) = "Customer already exists with Stripe ID: " ++ cid)
        /\ fst out2 = ({| StatusCode := StatusOK;
                          Body := "Customer already exists with Stripe ID: "
                                  ++ cid;
                          Headers := json_headers |}, None)
        /\ count_calls is_ledger_write (calls_since (snd out1) (snd out2))
           = 0%nat
        /\ users (snd out2) = users (snd out1)
        /\ option_map Ledger.StripeID (Ledger.select_user (users (snd out2)) uid)
           = Some (Some cid)).
Proof.
  intros uid out1 out2. subst uid.
  pose proof (customer_write_cases A request w) as W. fold out1 in W.
  split; [|split; [|split]].
  - destruct W as [[_ C]|(u & cid & _ & _ & _ & C)]; rewrite C; lia.
  - intros u Hu Hs.
    destruct W as [[U _]|(u' & cid & Hu' & Hs' & _)]; [exact U|].
    rewrite Hu in Hu'. injection Hu' as <-. contradiction.
  - intros K v Iv Hs.
    destruct W as [[U _]|(u & cid & Hu & Hn & [U|U] & _)];
      rewrite U; try exact Iv.
    apply update_stripe_id_other; [exact Iv|].
    intros E. destruct (select_user_some _ _ _ Hu) as [Iu Eu].
    assert (v = u) by (apply (keyed_rows_agree (users w)); congruence).
    subst v. contradiction.
  - intros Hnil Hf Hsf.
    destruct (customer_nil_error A request w Hnil)
      as (u & F1 & Hu & S1 & [(sid & c & Hs & Hc)|[Hs F2]]).
    + destruct (customer_existing_run A request w u sid c F1 Hu Hs S1 Hc)
        as (R1 & U1 & C1 & _).
      fold out1 in R1, U1, C1.
      assert (Hu1 : Ledger.select_user (users (snd out1))
                      (CognitoIdentityPoolID request) = Some u)
        by (rewrite U1; exact Hu).
      assert (Hc1 : Stripe.find_customer (customers (snd out1)) sid = Some c)
        by (rewrite C1; exact Hc).
      destruct (customer_existing_run A request (snd out1) u sid c
                  Hf Hu1 Hs Hsf Hc1) as (R2 & U2 & _ & T2).
      fold out2 in R2, U2, T2.
      exists sid. split; [right; rewrite R1; reflexivity|].
      split; [exact R2|].
      split; [apply (count_since _ _ _ _ _ T2); reflexivity|].
      split; [exact U2|].
      rewrite U2, Hu1. cbn. rewrite Hs. reflexivity.
    + destruct (customer_new_run A request w u F1 Hu Hs S1 F2)
        as (R1 & U1 & C1 & _).
      fold out1 in R1, U1, C1.
      set (cid := fresh_id "cus_" (List.length (customers w))) in *.
      set (c := {| Stripe.ID := cid; Stripe.Email := Ledger.Email u;
                   Stripe.Name := Ledger.Username u;
                   Stripe.Metadata :=
                     [("UserID", CognitoIdentityPoolID request)] |}) in *.
      assert (Hu1 : Ledger.select_user (users (snd out1))
                      (CognitoIdentityPoolID request)
                    = Some (Ledger.set_stripe_id u (Some cid))).
      { rewrite U1, select_user_update_stripe_id, Hu. reflexivity. }
      destruct (find_customer_created (customers w) c) as (c' & Hc').
      change (Stripe.ID c) with cid in Hc'. rewrite <- C1 in Hc'.
      destruct (customer_existing_run A request (snd out1) _ cid c'
                  Hf Hu1 eq_refl Hsf Hc') as (R2 & U2 & _ & T2).
      fold out2 in R2, U2, T2.
      exists cid. split; [left; rewrite R1; reflexivity|].
      split; [exact R2|].
      split; [apply (count_since _ _ _ _ _ T2); reflexivity|].
      split; [exact U2|].
      rewrite U2, Hu1. reflexivity.
Qed.

Lemma createCustomer_idempotent_witness :
  let rq : APIGatewayProxyRequest unit := request_of (Decoded tt) in
  let w := with_users no_world [sample_user 0 None] in
  let out1 := CreateCustomer.createCustomer rq w in
  let out2 := CreateCustomer.createCustomer rq (snd out1) in
  snd (fst out1) = None
  /\ (count_calls is_ledger_write (calls_since w (snd out1)) <= 1)%nat
  /\ exists cid,
       (Body (fst (fst out1)) = "Created new customer in Stripe with ID: " ++ cid
        \/ Body (fst (fst out1)) = "Customer already exists with Stripe ID: " ++ cid)
       /\ fst out2 = ({| StatusCode := StatusOK;
                         Body := "Customer already exists with Stripe ID: "
                                 ++ cid;
                         Headers := json_headers |}, None)
       /\ count_calls is_ledger_write (calls_since (snd out1) (snd out2))
          = 0%nat
       /\ users (snd out2) = users (snd out1)
       /\ option_map Ledger.StripeID (Ledger.select_user (users (snd out2)) "7")
          = Some (Some cid).
Proof.
  intros rq w out1 out2.
  destruct (createCustomer_idempotent unit rq w) as (W1 & _ & _ & T).
  split; [reflexivity|]. split; [exact W1|].
  exact (T eq_refl eq_refl eq_refl).
Defined.

(** ** The arithmetic of the balance *)

(** C4, as stated, fails: the increase is the binary64 quotient of the cents
    by [100.0]; for one cent that quotient is [5764607523034235 / 2^59], not
    [1/100], and this is what the success event of a one-cent intent adds to
    the balance. *)
Lemma balance_of_one_cent_is_not_a_hundredth :
  let rq := request_of (Decoded (succeeded_event "pi_1" 1)) in
  let w' := snd (Webhook.webhook rq (ledger_world [])) in
  balance_delta 1 = S754_finite false 5764607523034235 (-59)
  /\ ~ (float64_to_Q (balance_delta 1) == 1 # 100)%Q
  /\ Ledger.balance_of (users w') "7"
     = Some (5764607523034235 # 576460752303423488)
  /\ ~ (5764607523034235 # 576460752303423488 == 0 + (1 # 100))%Q.
Proof.
  vm_compute. repeat split; try reflexivity; intros H; discriminate H.
Qed.

(** C4, amended: the webhook adds to the balance the value of the binary64
    quotient [float64(cents) / 100.0], computed in floating point.  That
    value is exactly [cents/100] for every amount that is a multiple of 25
    cents (from 0 to below 2^53), so for 2000 cents it is 20; for every
    amount that is not a multiple of 25 cents it differs from [cents/100]. *)
Theorem balance_increase_is_binary64_quotient
    (request : APIGatewayProxyRequest Webhook.StripeWebhookEvent)
    (event : Webhook.StripeWebhookEvent) (w : World) (u : Ledger.User) :
  RequestBody request = Decoded event ->
  Webhook.Type_ event = "payment_intent.succeeded" ->
  hd None (db_faults w) = None ->
  hd None (tl (db_faults w)) = None ->
  Ledger.select_user (users w) (CognitoIdentityPoolID request) = Some u ->
  let cents := Webhook.Amount (Webhook.Object (Webhook.Data event)) in
  let out := Webhook.webhook request w in
  exists u',
    Ledger.select_user (users (snd out)) (CognitoIdentityPoolID request)
    = Some u'
    /\ (Ledger.AccountBalance u' ==
        Ledger.AccountBalance u
        + float64_to_Q (float64_div (float64_of_int64 cents) float64_100))%Q
    /\ (0 <= cents < 2 ^ 53 -> cents mod 25 = 0 ->
        (Ledger.AccountBalance u' == Ledger.AccountBalance u + (cents # 100))%Q)
    /\ (cents mod 25 <> 0 ->
        ~ (Ledger.AccountBalance u' ==
           Ledger.AccountBalance u + (cents # 100))%Q).
Proof.
  intros Hbody Htype H1 H2 Hu cents out.
  destruct (webhook_succeeded_run request event Hbody Htype w H1 H2)
    as (_ & Hus & _).
  fold out cents in Hus.
  rewrite Hus, select_user_add_balance, Hu. cbn [option_map].
  eexists. split; [reflexivity|].
  cbn [Ledger.AccountBalance Ledger.set_balance].
  assert (B : (Qred (Ledger.AccountBalance u
                     + float64_to_Q (balance_delta cents))
               == Ledger.AccountBalance u
                  + float64_to_Q (balance_delta cents))%Q)
    by apply Qred_correct.
  split; [exact B|]. split.
  - intros Hr Hm. rewrite B, (balance_delta_exact cents Hr Hm). reflexivity.
  - intros Hm E. rewrite B in E.
    apply (float64_not_hundredths (balance_delta cents) cents Hm).
    apply (Qplus_inj_l _ _ (Ledger.AccountBalance u)). exact E.
Qed.

Lemma balance_increase_is_binary64_quotient_witness :
  let rq := request_of (Decoded (succeeded_event "pi_1" 2000)) in
  let w := ledger_world [sample_pending "pi_1" 2000] in
  let out := Webhook.webhook rq w in
  (0 <= 2000 < 2 ^ 53 /\ 2000 mod 25 = 0)
  /\ exists u',
       Ledger.select_user (users (snd out)) "7" = Some u'
       /\ (Ledger.AccountBalance u' == 0 + (2000 # 100))%Q
       /\ (Ledger.AccountBalance u' == 20)%Q.
Proof.
  intros rq w out.
  assert (R : 0 <= 2000 < 2 ^ 53) by (split; [lia | reflexivity]).
  split; [split; [exact R | reflexivity]|].
  destruct (balance_increase_is_binary64_quotient rq
              (succeeded_event "pi_1" 2000) w (sample_user 0 (Some "cus_0"))
              eq_refl eq_refl eq_refl eq_refl eq_refl)
    as (u' & Hu' & _ & Hx & _).
  exists u'. split; [exact Hu'|].
  pose proof (Hx R eq_refl) as E.
  split; [exact E|]. rewrite E. reflexivity.
Defined.

(** * Further properties of the handlers *)

(** ** More on the ledger's statements *)

Lemma add_balance_absent (us : list Ledger.User) (d : float64)
    (uid : string) :
  Ledger.select_user us uid = None -> Ledger.add_balance us d uid = us.
Proof.
  induction us as [|u us IH]; simpl; [reflexivity|].
  destruct (String.eqb (Ledger.UserID u) uid); [discriminate|].
  intros H. f_equal. exact (IH H).
Qed.

Lemma select_user_add_balance_other (us : list Ledger.User) (d : float64)
    (uid other : string) :
  other <> uid ->
  Ledger.select_user (Ledger.add_balance us d uid) other
  = Ledger.select_user us other.
Proof.
  intros N. induction us as [|u us IH]; simpl; [reflexivity|].
  destruct (String.eqb_spec (Ledger.UserID u) uid) as [E|E]; simpl.
  - destruct (String.eqb_spec (Ledger.UserID u) other) as [E'|E'];
      [congruence | exact IH].
  - destruct (String.eqb (Ledger.UserID u) other); [reflexivity | exact IH].
Qed.

Lemma records_of_update_status_other (ts : list Ledger.Transaction)
    (st : string) (d : Ledger.DateArg) (tid other : string) :
  other <> tid ->
  Ledger.records_of (Ledger.update_status ts st d tid) other
  = Ledger.records_of ts other.
Proof.
  intros N. unfold Ledger.records_of, Ledger.update_status.
  induction ts as [|t ts IH]; simpl; [reflexivity|].
  destruct (String.eqb_spec (Ledger.TransactionID t) tid) as [E|E]; simpl.
  - destruct (String.eqb_spec (Ledger.TransactionID t) other) as [E'|E'];
      [congruence | exact IH].
  - destruct (String.eqb (Ledger.TransactionID t) other);
      [rewrite IH; reflexivity | exact IH].
Qed.

(** The update of the status leaves every other column of every row. *)
Lemma update_status_columns (ts : list Ledger.Transaction) (st : string)
    (d : Ledger.DateArg) (tid : string) :
  map (fun t => (Ledger.TransactionID t, Ledger.OwnerID t,
                 Ledger.TransactionType t, Ledger.Amount t))
      (Ledger.update_status ts st d tid)
  = map (fun t => (Ledger.TransactionID t, Ledger.OwnerID t,
                   Ledger.TransactionType t, Ledger.Amount t)) ts.
Proof.
  unfold Ledger.update_status. rewrite map_map. apply map_ext.
  intros t. destruct (String.eqb (Ledger.TransactionID t) tid); reflexivity.
Qed.

(** The update of a balance leaves every other column of every row. *)
Lemma add_balance_columns (us : list Ledger.User) (d : float64)
    (uid : string) :
  map (fun u => (Ledger.UserID u, Ledger.Username u, Ledger.Email u,
                 Ledger.StripeID u))
      (Ledger.add_balance us d uid)
  = map (fun u => (Ledger.UserID u, Ledger.Username u, Ledger.Email u,
                   Ledger.StripeID u)) us.
Proof.
  unfold Ledger.add_balance. rewrite map_map. apply map_ext.
  intros u. destruct (String.eqb (Ledger.UserID u) uid); reflexivity.
Qed.

(** ** Every run of the webhook *)

(** A run of the webhook is one of four: no statement at all (a body that
    does not parse, or an event of another type); the update of the
    transaction, refused; both updates, the second refused; both updates. *)
Lemma webhook_cases
    (request : APIGatewayProxyRequest Webhook.StripeWebhookEvent)
    (w : World) :
  let out := Webhook.webhook request w in
  (trace (snd out) = trace w
   /\ users (snd out) = users w
   /\ history (snd out) = history w)
  \/ exists event,
       RequestBody request = Decoded event
       /\ Webhook.Type_ event = "payment_intent.succeeded"
       /\ let tid := Webhook.ID (Webhook.Object (Webhook.Data event)) in
          let cents := Webhook.Amount (Webhook.Object (Webhook.Data event)) in
          let uid := CognitoIdentityPoolID request in
          let upd := ExecUpdateTransaction tid "Completed"
                       (Ledger.DateTime (clock w)) in
          (trace (snd out) = (trace w ++ [upd])%list
           /\ users (snd out) = users w
           /\ history (snd out) = history w)
          \/ (trace (snd out)
              = (trace w ++ [upd; ExecUpdateBalance (balance_delta cents) uid])%list
              /\ history (snd out)
                 = Ledger.update_status (history w) "Completed"
                     (Ledger.DateTime (clock w)) tid
              /\ (users (snd out) = users w
                  \/ users (snd out)
                     = Ledger.add_balance (users w) (balance_delta cents) uid)).
Proof.
  unfold Webhook.webhook.
  destruct (RequestBody request) as [err|event] eqn:Hbody.
  { left. conjuncts; reflexivity. }
  destruct (String.eqb_spec (Webhook.Type_ event) "payment_intent.succeeded")
    as [Htype|Htype].
  2: { left. conjuncts; reflexivity. }
  right. exists event. split; [reflexivity|]. split; [exact Htype|].
  cbv zeta. rewrite snoc2. open_world w.
  destruct dbf as [|[e|] [|[e'|] fs]];
    first [ left; split; [reflexivity|]; split; reflexivity
          | right; split; [reflexivity|]; split; [reflexivity|];
            first [left; reflexivity | right; reflexivity] ].
Qed.

(** What a delivery of a success event leaves, by the faults of the store. *)
Lemma webhook_succeeded_effect
    (request : APIGatewayProxyRequest Webhook.StripeWebhookEvent)
    (event : Webhook.StripeWebhookEvent) (w : World) :
  RequestBody request = Decoded event ->
  Webhook.Type_ event = "payment_intent.succeeded" ->
  let tid := Webhook.ID (Webhook.Object (Webhook.Data event)) in
  let cents := Webhook.Amount (Webhook.Object (Webhook.Data event)) in
  let uid := CognitoIdentityPoolID request in
  let upd := ExecUpdateTransaction tid "Completed" (Ledger.DateTime (clock w)) in
  let bal := ExecUpdateBalance (balance_delta cents) uid in
  let out := Webhook.webhook request w in
  users (snd out)
  = match db_faults w with
    | Some _ :: _ | None :: Some _ :: _ => users w
    | _ => Ledger.add_balance (users w) (balance_delta cents) uid
    end
  /\ history (snd out)
     = match db_faults w with
       | Some _ :: _ => history w
       | _ => Ledger.update_status (history w) "Completed"
                (Ledger.DateTime (clock w)) tid
       end
  /\ trace (snd out)
     = match db_faults w with
       | Some _ :: _ => (trace w ++ [upd])%list
       | _ => ((trace w ++ [upd]) ++ [bal])%list
       end
  /\ db_faults (snd out)
     = match db_faults w with
       | Some _ :: fs => fs
       | fs => tl (tl fs)
       end
  /\ clock (snd out) = clock w + 1.
Proof.
  intros Hbody Htype. unfold Webhook.webhook. rewrite Hbody, Htype.
  cbv zeta. open_world w.
  destruct dbf as [|[e|] [|[e'|] fs]]; conjuncts; reflexivity.
Qed.

(** An event of another type: nothing is done. *)
Lemma webhook_other_event_is_acknowledged_aux
    (request : APIGatewayProxyRequest Webhook.StripeWebhookEvent)
    (event : Webhook.StripeWebhookEvent) (w : World) :
  RequestBody request = Decoded event ->
  Webhook.Type_ event <> "payment_intent.succeeded" ->
  let out := Webhook.webhook request w in
  fst out = (Webhook.received event, None)
  /\ trace (snd out) = trace w
  /\ users (snd out) = users w
  /\ history (snd out) = history w.
Proof.
  intros Hbody Htype out. subst out. unfold Webhook.webhook.
  rewrite Hbody. apply String.eqb_neq in Htype. rewrite Htype.
  conjuncts; reflexivity.
Qed.

(** ** Extra properties of the webhook reconciler *)

(** X1: an event of any other type than [payment_intent.succeeded] is
    answered 200 with a nil error, and nothing is done: no statement to the
    store, no call to the processor, both tables as they were. *)
Theorem webhook_other_event_is_acknowledged
    (request : APIGatewayProxyRequest Webhook.StripeWebhookEvent)
    (event : Webhook.StripeWebhookEvent) (w : World) :
  RequestBody request = Decoded event ->
  Webhook.Type_ event <> "payment_intent.succeeded" ->
  let out := Webhook.webhook request w in
  fst out = ({| StatusCode := StatusOK;
                Body := "Received confirmation from Stripe: "
                        ++ Webhook.Description
                             (Webhook.Object (Webhook.Data event));
                Headers := [] |}, None)
  /\ trace (snd out) = trace w
  /\ users (snd out) = users w
  /\ history (snd out) = history w
  /\ db_faults (snd out) = db_faults w.
Proof.
  intros Hbody Htype out. subst out. unfold Webhook.webhook.
  rewrite Hbody. apply String.eqb_neq in Htype. rewrite Htype.
  conjuncts; reflexivity.
Qed.

Lemma webhook_other_event_is_acknowledged_witness :
  let ev := {| Webhook.Type_ := "payment_intent.payment_failed";
               Webhook.Data := Webhook.Data (succeeded_event "pi_1" 2000) |} in
  let w := ledger_world [sample_pending "pi_1" 2000] in
  let out := Webhook.webhook (request_of (Decoded ev)) w in
  Webhook.Type_ ev <> "payment_intent.succeeded"
  /\ StatusCode (fst (fst out)) = 200
  /\ trace (snd out) = []
  /\ history (snd out) = [sample_pending "pi_1" 2000].
Proof.
  intros ev w out.
  assert (N : Webhook.Type_ ev <> "payment_intent.succeeded") by discriminate.
  split; [exact N|].
  destruct (webhook_other_event_is_acknowledged (request_of (Decoded ev)) ev w
              eq_refl N) as (R & T & _ & H & _).
  fold out in R, T, H.
  split; [rewrite R; reflexivity|]. split; [exact T | exact H].
Defined.

(** X2: in no run does the webhook add or delete a row of
    TransactionHistory or change the id, the owner, the type or the amount of
    one, and the rows of every other transaction id than the event's stay as
    they are; all it ever writes is the status and the date of the rows of
    the event's id. *)
Theorem webhook_keeps_transaction_rows
    (request : APIGatewayProxyRequest Webhook.StripeWebhookEvent)
    (w : World) :
  let out := Webhook.webhook request w in
  map (fun t => (Ledger.TransactionID t, Ledger.OwnerID t,
                 Ledger.TransactionType t, Ledger.Amount t))
      (history (snd out))
  = map (fun t => (Ledger.TransactionID t, Ledger.OwnerID t,
                   Ledger.TransactionType t, Ledger.Amount t))
        (history w)
  /\ forall (event : Webhook.StripeWebhookEvent) (other : string),
       RequestBody request = Decoded event ->
       other <> Webhook.ID (Webhook.Object (Webhook.Data event)) ->
       Ledger.records_of (history (snd out)) other
       = Ledger.records_of (history w) other.
Proof.
  intros out.
  destruct (webhook_cases request w)
    as [(_ & _ & H)|(event & Hbody & _ & [(_ & _ & H)|(_ & H & _)])];
    fold out in H; rewrite H.
  - split; [reflexivity | intros; reflexivity].
  - split; [reflexivity | intros; reflexivity].
  - split; [apply update_status_columns|].
    intros event' other Hbody' N. rewrite Hbody in Hbody'.
    injection Hbody' as <-.
    apply records_of_update_status_other. exact N.
Qed.

(** X3: in no run does the webhook add or delete a row of Users or change
    the id, the name, the e-mail or the processor reference of one, and the
    row of every other user than the caller of the request stays as it is:
    only a balance of the caller can change. *)
Theorem webhook_keeps_other_users
    (request : APIGatewayProxyRequest Webhook.StripeWebhookEvent)
    (w : World) :
  let out := Webhook.webhook request w in
  map (fun u => (Ledger.UserID u, Ledger.Username u, Ledger.Email u,
                 Ledger.StripeID u))
      (users (snd out))
  = map (fun u => (Ledger.UserID u, Ledger.Username u, Ledger.Email u,
                   Ledger.StripeID u))
        (users w)
  /\ forall other : string,
       other <> CognitoIdentityPoolID request ->
       Ledger.select_user (users (snd out)) other
       = Ledger.select_user (users w) other.
Proof.
  intros out.
  destruct (webhook_cases request w)
    as [(_ & U & _)|(event & _ & _ & [(_ & U & _)|(_ & _ & [U|U])])];
    fold out in U; rewrite U;
    try (split; [reflexivity | intros; reflexivity]).
  split; [apply add_balance_columns|].
  intros other N. apply select_user_add_balance_other. exact N.
Qed.

Lemma webhook_keeps_transaction_rows_witness :
  let rq := request_of (Decoded (succeeded_event "pi_1" 2000)) in
  let w := ledger_world [sample_pending "pi_0" 500; sample_pending "pi_1" 2000] in
  let out := Webhook.webhook rq w in
  "pi_0" <> "pi_1"
  /\ Ledger.records_of (history (snd out)) "pi_0" = [sample_pending "pi_0" 500]
  /\ List.length (history (snd out)) = 2%nat.
Proof.
  intros rq w out.
  assert (N : "pi_0" <> "pi_1") by discriminate.
  split; [exact N|].
  destruct (webhook_keeps_transaction_rows rq w) as (C & F).
  fold out in C, F. split.
  - rewrite (F (succeeded_event "pi_1" 2000) "pi_0" eq_refl N). reflexivity.
  - apply (f_equal (@List.length _)) in C. rewrite !length_map in C.
    rewrite C. reflexivity.
Defined.

Lemma webhook_keeps_other_users_witness :
  let rq := request_of (Decoded (succeeded_event "pi_1" 2000)) in
  let other := {| Ledger.UserID := "8"; Ledger.Username := "sam";
                  Ledger.Email := "sam@example.com"; Ledger.PhoneNumber := "";
                  Ledger.DateOfBirth := "";
                  Ledger.AccountVerificationStatus := "";
                  Ledger.CreatedAt := ""; Ledger.UpdatedAt := "";
                  Ledger.AccountBalance := 5; Ledger.StripeID := None |} in
  let w := with_users no_world [other; sample_user 0 (Some "cus_0")] in
  let out := Webhook.webhook rq w in
  "8" <> CognitoIdentityPoolID rq
  /\ Ledger.select_user (users (snd out)) "8" = Some other.
Proof.
  intros rq other w out.
  assert (N : "8" <> CognitoIdentityPoolID rq) by discriminate.
  split; [exact N|].
  destruct (webhook_keeps_other_users rq w) as (_ & F).
  fold out in F. rewrite (F "8" N). reflexivity.
Defined.

(** X4: when the caller identity of the request is the id of no user, a
    success event is still answered 200 with a nil error and the transaction
    is still marked Completed, but table Users stays as it is: the amount is
    credited to nobody, and no error tells so. *)
Theorem webhook_unknown_caller_credits_nobody
    (request : APIGatewayProxyRequest Webhook.StripeWebhookEvent)
    (event : Webhook.StripeWebhookEvent) (w : World) :
  RequestBody request = Decoded event ->
  Webhook.Type_ event = "payment_intent.succeeded" ->
  hd None (db_faults w) = None ->
  hd None (tl (db_faults w)) = None ->
  Ledger.select_user (users w) (CognitoIdentityPoolID request) = None ->
  let out := Webhook.webhook request w in
  fst out = (Webhook.received event, None)
  /\ users (snd out) = users w
  /\ Forall (fun t => Ledger.TransactionStatus t = "Completed")
            (Ledger.records_of (history (snd out))
               (Webhook.ID (Webhook.Object (Webhook.Data event)))).
Proof.
  intros Hbody Htype H1 H2 Hu out.
  destruct (webhook_succeeded_run request event Hbody Htype w H1 H2)
    as (R & U & H & _).
  fold out in R, U, H.
  split; [exact R|]. split.
  - rewrite U. apply add_balance_absent. exact Hu.
  - rewrite H. eapply Forall_impl; [|apply records_of_update_status].
    intros t [Ht _]. exact Ht.
Qed.

Lemma webhook_unknown_caller_credits_nobody_witness :
  let rq := {| RequestBody := Decoded (succeeded_event "pi_1" 2000);
               CognitoIdentityPoolID := "" |} in
  let w := ledger_world [sample_pending "pi_1" 2000] in
  let out := Webhook.webhook rq w in
  Ledger.select_user (users w) (CognitoIdentityPoolID rq) = None
  /\ StatusCode (fst (fst out)) = 200
  /\ users (snd out) = users w
  /\ Forall (fun t => Ledger.TransactionStatus t = "Completed")
            (Ledger.records_of (history (snd out)) "pi_1").
Proof.
  intros rq w out. split; [reflexivity|].
  destruct (webhook_unknown_caller_credits_nobody rq
              (succeeded_event "pi_1" 2000) w
              eq_refl eq_refl eq_refl eq_refl eq_refl) as (R & U & F).
  fold out in R, U, F.
  split; [rewrite R; reflexivity|]. split; [exact U | exact F].
Defined.

(** X5: what a delivery does to the ledger depends on the event's type, id
    and amount and on the caller identity of the request alone: two requests
    that agree on these leave the same tables and issue the same statements,
    whatever the customer, the currency and the description of their events
    (the amount is credited as it is, whatever the currency). *)
Theorem webhook_effect_ignores_customer_and_currency
    (request request' : APIGatewayProxyRequest Webhook.StripeWebhookEvent)
    (event event' : Webhook.StripeWebhookEvent) (w : World) :
  RequestBody request = Decoded event ->
  RequestBody request' = Decoded event' ->
  CognitoIdentityPoolID request' = CognitoIdentityPoolID request ->
  Webhook.Type_ event' = Webhook.Type_ event ->
  Webhook.ID (Webhook.Object (Webhook.Data event'))
  = Webhook.ID (Webhook.Object (Webhook.Data event)) ->
  Webhook.Amount (Webhook.Object (Webhook.Data event'))
  = Webhook.Amount (Webhook.Object (Webhook.Data event)) ->
  let out := Webhook.webhook request w in
  let out' := Webhook.webhook request' w in
  users (snd out') = users (snd out)
  /\ history (snd out') = history (snd out)
  /\ trace (snd out') = trace (snd out)
  /\ StatusCode (fst (fst out')) = StatusCode (fst (fst out)).
Proof.
  intros Hbody Hbody' Hid Hty Htid Hamt out out'.
  destruct (String.eqb_spec (Webhook.Type_ event) "payment_intent.succeeded")
    as [Htype|Htype].
  - assert (Htype' : Webhook.Type_ event' = "payment_intent.succeeded")
      by congruence.
    destruct (webhook_succeeded_effect request event w Hbody Htype)
      as (U & H & T & _).
    destruct (webhook_succeeded_effect request' event' w Hbody' Htype')
      as (U' & H' & T' & _).
    fold out in U, H, T. fold out' in U', H', T'.
    rewrite U, U', H, H', T, T', Hid, Htid, Hamt.
    split; [reflexivity|]. split; [reflexivity|]. split; [reflexivity|].
    subst out out'. unfold Webhook.webhook.
    rewrite Hbody, Hbody', Htype, Htype'.
    open_world w. destruct dbf as [|[e|] [|[e'|] fs]]; reflexivity.
  - assert (Htype' : Webhook.Type_ event' <> "payment_intent.succeeded")
      by congruence.
    destruct (webhook_other_event_is_acknowledged_aux request event w
                Hbody Htype) as (R & T & U & H).
    destruct (webhook_other_event_is_acknowledged_aux request' event' w
                Hbody' Htype') as (R' & T' & U' & H').
    fold out in R, T, U, H. fold out' in R', T', U', H'.
    rewrite U, U', H, H', T, T', R, R'. repeat split.
Qed.

Lemma webhook_effect_ignores_customer_and_currency_witness :
  let ev := succeeded_event "pi_1" 2000 in
  let ev' := {| Webhook.Type_ := "payment_intent.succeeded";
                Webhook.Data :=
                  {| Webhook.Object :=
                       {| Webhook.ID := "pi_1"; Webhook.Amount := 2000;
                          Webhook.Currency := "jpy";
                          Webhook.Description := "other";
                          Webhook.Customer := "cus_42" |} |} |} in
  let w := ledger_world [sample_pending "pi_1" 2000] in
  let out := Webhook.webhook (request_of (Decoded ev)) w in
  let out' := Webhook.webhook (request_of (Decoded ev')) w in
  users (snd out') = users (snd out)
  /\ history (snd out') = history (snd out)
  /\ Ledger.balance_of (users (snd out')) "7" = Some (20 # 1).
Proof.
  intros ev ev' w out out'.
  destruct (webhook_effect_ignores_customer_and_currency
              (request_of (Decoded ev)) (request_of (Decoded ev')) ev ev' w
              eq_refl eq_refl eq_refl eq_refl eq_refl eq_refl)
    as (U & H & _).
  fold out out' in U, H.
  split; [exact U|]. split; [exact H|]. rewrite U. reflexivity.
Defined.

(** X6: the two statements of the webhook are not one transaction.  When the
    store takes the update of the transaction and refuses the update of the
    balance, the delivery is answered 500 with the rows of the intent already
    Completed and the balance as it was; a second delivery of the event that
    meets no fault is answered 200 and adds the amount, so that after both
    the balance has grown by the amount once. *)
Theorem webhook_redelivery_after_refused_balance
    (request : APIGatewayProxyRequest Webhook.StripeWebhookEvent)
    (event : Webhook.StripeWebhookEvent) (w : World) (u : Ledger.User)
    (e : error) :
  RequestBody request = Decoded event ->
  Webhook.Type_ event = "payment_intent.succeeded" ->
  db_faults w = [None; Some e] ->
  Ledger.select_user (users w) (CognitoIdentityPoolID request) = Some u ->
  let tid := Webhook.ID (Webhook.Object (Webhook.Data event)) in
  let cents := Webhook.Amount (Webhook.Object (Webhook.Data event)) in
  let out1 := Webhook.webhook request w in
  let out2 := Webhook.webhook request (snd out1) in
  StatusCode (fst (fst out1)) = StatusInternalServerError
  /\ users (snd out1) = users w
  /\ Forall (fun t => Ledger.TransactionStatus t = "Completed")
            (Ledger.records_of (history (snd out1)) tid)
  /\ fst out2 = (Webhook.received event, None)
  /\ exists u',
       Ledger.select_user (users (snd out2)) (CognitoIdentityPoolID request)
       = Some u'
       /\ (Ledger.AccountBalance u' ==
           Ledger.AccountBalance u + float64_to_Q (balance_delta cents))%Q.
Proof.
  intros Hbody Htype Hf Hu tid cents out1 out2.
  destruct (webhook_balance_fault_run request event Hbody Htype w e [] Hf)
    as (R1 & _).
  destruct (webhook_succeeded_effect request event w Hbody Htype)
    as (U1 & H1 & _ & F1 & _).
  fold out1 in R1, U1, H1, F1. rewrite Hf in U1, H1, F1.
  assert (G1 : hd None (db_faults (snd out1)) = None)
    by (rewrite F1; reflexivity).
  assert (G2 : hd None (tl (db_faults (snd out1))) = None)
    by (rewrite F1; reflexivity).
  destruct (webhook_succeeded_run request event Hbody Htype (snd out1) G1 G2)
    as (R2 & U2 & _).
  fold out2 in R2, U2.
  split; [rewrite R1; reflexivity|]. split; [exact U1|]. split.
  - rewrite H1. eapply Forall_impl; [|apply records_of_update_status].
    intros t [Ht _]. exact Ht.
  - split; [exact R2|].
    rewrite U2, U1, select_user_add_balance, Hu. cbn [option_map].
    eexists. split; [reflexivity|].
    cbn [Ledger.AccountBalance Ledger.set_balance]. apply Qred_correct.
Qed.

Lemma webhook_redelivery_after_refused_balance_witness :
  let rq := request_of (Decoded (succeeded_event "pi_1" 2000)) in
  let w := with_db_faults (ledger_world [sample_pending "pi_1" 2000])
             [None; Some "invalid connection"] in
  let out1 := Webhook.webhook rq w in
  let out2 := Webhook.webhook rq (snd out1) in
  db_faults w = [None; Some "invalid connection"]
  /\ StatusCode (fst (fst out1)) = 500
  /\ Ledger.balance_of (users (snd out1)) "7" = Some 0%Q
  /\ StatusCode (fst (fst out2)) = 200
  /\ exists u',
       Ledger.select_user (users (snd out2)) "7" = Some u'
       /\ (Ledger.AccountBalance u' == 0 + float64_to_Q (balance_delta 2000))%Q.
Proof.
  intros rq w out1 out2. split; [reflexivity|].
  destruct (webhook_redelivery_after_refused_balance rq
              (succeeded_event "pi_1" 2000) w (sample_user 0 (Some "cus_0"))
              "invalid connection" eq_refl eq_refl eq_refl eq_refl)
    as (R1 & U1 & _ & R2 & B).
  fold out1 out2 in R1, U1, R2, B.
  split; [exact R1|]. split; [rewrite U1; reflexivity|].
  split; [rewrite R2; reflexivity | exact B].
Defined.

(** X7: whatever the request and the state of the store, a run of the
    webhook calls the processor never and issues to the store nothing, or
    the update of the transaction alone, or that update followed by the
    update of the balance: never an insert, never the update of a balance
    before or without the update of the transaction, never more than two
    statements. *)
Theorem webhook_statements
    (request : APIGatewayProxyRequest Webhook.StripeWebhookEvent)
    (w : World) :
  let calls := calls_since w (snd (Webhook.webhook request w)) in
  count_calls is_processor_call calls = 0%nat
  /\ (calls = []
      \/ (exists tid d, calls = [ExecUpdateTransaction tid "Completed" d])
      \/ (exists tid d delta uid,
            calls = [ExecUpdateTransaction tid "Completed" d;
                     ExecUpdateBalance delta uid])).
Proof.
  intros calls.
  destruct (webhook_cases request w)
    as [(T & _)|(event & _ & _ & [(T & _)|(T & _)])].
  - assert (C : calls = []).
    { apply calls_since_app. rewrite T, app_nil_r. reflexivity. }
    rewrite C. split; [reflexivity | left; reflexivity].
  - assert (C := calls_since_app _ _ _ T). fold calls in C.
    rewrite C. split; [reflexivity|]. right. left. eexists _, _. reflexivity.
  - assert (C := calls_since_app _ _ _ T). fold calls in C.
    rewrite C. split; [reflexivity|]. right. right.
    eexists _, _, _, _. reflexivity.
Qed.

Lemma webhook_statements_witness :
  let rq := request_of (Decoded (succeeded_event "pi_1" 2000)) in
  let w := with_db_faults (ledger_world []) [Some "invalid connection"] in
  let calls := calls_since w (snd (Webhook.webhook rq w)) in
  count_calls is_processor_call calls = 0%nat
  /\ count_calls is_ledger_write calls = 1%nat.
Proof.
  intros rq w calls.
  destruct (webhook_statements rq w) as (P & _). fold calls in P.
  split; [exact P | reflexivity].
Defined.

(** ** Every run of the confirmation state machine *)

Section ConfirmEffect.

Variable request : APIGatewayProxyRequest ConfirmPayment.ConfirmPaymentRequest.
Variable body : ConfirmPayment.ConfirmPaymentRequest.
Hypothesis Hbody : RequestBody request = Decoded body.

(** The first attempt succeeds: all that the run leaves. *)
Lemma confirm_succeeded_effect (w : World) (cents : Z)
    (rest : list (error + (string * Z))) :
  confirm_outcomes w
  = inr (Stripe.PaymentIntentStatusSucceeded, cents) :: rest ->
  let row := {| Ledger.TransactionID := ConfirmPayment.PaymentIntentID body;
                Ledger.OwnerID := CognitoIdentityPoolID request;
                Ledger.TransactionType := "Deposit";
                Ledger.Amount := float64_of_int64 cents;
                Ledger.TransactionStatus := "Pending";
                Ledger.TransactionDate := Ledger.DateGoString (clock w) |} in
  let out := ConfirmPayment.confirmPayment request w in
  fst out = (ConfirmPayment.pending_response, None)
  /\ users (snd out) = users w
  /\ history (snd out)
     = match hd None (db_faults w) with
       | Some _ => history w
       | None => (history w ++ [row])%list
       end
  /\ db_faults (snd out) = tl (db_faults w)
  /\ confirm_outcomes (snd out) = rest
  /\ clock (snd out) = clock w + 1
  /\ trace (snd out)
     = (trace w ++ [PaymentIntentConfirm (ConfirmPayment.PaymentIntentID body);
                    ExecInsertTransaction row])%list.
Proof.
  intros H. unfold ConfirmPayment.confirmPayment. rewrite Hbody.
  cbv zeta. rewrite snoc2. open_world w. subst co.
  destruct dbf as [|[e|] fs]; conjuncts; reflexivity.
Qed.

(** An answer that is none of the three statuses of the switch. *)
Lemma confirm_unhandled_effect (w : World) (st : string) (cents : Z)
    (rest : list (error + (string * Z))) :
  confirm_outcomes w = inr (st, cents) :: rest ->
  String.eqb st Stripe.PaymentIntentStatusRequiresAction = false ->
  String.eqb st Stripe.PaymentIntentStatusSucceeded = false ->
  String.eqb st Stripe.PaymentIntentStatusRequiresConfirmation = false ->
  let out := ConfirmPayment.confirmPayment request w in
  fst out = ({| StatusCode := 400;
                Body := "Unhandled payment intent status "
                        ++ ConfirmPayment.newline ++ " " ++ st;
                Headers := [] |}, None)
  /\ users (snd out) = users w
  /\ history (snd out) = history w
  /\ trace (snd out)
     = (trace w ++ [PaymentIntentConfirm (ConfirmPayment.PaymentIntentID body)])%list.
Proof.
  intros H A S C. unfold ConfirmPayment.confirmPayment. rewrite Hbody.
  open_world w. subst co. cbn. rewrite A, S, C. conjuncts; reflexivity.
Qed.

(** What any run leaves of the two tables: Users as it was, and
    TransactionHistory with no row or one row more. *)
Lemma confirm_tables (w : World) :
  let out := ConfirmPayment.confirmPayment request w in
  users (snd out) = users w
  /\ (history (snd out) = history w
      \/ exists cents,
           history (snd out)
           = (history w
              ++ [{| Ledger.TransactionID := ConfirmPayment.PaymentIntentID body;
                     Ledger.OwnerID := CognitoIdentityPoolID request;
                     Ledger.TransactionType := "Deposit";
                     Ledger.Amount := float64_of_int64 cents;
                     Ledger.TransactionStatus := "Pending";
                     Ledger.TransactionDate :=
                       Ledger.DateGoString (clock w) |}])%list).
Proof.
  unfold ConfirmPayment.confirmPayment. rewrite Hbody.
  open_world w.
  destruct co as [|[e|[st c]] rest].
  - split; [reflexivity | left; reflexivity].
  - split; [reflexivity | left; reflexivity].
  - cbn.
    destruct (String.eqb st Stripe.PaymentIntentStatusRequiresAction).
    { split; [reflexivity | left; reflexivity]. }
    destruct (String.eqb st Stripe.PaymentIntentStatusSucceeded).
    { destruct dbf as [|[e|] fs];
        (split; [reflexivity|]);
        first [left; reflexivity | right; exists c; reflexivity]. }
    destruct (String.eqb st Stripe.PaymentIntentStatusRequiresConfirmation).
    2: { split; [reflexivity | left; reflexivity]. }
    cbn. destruct rest as [|[e|[st2 c2]] rest]; cbn.
    + split; [reflexivity | left; reflexivity].
    + split; [reflexivity | left; reflexivity].
    + destruct (String.eqb st2 Stripe.PaymentIntentStatusSucceeded); cbn.
      * destruct dbf as [|[e|] fs]; cbn;
          (split; [reflexivity|]);
          first [left; reflexivity | right; exists c2; reflexivity].
      * split; [reflexivity | left; reflexivity].
Qed.

End ConfirmEffect.

Lemma confirmPayment_malformed_aux
    (request : APIGatewayProxyRequest ConfirmPayment.ConfirmPaymentRequest)
    (err : error) (w : World) :
  RequestBody request = Malformed err ->
  ConfirmPayment.confirmPayment request w
  = ({| StatusCode := StatusBadRequest; Body := ""; Headers := [] |},
     Some err, w).
Proof.
  intros H. unfold ConfirmPayment.confirmPayment. rewrite H. reflexivity.
Qed.

(** ** Extra properties of the confirmation state machine *)

(** X8: when the first confirm call answers [succeeded], the handler calls
    the processor once, issues one insert and answers 200 "pending".  The
    row is keyed by the intent id, owned by the caller of the request, of
    type Deposit and status Pending, and its amount is the amount the
    processor reported, in cents and without rounding below 2^53; if the
    store takes the insert the row is the last of TransactionHistory.  No
    balance is touched: the funds are credited by the webhook alone. *)
Theorem confirmPayment_first_attempt_succeeded
    (request : APIGatewayProxyRequest ConfirmPayment.ConfirmPaymentRequest)
    (body : ConfirmPayment.ConfirmPaymentRequest) (w : World)
    (cents : Z) (rest : list (error + (string * Z))) :
  RequestBody request = Decoded body ->
  confirm_outcomes w
  = inr (Stripe.PaymentIntentStatusSucceeded, cents) :: rest ->
  let id := ConfirmPayment.PaymentIntentID body in
  let row := {| Ledger.TransactionID := id;
                Ledger.OwnerID := CognitoIdentityPoolID request;
                Ledger.TransactionType := "Deposit";
                Ledger.Amount := float64_of_int64 cents;
                Ledger.TransactionStatus := "Pending";
                Ledger.TransactionDate := Ledger.DateGoString (clock w) |} in
  let out := ConfirmPayment.confirmPayment request w in
  fst out = (ConfirmPayment.pending_response, None)
  /\ calls_since w (snd out)
     = [PaymentIntentConfirm id; ExecInsertTransaction row]
  /\ confirm_outcomes (snd out) = rest
  /\ users (snd out) = users w
  /\ (hd None (db_faults w) = None ->
      history (snd out) = (history w ++ [row])%list)
  /\ (0 <= cents < 2 ^ 53 ->
      (float64_to_Q (Ledger.Amount row) == inject_Z cents)%Q).
Proof.
  intros Hbody Hco id row out.
  destruct (confirm_succeeded_effect request body Hbody w cents rest Hco)
    as (R & U & H & _ & C & _ & T).
  fold out in R, U, H, C, T.
  split; [exact R|]. split; [exact (calls_since_app _ _ _ T)|].
  split; [exact C|]. split; [exact U|]. split.
  - intros F. rewrite H, F. reflexivity.
  - intros B. apply float64_of_int64_exact. exact B.
Qed.

Lemma confirmPayment_first_attempt_succeeded_witness :
  let rq := request_of (Decoded {| ConfirmPayment.PaymentIntentID := "pi_1" |}) in
  let w := with_confirm_outcomes (ledger_world []) [inr ("succeeded", 2000)] in
  let out := ConfirmPayment.confirmPayment rq w in
  0 <= 2000 < 2 ^ 53
  /\ StatusCode (fst (fst out)) = 200
  /\ count_calls is_confirm_call (calls_since w (snd out)) = 1%nat
  /\ history (snd out) = [sample_pending "pi_1" 2000]
  /\ Ledger.balance_of (users (snd out)) "7" = Some 0%Q.
Proof.
  intros rq w out.
  assert (B : 0 <= 2000 < 2 ^ 53) by (split; [lia | reflexivity]).
  split; [exact B|].
  destruct (confirmPayment_first_attempt_succeeded rq
              {| ConfirmPayment.PaymentIntentID := "pi_1" |} w 2000 []
              eq_refl eq_refl) as (R & T & _ & U & H & _).
  fold out in R, T, U, H.
  split; [rewrite R; reflexivity|]. split; [rewrite T; reflexivity|].
  split; [rewrite (H eq_refl); reflexivity|]. rewrite U. reflexivity.
Defined.

(** X9: an answer of the processor with any other status than
    [requires_action], [succeeded] and [requires_confirmation] ([canceled],
    [processing], ...) ends the run after that one confirm call: the handler
    answers 400 with the raw status in the body and a nil error, and issues
    no statement to the store. *)
Theorem confirmPayment_unhandled_status
    (request : APIGatewayProxyRequest ConfirmPayment.ConfirmPaymentRequest)
    (body : ConfirmPayment.ConfirmPaymentRequest) (w : World)
    (st : string) (cents : Z) (rest : list (error + (string * Z))) :
  RequestBody request = Decoded body ->
  confirm_outcomes w = inr (st, cents) :: rest ->
  st <> Stripe.PaymentIntentStatusRequiresAction ->
  st <> Stripe.PaymentIntentStatusSucceeded ->
  st <> Stripe.PaymentIntentStatusRequiresConfirmation ->
  let out := ConfirmPayment.confirmPayment request w in
  fst out = ({| StatusCode := 400;
                Body := "Unhandled payment intent status "
                        ++ ConfirmPayment.newline ++ " " ++ st;
                Headers := [] |}, None)
  /\ calls_since w (snd out)
     = [PaymentIntentConfirm (ConfirmPayment.PaymentIntentID body)]
  /\ users (snd out) = users w
  /\ history (snd out) = history w.
Proof.
  intros Hbody Hco A S C out.
  destruct (confirm_unhandled_effect request body Hbody w st cents rest Hco
              (proj2 (String.eqb_neq _ _) A) (proj2 (String.eqb_neq _ _) S)
              (proj2 (String.eqb_neq _ _) C)) as (R & U & H & T).
  fold out in R, U, H, T.
  split; [exact R|]. split; [exact (calls_since_app _ _ _ T)|].
  split; [exact U | exact H].
Qed.

Lemma confirmPayment_unhandled_status_witness :
  let rq := request_of (Decoded {| ConfirmPayment.PaymentIntentID := "pi_1" |}) in
  let w := with_confirm_outcomes (ledger_world []) [inr ("canceled", 2000)] in
  let out := ConfirmPayment.confirmPayment rq w in
  "canceled" <> Stripe.PaymentIntentStatusSucceeded
  /\ StatusCode (fst (fst out)) = 400
  /\ contains "canceled" (Body (fst (fst out))) = true
  /\ history (snd out) = [].
Proof.
  intros rq w out.
  assert (A : "canceled" <> Stripe.PaymentIntentStatusRequiresAction)
    by discriminate.
  assert (S : "canceled" <> Stripe.PaymentIntentStatusSucceeded)
    by discriminate.
  assert (C : "canceled" <> Stripe.PaymentIntentStatusRequiresConfirmation)
    by discriminate.
  split; [exact S|].
  destruct (confirmPayment_unhandled_status rq
              {| ConfirmPayment.PaymentIntentID := "pi_1" |} w "canceled" 2000
              [] eq_refl eq_refl A S C) as (R & _ & _ & H).
  fold out in R, H.
  split; [rewrite R; reflexivity|]. split; [rewrite R; reflexivity | exact H].
Defined.

(** X10: whatever the request, the answers of the processor and the faults
    of the store, a run of [confirmPayment] leaves table Users as it was (it
    never credits a balance) and keeps every row of TransactionHistory; what
    it adds is no row or one row at the end, and that row is a Pending
    Deposit owned by the caller of the request. *)
Theorem confirmPayment_ledger_footprint
    (request : APIGatewayProxyRequest ConfirmPayment.ConfirmPaymentRequest)
    (w : World) :
  let out := ConfirmPayment.confirmPayment request w in
  users (snd out) = users w
  /\ exists rows,
       history (snd out) = (history w ++ rows)%list
       /\ (List.length rows <= 1)%nat
       /\ Forall (fun t => Ledger.OwnerID t = CognitoIdentityPoolID request
                           /\ Ledger.TransactionType t = "Deposit"
                           /\ Ledger.TransactionStatus t = "Pending") rows.
Proof.
  intros out.
  destruct (RequestBody request) as [err|body] eqn:Hbody.
  - subst out. rewrite (confirmPayment_malformed_aux request err w Hbody).
    split; [reflexivity|]. exists []. rewrite app_nil_r.
    split; [reflexivity|]. split; [simpl; lia | constructor].
  - destruct (confirm_tables request body Hbody w) as (U & [H|(c & H)]);
      fold out in U, H; (split; [exact U|]).
    + exists []. rewrite app_nil_r.
      split; [exact H|]. split; [simpl; lia | constructor].
    + eexists. split; [exact H|]. split; [simpl; lia|].
      constructor; [|constructor]. repeat split.
Qed.

Lemma confirmPayment_ledger_footprint_witness :
  let rq := request_of (Decoded {| ConfirmPayment.PaymentIntentID := "pi_1" |}) in
  let w := with_confirm_outcomes (ledger_world [sample_pending "pi_0" 500])
             [inr ("requires_confirmation", 2000); inr ("succeeded", 2000)] in
  let out := ConfirmPayment.confirmPayment rq w in
  users (snd out) = users w
  /\ firstn 1 (history (snd out)) = [sample_pending "pi_0" 500].
Proof.
  intros rq w out.
  destruct (confirmPayment_ledger_footprint rq w) as (U & rows & H & _).
  fold out in U, H. split; [exact U|]. rewrite H. reflexivity.
Defined.

(** X11: the insert of [confirmPayment] is not guarded by a look-up of the
    intent id.  When the same intent is confirmed twice and the processor
    answers [succeeded] both times, each run issues its insert, and if the
    store takes both, TransactionHistory ends with two Pending rows of that
    one intent id. *)
Theorem confirmPayment_twice_inserts_twice
    (request : APIGatewayProxyRequest ConfirmPayment.ConfirmPaymentRequest)
    (body : ConfirmPayment.ConfirmPaymentRequest) (w : World)
    (c1 c2 : Z) (rest : list (error + (string * Z))) :
  RequestBody request = Decoded body ->
  confirm_outcomes w
  = inr (Stripe.PaymentIntentStatusSucceeded, c1)
    :: inr (Stripe.PaymentIntentStatusSucceeded, c2) :: rest ->
  hd None (db_faults w) = None ->
  hd None (tl (db_faults w)) = None ->
  let id := ConfirmPayment.PaymentIntentID body in
  let row t c := {| Ledger.TransactionID := id;
                    Ledger.OwnerID := CognitoIdentityPoolID request;
                    Ledger.TransactionType := "Deposit";
                    Ledger.Amount := float64_of_int64 c;
                    Ledger.TransactionStatus := "Pending";
                    Ledger.TransactionDate := Ledger.DateGoString t |} in
  let out1 := ConfirmPayment.confirmPayment request w in
  let out2 := ConfirmPayment.confirmPayment request (snd out1) in
  fst out2 = (ConfirmPayment.pending_response, None)
  /\ history (snd out2)
     = (history w ++ [row (clock w) c1; row (clock w + 1) c2])%list
  /\ List.length (Ledger.records_of (history (snd out2)) id)
     = (2 + List.length (Ledger.records_of (history w) id))%nat.
Proof.
  intros Hbody Hco F1 F2 id row out1 out2. subst id row. cbv beta.
  destruct (confirm_succeeded_effect request body Hbody w c1 _ Hco)
    as (_ & _ & H1 & D1 & C1 & K1 & _).
  fold out1 in H1, D1, C1, K1. rewrite F1 in H1.
  assert (F1' : hd None (db_faults (snd out1)) = None)
    by (rewrite D1; exact F2).
  destruct (confirm_succeeded_effect request body Hbody (snd out1) c2 rest C1)
    as (R2 & _ & H2 & _).
  fold out2 in R2, H2. rewrite F1', H1, K1, <- app_assoc in H2.
  split; [exact R2|]. split; [exact H2|].
  rewrite H2. unfold Ledger.records_of.
  rewrite filter_app, length_app. cbn [filter app Ledger.TransactionID].
  rewrite String.eqb_refl. simpl. lia.
Qed.

Lemma confirmPayment_twice_inserts_twice_witness :
  let rq := request_of (Decoded {| ConfirmPayment.PaymentIntentID := "pi_1" |}) in
  let w := with_confirm_outcomes (ledger_world [])
             [inr ("succeeded", 2000); inr ("succeeded", 2000)] in
  let out1 := ConfirmPayment.confirmPayment rq w in
  let out2 := ConfirmPayment.confirmPayment rq (snd out1) in
  hd None (db_faults w) = None
  /\ List.length (Ledger.records_of (history (snd out2)) "pi_1") = 2%nat.
Proof.
  intros rq w out1 out2. split; [reflexivity|].
  destruct (confirmPayment_twice_inserts_twice rq
              {| ConfirmPayment.PaymentIntentID := "pi_1" |} w 2000 2000 []
              eq_refl eq_refl eq_refl eq_refl) as (_ & _ & L).
  exact L.
Defined.

(** X12: the two halves of a deposit compose.  After [confirmPayment] has
    recorded a succeeded intent (Pending) and the webhook has then received
    the success event of that intent for the same caller and amount, no call
    failing, TransactionHistory holds the row of the intent with status
    Completed, dated by the delivery, and the caller's balance has grown by
    the value of [float64(cents) / 100.0]; both handlers answered 200. *)
Theorem confirm_then_webhook_settles
    (crequest : APIGatewayProxyRequest ConfirmPayment.ConfirmPaymentRequest)
    (body : ConfirmPayment.ConfirmPaymentRequest)
    (wrequest : APIGatewayProxyRequest Webhook.StripeWebhookEvent)
    (event : Webhook.StripeWebhookEvent)
    (w : World) (u : Ledger.User) (cents : Z)
    (rest : list (error + (string * Z))) :
  RequestBody crequest = Decoded body ->
  confirm_outcomes w
  = inr (Stripe.PaymentIntentStatusSucceeded, cents) :: rest ->
  db_faults w = [] ->
  RequestBody wrequest = Decoded event ->
  Webhook.Type_ event = "payment_intent.succeeded" ->
  Webhook.ID (Webhook.Object (Webhook.Data event))
  = ConfirmPayment.PaymentIntentID body ->
  Webhook.Amount (Webhook.Object (Webhook.Data event)) = cents ->
  CognitoIdentityPoolID wrequest = CognitoIdentityPoolID crequest ->
  Ledger.select_user (users w) (CognitoIdentityPoolID crequest) = Some u ->
  let out1 := ConfirmPayment.confirmPayment crequest w in
  let out2 := Webhook.webhook wrequest (snd out1) in
  StatusCode (fst (fst out1)) = 200
  /\ StatusCode (fst (fst out2)) = 200
  /\ In {| Ledger.TransactionID := ConfirmPayment.PaymentIntentID body;
           Ledger.OwnerID := CognitoIdentityPoolID crequest;
           Ledger.TransactionType := "Deposit";
           Ledger.Amount := float64_of_int64 cents;
           Ledger.TransactionStatus := "Completed";
           Ledger.TransactionDate := Ledger.DateTime (clock w + 1) |}
        (history (snd out2))
  /\ Forall (fun t => Ledger.TransactionStatus t = "Completed")
            (Ledger.records_of (history (snd out2))
               (ConfirmPayment.PaymentIntentID body))
  /\ exists u',
       Ledger.select_user (users (snd out2)) (CognitoIdentityPoolID crequest)
       = Some u'
       /\ (Ledger.AccountBalance u' ==
           Ledger.AccountBalance u + float64_to_Q (balance_delta cents))%Q.
Proof.
  intros Hcb Hco Hf Hwb Hty Hid Hamt Hcaller Hu out1 out2.
  destruct (confirm_succeeded_effect crequest body Hcb w cents rest Hco)
    as (R1 & U1 & H1 & D1 & _ & K1 & _).
  fold out1 in R1, U1, H1, D1, K1. rewrite Hf in H1, D1.
  cbn [hd tl] in H1, D1.
  assert (G1 : hd None (db_faults (snd out1)) = None)
    by (rewrite D1; reflexivity).
  assert (G2 : hd None (tl (db_faults (snd out1))) = None)
    by (rewrite D1; reflexivity).
  destruct (webhook_succeeded_run wrequest event Hwb Hty (snd out1) G1 G2)
    as (R2 & U2 & H2 & _).
  fold out2 in R2, U2, H2.
  rewrite Hid, K1, H1 in H2. rewrite Hamt, Hcaller, U1 in U2.
  split; [rewrite R1; reflexivity|]. split; [rewrite R2; reflexivity|].
  split; [|split].
  - rewrite H2. unfold Ledger.update_status. rewrite map_app.
    apply in_or_app. right. cbn [map Ledger.TransactionID].
    rewrite String.eqb_refl. left. reflexivity.
  - rewrite H2. eapply Forall_impl; [|apply records_of_update_status].
    intros t [Ht _]. exact Ht.
  - rewrite U2, select_user_add_balance, Hu. cbn [option_map].
    eexists. split; [reflexivity|].
    cbn [Ledger.AccountBalance Ledger.set_balance]. apply Qred_correct.
Qed.

Lemma confirm_then_webhook_settles_witness :
  let crq := request_of (Decoded {| ConfirmPayment.PaymentIntentID := "pi_1" |}) in
  let wrq := request_of (Decoded (succeeded_event "pi_1" 2000)) in
  let w := with_confirm_outcomes (ledger_world []) [inr ("succeeded", 2000)] in
  let out1 := ConfirmPayment.confirmPayment crq w in
  let out2 := Webhook.webhook wrq (snd out1) in
  db_faults w = []
  /\ StatusCode (fst (fst out2)) = 200
  /\ Forall (fun t => Ledger.TransactionStatus t = "Completed")
            (Ledger.records_of (history (snd out2)) "pi_1")
  /\ exists u',
       Ledger.select_user (users (snd out2)) "7" = Some u'
       /\ (Ledger.AccountBalance u' == 0 + float64_to_Q (balance_delta 2000))%Q.
Proof.
  intros crq wrq w out1 out2. split; [reflexivity|].
  destruct (confirm_then_webhook_settles crq
              {| ConfirmPayment.PaymentIntentID := "pi_1" |} wrq
              (succeeded_event "pi_1" 2000) w (sample_user 0 (Some "cus_0"))
              2000 [] eq_refl eq_refl eq_refl eq_refl eq_refl eq_refl eq_refl
              eq_refl eq_refl) as (_ & R2 & _ & F & B).
  split; [exact R2|]. split; [exact F | exact B].
Defined.

(** ** Every run of intent submission *)

Section SubmitEffect.

Variable request :
  APIGatewayProxyRequest CreatePaymentIntent.PaymentIntentRequest.
Variable submission : CreatePaymentIntent.PaymentIntentRequest.
Hypothesis Hbody : RequestBody request = Decoded submission.

Let uid := CognitoIdentityPoolID request.
Let pm := CreatePaymentIntent.PaymentMethodID submission.

Let params (sid : string) : Stripe.PaymentIntentParams :=
  {| Stripe.Amount := CreatePaymentIntent.Amount submission;
     Stripe.Currency := CreatePaymentIntent.Currency submission;
     Stripe.Customer_ := sid;
     Stripe.PaymentMethod := pm;
     Stripe.SetupFutureUsage := "off_session" |}.

(** The user is mapped and no call fails. *)
Lemma submit_created_run (w : World) (u : Ledger.User) (sid : string) :
  hd None (db_faults w) = None ->
  Ledger.select_user (users w) uid = Some u ->
  Ledger.StripeID u = Some sid ->
  hd None (stripe_faults w) = None ->
  hd None (tl (stripe_faults w)) = None ->
  let id := fresh_id "pi_" (List.length (intents w)) in
  let p := {| Stripe.pi_ID := id;
              Stripe.pi_Status := Stripe.PaymentIntentStatusRequiresConfirmation;
              Stripe.pi_Amount := CreatePaymentIntent.Amount submission |} in
  let out := CreatePaymentIntent.createPaymentIntent request w in
  fst out = ({| StatusCode := StatusOK;
                Body := "{" ++ CreatePaymentIntent.json_string "payment_intent_id"
                        ++ ":" ++ CreatePaymentIntent.json_string id ++ "}";
                Headers := [] |}, None)
  /\ intents (snd out) = (intents w ++ [(p, params sid)])%list
  /\ attached (snd out) = (attached w ++ [(pm, sid)])%list
  /\ trace (snd out)
     = (trace w ++ [QueryUser uid; PaymentMethodAttach pm sid;
                    PaymentIntentNew (params sid)])%list.
Proof.
  intros Hf Hu Hs H1 H2. unfold CreatePaymentIntent.createPaymentIntent.
  rewrite Hbody. unfold bind. rewrite db_QueryRow_user_eq. rewrite snoc3.
  open_world w. fold uid. rewrite Hu.
  destruct dbf as [|[e|] fs]; try discriminate Hf; cbn; rewrite Hs;
    unfold CreatePaymentIntent.paymentmethod_Attach,
      CreatePaymentIntent.paymentintent_New,
      bind, record, next_stripe_fault, ret; cbn;
    (destruct sf as [|[e|] [|[e'|] sf']];
     try discriminate H1; try discriminate H2; conjuncts; reflexivity).
Qed.

(** The processor refuses to attach the payment method. *)
Lemma submit_attach_fails_run (w : World) (u : Ledger.User) (sid : string)
    (e : error) (sf' : list (option error)) :
  hd None (db_faults w) = None ->
  Ledger.select_user (users w) uid = Some u ->
  Ledger.StripeID u = Some sid ->
  stripe_faults w = Some e :: sf' ->
  let out := CreatePaymentIntent.createPaymentIntent request w in
  fst out = (CreatePaymentIntent.status_only StatusInternalServerError, Some e)
  /\ intents (snd out) = intents w
  /\ attached (snd out) = attached w
  /\ trace (snd out)
     = (trace w ++ [QueryUser uid; PaymentMethodAttach pm sid])%list.
Proof.
  intros Hf Hu Hs H1. unfold CreatePaymentIntent.createPaymentIntent.
  rewrite Hbody. unfold bind. rewrite db_QueryRow_user_eq. rewrite snoc2.
  open_world w. fold uid. rewrite Hu. subst sf.
  destruct dbf as [|[e0|] fs]; try discriminate Hf; cbn; rewrite Hs;
    unfold CreatePaymentIntent.paymentmethod_Attach,
      bind, record, next_stripe_fault, printf, ret; cbn;
    conjuncts; reflexivity.
Qed.

(** The method is attached and the processor refuses to create the intent. *)
Lemma submit_new_fails_run (w : World) (u : Ledger.User) (sid : string)
    (e : error) (sf' : list (option error)) :
  hd None (db_faults w) = None ->
  Ledger.select_user (users w) uid = Some u ->
  Ledger.StripeID u = Some sid ->
  stripe_faults w = None :: Some e :: sf' ->
  let out := CreatePaymentIntent.createPaymentIntent request w in
  fst out = (CreatePaymentIntent.status_only StatusInternalServerError, Some e)
  /\ intents (snd out) = intents w
  /\ attached (snd out) = (attached w ++ [(pm, sid)])%list
  /\ trace (snd out)
     = (trace w ++ [QueryUser uid; PaymentMethodAttach pm sid;
                    PaymentIntentNew (params sid)])%list.
Proof.
  intros Hf Hu Hs H1. unfold CreatePaymentIntent.createPaymentIntent.
  rewrite Hbody. unfold bind. rewrite db_QueryRow_user_eq. rewrite snoc3.
  open_world w. fold uid. rewrite Hu. subst sf.
  destruct dbf as [|[e0|] fs]; try discriminate Hf; cbn; rewrite Hs;
    unfold CreatePaymentIntent.paymentmethod_Attach,
      CreatePaymentIntent.paymentintent_New,
      bind, record, next_stripe_fault, printf, ret; cbn;
    conjuncts; reflexivity.
Qed.

End SubmitEffect.

(** What any run of intent submission leaves and calls: the two tables and
    the processor's customers as they were, and after the query of the caller
    at most the attachment and then the creation of the intent, the intent
    being one for the method and the customer of the attachment, which the
    processor has accepted by then. *)
Lemma submit_cases
    (request : APIGatewayProxyRequest CreatePaymentIntent.PaymentIntentRequest)
    (w : World) :
  let out := CreatePaymentIntent.createPaymentIntent request w in
  let uid := CognitoIdentityPoolID request in
  users (snd out) = users w
  /\ history (snd out) = history w
  /\ customers (snd out) = customers w
  /\ (trace (snd out) = trace w
      \/ trace (snd out) = (trace w ++ [QueryUser uid])%list
      \/ (exists pm sid,
            trace (snd out)
            = (trace w ++ [QueryUser uid; PaymentMethodAttach pm sid])%list)
      \/ (exists p,
            trace (snd out)
            = (trace w ++ [QueryUser uid;
                           PaymentMethodAttach (Stripe.PaymentMethod p)
                             (Stripe.Customer_ p);
                           PaymentIntentNew p])%list
            /\ attached (snd out)
               = (attached w
                  ++ [(Stripe.PaymentMethod p, Stripe.Customer_ p)])%list)).
Proof.
  unfold CreatePaymentIntent.createPaymentIntent.
  destruct (RequestBody request) as [err|submission].
  { conjuncts; try reflexivity. left. reflexivity. }
  unfold bind. rewrite db_QueryRow_user_eq.
  open_world w.
  destruct (Ledger.select_user us (CognitoIdentityPoolID request))
    as [u|] eqn:Hu.
  2: { destruct dbf as [|[e|] fs]; cbn;
         (conjuncts; try reflexivity; right; left; reflexivity). }
  destruct (Ledger.StripeID u) as [sid|] eqn:Hs.
  2: { destruct dbf as [|[e|] fs]; cbn; rewrite ?Hs;
         (conjuncts; try reflexivity; right; left; reflexivity). }
  destruct dbf as [|[e|] fs]; cbn; rewrite ?Hs.
  2: { conjuncts; try reflexivity. right; left; reflexivity. }
  all: unfold CreatePaymentIntent.paymentmethod_Attach,
         CreatePaymentIntent.paymentintent_New,
         bind, record, next_stripe_fault, printf, ret; cbn.
  all: destruct sf as [|[e|] [|[e'|] sf']]; cbn.
  all: conjuncts; try reflexivity.
  all: first
         [ right; right; left; eexists _, _;
           rewrite <- ?app_assoc; reflexivity
         | right; right; right;
           exists {| Stripe.Amount := CreatePaymentIntent.Amount submission;
                     Stripe.Currency := CreatePaymentIntent.Currency submission;
                     Stripe.Customer_ := sid;
                     Stripe.PaymentMethod :=
                       CreatePaymentIntent.PaymentMethodID submission;
                     Stripe.SetupFutureUsage := "off_session" |};
           rewrite <- ?app_assoc; split; reflexivity ].
Qed.

(** ** Extra properties of intent submission *)

(** X13: for a user who holds a processor customer reference, and no call
    failing, intent submission queries the user, attaches the payment method
    to that customer and creates one intent for the submitted amount and
    currency, that customer and that method, set up for off-session reuse, in
    this order; it answers 200 with a nil error and a JSON object whose
    [payment_intent_id] is the id of the new intent. *)
Theorem createPaymentIntent_creates_intent
    (request : APIGatewayProxyRequest CreatePaymentIntent.PaymentIntentRequest)
    (submission : CreatePaymentIntent.PaymentIntentRequest)
    (w : World) (u : Ledger.User) (sid : string) :
  RequestBody request = Decoded submission ->
  hd None (db_faults w) = None ->
  Ledger.select_user (users w) (CognitoIdentityPoolID request) = Some u ->
  Ledger.StripeID u = Some sid ->
  hd None (stripe_faults w) = None ->
  hd None (tl (stripe_faults w)) = None ->
  let pm := CreatePaymentIntent.PaymentMethodID submission in
  let params := {| Stripe.Amount := CreatePaymentIntent.Amount submission;
                   Stripe.Currency := CreatePaymentIntent.Currency submission;
                   Stripe.Customer_ := sid;
                   Stripe.PaymentMethod := pm;
                   Stripe.SetupFutureUsage := "off_session" |} in
  let id := fresh_id "pi_" (List.length (intents w)) in
  let out := CreatePaymentIntent.createPaymentIntent request w in
  fst out = ({| StatusCode := StatusOK;
                Body := "{" ++ CreatePaymentIntent.json_string "payment_intent_id"
                        ++ ":" ++ CreatePaymentIntent.json_string id ++ "}";
                Headers := [] |}, None)
  /\ calls_since w (snd out)
     = [QueryUser (CognitoIdentityPoolID request);
        PaymentMethodAttach pm sid; PaymentIntentNew params]
  /\ map snd (intents (snd out)) = (map snd (intents w) ++ [params])%list
  /\ map (fun i => Stripe.pi_ID (fst i)) (intents (snd out))
     = (map (fun i => Stripe.pi_ID (fst i)) (intents w) ++ [id])%list.
Proof.
  intros Hbody Hf Hu Hs H1 H2 pm params id out.
  destruct (submit_created_run request submission Hbody w u sid Hf Hu Hs H1 H2)
    as (R & I & _ & T).
  fold out in R, I, T.
  split; [exact R|]. split; [exact (calls_since_app _ _ _ T)|].
  rewrite I, !map_app. split; reflexivity.
Qed.

Lemma createPaymentIntent_creates_intent_witness :
  let sub := {| CreatePaymentIntent.Amount := 2000;
                CreatePaymentIntent.Currency := "usd";
                CreatePaymentIntent.PaymentMethodID := "pm_1" |} in
  let rq := request_of (Decoded sub) in
  let w := ledger_world [] in
  let out := CreatePaymentIntent.createPaymentIntent rq w in
  Ledger.StripeID (sample_user 0 (Some "cus_0")) = Some "cus_0"
  /\ StatusCode (fst (fst out)) = 200
  /\ contains "pi_0" (Body (fst (fst out))) = true
  /\ count_calls is_processor_call (calls_since w (snd out)) = 2%nat
  /\ map (fun i => Stripe.Customer_ (snd i)) (intents (snd out)) = ["cus_0"].
Proof.
  intros sub rq w out. split; [reflexivity|].
  destruct (createPaymentIntent_creates_intent rq sub w
              (sample_user 0 (Some "cus_0")) "cus_0"
              eq_refl eq_refl eq_refl eq_refl eq_refl eq_refl)
    as (R & T & P & _).
  fold out in R, T, P.
  split; [rewrite R; reflexivity|]. split; [rewrite R; reflexivity|].
  split; [rewrite T; reflexivity|].
  rewrite <- (map_map snd Stripe.Customer_), P. reflexivity.
Defined.

(** X14: whatever the request and the faults, a run of intent submission
    writes nothing to the ledger (tables Users and TransactionHistory are as
    they were, and no statement that writes is issued) and creates no
    processor customer; it calls the processor at most twice.  Its calls
    are, in this order, the query of the caller, then at most one attachment
    of a payment method to a customer, then at most one creation of an
    intent; and it never creates an intent without having attached the
    method first: wherever the creation of an intent stands among the calls,
    the attachment of that intent's payment method to that intent's customer
    stands before it, and the processor has accepted that attachment. *)
Theorem createPaymentIntent_no_ledger_mutation
    (request : APIGatewayProxyRequest CreatePaymentIntent.PaymentIntentRequest)
    (w : World) :
  let out := CreatePaymentIntent.createPaymentIntent request w in
  let calls := calls_since w (snd out) in
  let uid := CognitoIdentityPoolID request in
  users (snd out) = users w
  /\ history (snd out) = history w
  /\ customers (snd out) = customers w
  /\ count_calls is_ledger_write calls = 0%nat
  /\ (count_calls is_processor_call calls <= 2)%nat
  /\ (calls = []
      \/ calls = [QueryUser uid]
      \/ (exists pm sid, calls = [QueryUser uid; PaymentMethodAttach pm sid])
      \/ (exists p,
            calls = [QueryUser uid;
                     PaymentMethodAttach (Stripe.PaymentMethod p)
                       (Stripe.Customer_ p);
                     PaymentIntentNew p]))
  /\ (forall pre p post,
        calls = (pre ++ PaymentIntentNew p :: post)%list ->
        In (PaymentMethodAttach (Stripe.PaymentMethod p) (Stripe.Customer_ p))
           pre
        /\ In (Stripe.PaymentMethod p, Stripe.Customer_ p)
              (attached (snd out)))
  /\ (forall email name uid, ~ In (CustomerNew email name uid) calls).
Proof.
  intros out calls uid.
  destruct (submit_cases request w) as (U & H & C & T).
  fold out uid in U, H, C, T.
  split; [exact U|]. split; [exact H|]. split; [exact C|].
  assert (E : (calls = [] /\ True)
              \/ (calls = [QueryUser uid] /\ True)
              \/ (exists pm sid,
                    calls = [QueryUser uid; PaymentMethodAttach pm sid])
              \/ (exists p,
                    calls = [QueryUser uid;
                             PaymentMethodAttach (Stripe.PaymentMethod p)
                               (Stripe.Customer_ p);
                             PaymentIntentNew p]
                    /\ In (Stripe.PaymentMethod p, Stripe.Customer_ p)
                          (attached (snd out)))).
  { destruct T as [T|[T|[(pm & sid & T)|(p & T & A)]]].
    - left. split; [|exact I].
      apply calls_since_app. rewrite T, app_nil_r. reflexivity.
    - right. left. split; [exact (calls_since_app _ _ _ T) | exact I].
    - right. right. left. exists pm, sid. exact (calls_since_app _ _ _ T).
    - right. right. right. exists p.
      split; [exact (calls_since_app _ _ _ T)|].
      rewrite A. apply in_or_app. right. left. reflexivity. }
  clearbody calls. clear T.
  destruct E as [(-> & _)|[(-> & _)|[(pm & sid & ->)|(p & -> & A)]]].
  - conjuncts; [reflexivity | cbn; lia | left; reflexivity | |].
    + intros [|c pre] q post F; discriminate F.
    + intros e n i [].
  - conjuncts; [reflexivity | cbn; lia | right; left; reflexivity | |].
    + intros [|c [|d pre]] q post F; discriminate F.
    + intros e n i [F|[]]; discriminate F.
  - conjuncts; [reflexivity | cbn; lia | | |].
    + right. right. left. exists pm, sid. reflexivity.
    + intros [|c [|d [|d' pre]]] q post F; discriminate F.
    + intros e n i [F|[F|[]]]; discriminate F.
  - conjuncts; [reflexivity | cbn; lia | | |].
    + right. right. right. exists p. reflexivity.
    + intros [|c [|d [|d' [|d'' pre]]]] q post F; try discriminate F.
      injection F as Ec Ed Ep _. subst c d q.
      split; [right; left; reflexivity | exact A].
    + intros e n i [F|[F|[F|[]]]]; discriminate F.
Qed.

Lemma createPaymentIntent_no_ledger_mutation_witness :
  let sub := {| CreatePaymentIntent.Amount := 2000;
                CreatePaymentIntent.Currency := "usd";
                CreatePaymentIntent.PaymentMethodID := "pm_1" |} in
  let p := {| Stripe.Amount := 2000; Stripe.Currency := "usd";
              Stripe.Customer_ := "cus_0"; Stripe.PaymentMethod := "pm_1";
              Stripe.SetupFutureUsage := "off_session" |} in
  let w := ledger_world [sample_pending "pi_0" 500] in
  let out := CreatePaymentIntent.createPaymentIntent (request_of (Decoded sub)) w in
  history (snd out) = [sample_pending "pi_0" 500]
  /\ Ledger.balance_of (users (snd out)) "7" = Some 0%Q
  /\ count_calls is_ledger_write (calls_since w (snd out)) = 0%nat
  /\ calls_since w (snd out)
     = ([QueryUser "7"; PaymentMethodAttach "pm_1" "cus_0"]
        ++ PaymentIntentNew p :: [])%list
  /\ In ("pm_1", "cus_0") (attached (snd out)).
Proof.
  intros sub p w out.
  destruct (createPaymentIntent_no_ledger_mutation (request_of (Decoded sub)) w)
    as (U & H & _ & L & _ & _ & O & _).
  fold out in U, H, L, O.
  assert (T : calls_since w (snd out)
              = ([QueryUser "7"; PaymentMethodAttach "pm_1" "cus_0"]
                 ++ PaymentIntentNew p :: [])%list) by reflexivity.
  split; [exact H|]. split; [rewrite U; reflexivity|]. split; [exact L|].
  split; [exact T|]. exact (proj2 (O _ p _ T)).
Defined.

(** X15: when the processor refuses to attach the payment method, intent
    submission answers 500 with the processor's error as the handler's
    error and stops: no intent is created. *)
Theorem createPaymentIntent_refused_attachment
    (request : APIGatewayProxyRequest CreatePaymentIntent.PaymentIntentRequest)
    (submission : CreatePaymentIntent.PaymentIntentRequest)
    (w : World) (u : Ledger.User) (sid : string) (e : error)
    (sf : list (option error)) :
  RequestBody request = Decoded submission ->
  hd None (db_faults w) = None ->
  Ledger.select_user (users w) (CognitoIdentityPoolID request) = Some u ->
  Ledger.StripeID u = Some sid ->
  stripe_faults w = Some e :: sf ->
  let out := CreatePaymentIntent.createPaymentIntent request w in
  fst out = ({| StatusCode := StatusInternalServerError; Body := "";
                Headers := [] |}, Some e)
  /\ intents (snd out) = intents w
  /\ attached (snd out) = attached w
  /\ calls_since w (snd out)
     = [QueryUser (CognitoIdentityPoolID request);
        PaymentMethodAttach (CreatePaymentIntent.PaymentMethodID submission)
          sid].
Proof.
  intros Hbody Hf Hu Hs H1 out.
  destruct (submit_attach_fails_run request submission Hbody w u sid e sf
              Hf Hu Hs H1) as (R & I & A & T).
  fold out in R, I, A, T.
  split; [exact R|]. split; [exact I|]. split; [exact A|].
  exact (calls_since_app _ _ _ T).
Qed.

Lemma createPaymentIntent_refused_attachment_witness :
  let sub := {| CreatePaymentIntent.Amount := 2000;
                CreatePaymentIntent.Currency := "usd";
                CreatePaymentIntent.PaymentMethodID := "pm_1" |} in
  let w := with_stripe_faults (ledger_world []) [Some "No such PaymentMethod"] in
  let out := CreatePaymentIntent.createPaymentIntent (request_of (Decoded sub)) w in
  stripe_faults w = [Some "No such PaymentMethod"]
  /\ classify (fst (fst out)) = TransientFault
  /\ snd (fst out) = Some "No such PaymentMethod"
  /\ intents (snd out) = [].
Proof.
  intros sub w out. split; [reflexivity|].
  destruct (createPaymentIntent_refused_attachment (request_of (Decoded sub))
              sub w (sample_user 0 (Some "cus_0")) "cus_0"
              "No such PaymentMethod" []
              eq_refl eq_refl eq_refl eq_refl eq_refl) as (R & I & _).
  fold out in R, I.
  split; [rewrite R; reflexivity|]. split; [rewrite R; reflexivity | exact I].
Defined.

(** X16: when the method was attached and the processor then refuses to
    create the intent, intent submission answers 500 with the processor's
    error; the attachment is not undone, the method stays attached to the
    customer, and there is no intent. *)
Theorem createPaymentIntent_refused_creation_keeps_attachment
    (request : APIGatewayProxyRequest CreatePaymentIntent.PaymentIntentRequest)
    (submission : CreatePaymentIntent.PaymentIntentRequest)
    (w : World) (u : Ledger.User) (sid : string) (e : error)
    (sf : list (option error)) :
  RequestBody request = Decoded submission ->
  hd None (db_faults w) = None ->
  Ledger.select_user (users w) (CognitoIdentityPoolID request) = Some u ->
  Ledger.StripeID u = Some sid ->
  stripe_faults w = None :: Some e :: sf ->
  let out := CreatePaymentIntent.createPaymentIntent request w in
  fst out = ({| StatusCode := StatusInternalServerError; Body := "";
                Headers := [] |}, Some e)
  /\ intents (snd out) = intents w
  /\ attached (snd out)
     = (attached w
        ++ [(CreatePaymentIntent.PaymentMethodID submission, sid)])%list.
Proof.
  intros Hbody Hf Hu Hs H1 out.
  destruct (submit_new_fails_run request submission Hbody w u sid e sf
              Hf Hu Hs H1) as (R & I & A & _).
  fold out in R, I, A.
  split; [exact R|]. split; [exact I | exact A].
Qed.

Lemma createPaymentIntent_refused_creation_keeps_attachment_witness :
  let sub := {| CreatePaymentIntent.Amount := 2000;
                CreatePaymentIntent.Currency := "usd";
                CreatePaymentIntent.PaymentMethodID := "pm_1" |} in
  let w := with_stripe_faults (ledger_world []) [None; Some "rate limited"] in
  let out := CreatePaymentIntent.createPaymentIntent (request_of (Decoded sub)) w in
  stripe_faults w = [None; Some "rate limited"]
  /\ snd (fst out) = Some "rate limited"
  /\ intents (snd out) = []
  /\ attached (snd out) = [("pm_1", "cus_0")].
Proof.
  intros sub w out. split; [reflexivity|].
  destruct (createPaymentIntent_refused_creation_keeps_attachment
              (request_of (Decoded sub)) sub w (sample_user 0 (Some "cus_0"))
              "cus_0" "rate limited" []
              eq_refl eq_refl eq_refl eq_refl eq_refl) as (R & I & A).
  fold out in R, I, A.
  split; [rewrite R; reflexivity|]. split; [exact I | exact A].
Defined.

(** ** More runs of the identity mapper *)

Section CustomerEffect.

Variable A : Type.
Variable request : APIGatewayProxyRequest A.

Let uid := CognitoIdentityPoolID request.

(** No row of Users for the caller. *)
Lemma customer_unknown_user_run (w : World) :
  hd None (db_faults w) = None ->
  Ledger.select_user (users w) uid = None ->
  let out := CreateCustomer.createCustomer request w in
  fst out = ({| StatusCode := StatusInternalServerError;
                Body := "Error retrieving user from database";
                Headers := json_headers |}, Some ErrNoRows)
  /\ users (snd out) = users w
  /\ customers (snd out) = customers w
  /\ trace (snd out) = (trace w ++ [QueryUser uid])%list.
Proof.
  intros Hf Hu. unfold CreateCustomer.createCustomer.
  unfold bind. rewrite db_QueryRow_user_eq.
  open_world w. fold uid. rewrite Hu.
  destruct dbf as [|[e|] fs]; try discriminate Hf; conjuncts; reflexivity.
Qed.

(** The user holds a reference and the processor's look-up of it fails: by
    a fault of the call, or because the processor has no such customer. *)
Lemma customer_lookup_fails_run (w : World) (u : Ledger.User)
    (sid : string) (e : error) :
  hd None (db_faults w) = None ->
  Ledger.select_user (users w) uid = Some u ->
  Ledger.StripeID u = Some sid ->
  (hd None (stripe_faults w) = Some e
   \/ (hd None (stripe_faults w) = None
       /\ Stripe.find_customer (customers w) sid = None
       /\ e = "No such customer: " ++ sid)) ->
  let out := CreateCustomer.createCustomer request w in
  fst out = ({| StatusCode := StatusInternalServerError;
                Body := "Error finding customer by Stripe ID: " ++ e;
                Headers := json_headers |}, Some e)
  /\ users (snd out) = users w
  /\ customers (snd out) = customers w
  /\ trace (snd out) = (trace w ++ [QueryUser uid; CustomerGet sid])%list.
Proof.
  intros Hf Hu Hs Hl. unfold CreateCustomer.createCustomer.
  unfold bind. rewrite db_QueryRow_user_eq. rewrite snoc2.
  open_world w. fold uid. rewrite Hu.
  destruct dbf as [|[e0|] fs]; try discriminate Hf; cbn; rewrite Hs;
    unfold CreateCustomer.findCustomerByStripeID, CreateCustomer.customer_Get,
      bind, record, next_stripe_fault, ret; cbn;
    (destruct Hl as [Hl|(Hl & Hc & ->)];
     [ destruct sf as [|[e1|] sf']; try discriminate Hl;
       injection Hl as ->; conjuncts; reflexivity
     | destruct sf as [|[e1|] sf']; try discriminate Hl; cbn; rewrite Hc;
       conjuncts; reflexivity ]).
Qed.

(** The customer is created and the store refuses to record its id. *)
Lemma customer_persist_fails_run (w : World) (u : Ledger.User) (e : error) :
  hd None (db_faults w) = None ->
  Ledger.select_user (users w) uid = Some u ->
  Ledger.StripeID u = None ->
  hd None (stripe_faults w) = None ->
  hd None (tl (db_faults w)) = Some e ->
  let cid := fresh_id "cus_" (List.length (customers w)) in
  let c := {| Stripe.ID := cid; Stripe.Email := Ledger.Email u;
              Stripe.Name := Ledger.Username u;
              Stripe.Metadata := [("UserID", uid)] |} in
  let out := CreateCustomer.createCustomer request w in
  fst out = ({| StatusCode := StatusInternalServerError;
                Body := "Error updating user with new Stripe ID";
                Headers := json_headers |}, Some e)
  /\ users (snd out) = users w
  /\ customers (snd out) = (customers w ++ [c])%list
  /\ db_faults (snd out) = tl (tl (db_faults w))
  /\ stripe_faults (snd out) = tl (stripe_faults w).
Proof.
  intros Hf Hu Hs Hsf Hf2. unfold CreateCustomer.createCustomer.
  unfold bind. rewrite db_QueryRow_user_eq.
  open_world w. fold uid. rewrite Hu.
  destruct dbf as [|[e0|] [|[e'|] fs]];
    try discriminate Hf; try discriminate Hf2; cbn; rewrite Hs;
    injection Hf2 as ->;
    (destruct sf as [|[e0|] sf']; try discriminate Hsf;
     conjuncts; reflexivity).
Qed.

End CustomerEffect.

Lemma submit_unknown_user_run
    (request : APIGatewayProxyRequest CreatePaymentIntent.PaymentIntentRequest)
    (submission : CreatePaymentIntent.PaymentIntentRequest) (w : World) :
  RequestBody request = Decoded submission ->
  hd None (db_faults w) = None ->
  Ledger.select_user (users w) (CognitoIdentityPoolID request) = None ->
  let out := CreatePaymentIntent.createPaymentIntent request w in
  fst out = ({| StatusCode := StatusInternalServerError;
                Body := "Error retrieving user from database";
                Headers := json_headers |}, Some ErrNoRows)
  /\ trace (snd out)
     = (trace w ++ [QueryUser (CognitoIdentityPoolID request)])%list.
Proof.
  intros Hbody Hf Hu. unfold CreatePaymentIntent.createPaymentIntent.
  rewrite Hbody. unfold bind. rewrite db_QueryRow_user_eq.
  open_world w. rewrite Hu.
  destruct dbf as [|[e|] fs]; try discriminate Hf; conjuncts; reflexivity.
Qed.

(** ** Extra properties of the identity mapper and of its users *)

(** X17: when the caller identity of the request is the id of no user,
    both the identity mapper and intent submission answer 500 with the body
    [Error retrieving user from database] and [sql.ErrNoRows] as the
    handler's error, after the query alone: the processor is not called, so
    no customer is created for an unknown user. *)
Theorem unknown_user_is_fatal
    (A : Type) (crequest : APIGatewayProxyRequest A)
    (prequest : APIGatewayProxyRequest CreatePaymentIntent.PaymentIntentRequest)
    (submission : CreatePaymentIntent.PaymentIntentRequest) (w : World) :
  RequestBody prequest = Decoded submission ->
  hd None (db_faults w) = None ->
  Ledger.select_user (users w) (CognitoIdentityPoolID crequest) = None ->
  Ledger.select_user (users w) (CognitoIdentityPoolID prequest) = None ->
  let failure := ({| StatusCode := StatusInternalServerError;
                     Body := "Error retrieving user from database";
                     Headers := json_headers |}, Some ErrNoRows) in
  let out1 := CreateCustomer.createCustomer crequest w in
  let out2 := CreatePaymentIntent.createPaymentIntent prequest w in
  fst out1 = failure
  /\ count_calls is_processor_call (calls_since w (snd out1)) = 0%nat
  /\ customers (snd out1) = customers w
  /\ users (snd out1) = users w
  /\ fst out2 = failure
  /\ count_calls is_processor_call (calls_since w (snd out2)) = 0%nat.
Proof.
  intros Hbody Hf Hu1 Hu2 failure out1 out2.
  destruct (customer_unknown_user_run A crequest w Hf Hu1) as (R1 & U1 & C1 & T1).
  destruct (submit_unknown_user_run prequest submission w Hbody Hf Hu2)
    as (R2 & T2).
  fold out1 in R1, U1, C1, T1. fold out2 in R2, T2.
  rewrite (calls_since_app _ _ _ T1), (calls_since_app _ _ _ T2).
  conjuncts; try assumption; reflexivity.
Qed.

Lemma unknown_user_is_fatal_witness :
  let crq : APIGatewayProxyRequest unit :=
    {| RequestBody := Decoded tt; CognitoIdentityPoolID := "99" |} in
  let sub := {| CreatePaymentIntent.Amount := 2000;
                CreatePaymentIntent.Currency := "usd";
                CreatePaymentIntent.PaymentMethodID := "pm_1" |} in
  let prq := {| RequestBody := Decoded sub; CognitoIdentityPoolID := "99" |} in
  let w := ledger_world [] in
  Ledger.select_user (users w) "99" = None
  /\ snd (fst (CreateCustomer.createCustomer crq w)) = Some ErrNoRows
  /\ customers (snd (CreateCustomer.createCustomer crq w)) = customers w
  /\ snd (fst (CreatePaymentIntent.createPaymentIntent prq w)) = Some ErrNoRows.
Proof.
  intros crq sub prq w. split; [reflexivity|].
  destruct (unknown_user_is_fatal unit crq prq sub w
              eq_refl eq_refl eq_refl eq_refl) as (R1 & _ & C1 & _ & R2 & _).
  split; [rewrite R1; reflexivity|]. split; [exact C1|].
  rewrite R2. reflexivity.
Defined.

(** X18: when the user holds a reference and the processor's look-up of it
    fails (the call fails, or the processor has no customer of that id), the
    identity mapper answers 500 with the processor's error in the body and
    as the handler's error, and stops there: it creates no new customer and
    leaves the stored reference as it is. *)
Theorem createCustomer_failed_lookup_creates_nothing
    (A : Type) (request : APIGatewayProxyRequest A) (w : World)
    (u : Ledger.User) (sid : string) (e : error) :
  hd None (db_faults w) = None ->
  Ledger.select_user (users w) (CognitoIdentityPoolID request) = Some u ->
  Ledger.StripeID u = Some sid ->
  (hd None (stripe_faults w) = Some e
   \/ (hd None (stripe_faults w) = None
       /\ Stripe.find_customer (customers w) sid = None
       /\ e = "No such customer: " ++ sid)) ->
  let out := CreateCustomer.createCustomer request w in
  fst out = ({| StatusCode := StatusInternalServerError;
                Body := "Error finding customer by Stripe ID: " ++ e;
                Headers := json_headers |}, Some e)
  /\ calls_since w (snd out)
     = [QueryUser (CognitoIdentityPoolID request); CustomerGet sid]
  /\ customers (snd out) = customers w
  /\ users (snd out) = users w.
Proof.
  intros Hf Hu Hs Hl out.
  destruct (customer_lookup_fails_run A request w u sid e Hf Hu Hs Hl)
    as (R & U & C & T).
  fold out in R, U, C, T.
  split; [exact R|]. split; [exact (calls_since_app _ _ _ T)|].
  split; [exact C | exact U].
Qed.

Lemma createCustomer_failed_lookup_creates_nothing_witness :
  let rq : APIGatewayProxyRequest unit := request_of (Decoded tt) in
  let w := with_users no_world [sample_user 0 (Some "cus_gone")] in
  let out := CreateCustomer.createCustomer rq w in
  Stripe.find_customer (customers w) "cus_gone" = None
  /\ StatusCode (fst (fst out)) = 500
  /\ snd (fst out) = Some "No such customer: cus_gone"
  /\ customers (snd out) = []
  /\ Ledger.select_user (users (snd out)) "7"
     = Some (sample_user 0 (Some "cus_gone")).
Proof.
  intros rq w out. split; [reflexivity|].
  destruct (createCustomer_failed_lookup_creates_nothing unit rq w
              (sample_user 0 (Some "cus_gone")) "cus_gone"
              "No such customer: cus_gone" eq_refl eq_refl eq_refl
              (or_intror (conj eq_refl (conj eq_refl eq_refl))))
    as (R & _ & C & U).
  fold out in R, C, U.
  split; [rewrite R; reflexivity|]. split; [rewrite R; reflexivity|].
  split; [exact C|]. rewrite U. reflexivity.
Defined.

(** X19: for a user without a reference, and no call failing, the identity
    mapper queries the user, creates one processor customer that carries the
    user's e-mail and name and the user id as metadata [UserID], and stores
    that customer's id in the user's row, in this order; every other user's
    row stays as it is. *)
Theorem createCustomer_creates_and_stores
    (A : Type) (request : APIGatewayProxyRequest A) (w : World)
    (u : Ledger.User) :
  hd None (db_faults w) = None ->
  Ledger.select_user (users w) (CognitoIdentityPoolID request) = Some u ->
  Ledger.StripeID u = None ->
  hd None (stripe_faults w) = None ->
  hd None (tl (db_faults w)) = None ->
  let uid := CognitoIdentityPoolID request in
  let cid := fresh_id "cus_" (List.length (customers w)) in
  let c := {| Stripe.ID := cid; Stripe.Email := Ledger.Email u;
              Stripe.Name := Ledger.Username u;
              Stripe.Metadata := [("UserID", uid)] |} in
  let out := CreateCustomer.createCustomer request w in
  fst out = ({| StatusCode := StatusOK;
                Body := "Created new customer in Stripe with ID: " ++ cid;
                Headers := json_headers |}, None)
  /\ calls_since w (snd out)
     = [QueryUser uid; CustomerNew (Ledger.Email u) (Ledger.Username u) uid;
        ExecUpdateStripeID cid uid]
  /\ customers (snd out) = (customers w ++ [c])%list
  /\ Ledger.select_user (users (snd out)) uid
     = Some (Ledger.set_stripe_id u (Some cid))
  /\ (forall v, In v (users w) -> Ledger.UserID v <> uid ->
                In v (users (snd out))).
Proof.
  intros Hf Hu Hs Hsf Hf2 uid cid c out. subst uid.
  destruct (customer_new_run A request w u Hf Hu Hs Hsf Hf2)
    as (R & U & C & _ & _ & T).
  fold out cid in R, U, C, T.
  split; [exact R|]. split; [exact (calls_since_app _ _ _ T)|].
  split; [exact C|]. rewrite U. split.
  - rewrite select_user_update_stripe_id, Hu. reflexivity.
  - intros v Iv N. apply update_stripe_id_other; assumption.
Qed.

Lemma createCustomer_creates_and_stores_witness :
  let rq : APIGatewayProxyRequest unit := request_of (Decoded tt) in
  let w := with_users no_world [sample_user 0 None] in
  let out := CreateCustomer.createCustomer rq w in
  Ledger.StripeID (sample_user 0 None) = None
  /\ StatusCode (fst (fst out)) = 200
  /\ customers (snd out) = [sample_customer]
  /\ Ledger.select_user (users (snd out)) "7"
     = Some (sample_user 0 (Some "cus_0")).
Proof.
  intros rq w out. split; [reflexivity|].
  destruct (createCustomer_creates_and_stores unit rq w (sample_user 0 None)
              eq_refl eq_refl eq_refl eq_refl eq_refl) as (R & _ & C & S & _).
  fold out in R, C, S.
  split; [rewrite R; reflexivity|]. split; [exact C | exact S].
Defined.

(** X20: the creation of the customer and the storing of its id are not one
    transaction.  When the store refuses to record the id, the identity
    mapper answers 500 with the store's error, the customer stays at the
    processor and the user's reference stays null; a second invocation that
    meets no fault then creates a second customer for the same user and
    stores the id of that one. *)
Theorem createCustomer_unrecorded_customer_is_duplicated
    (A : Type) (request : APIGatewayProxyRequest A) (w : World)
    (u : Ledger.User) (e : error) :
  db_faults w = [None; Some e] ->
  stripe_faults w = [] ->
  Ledger.select_user (users w) (CognitoIdentityPoolID request) = Some u ->
  Ledger.StripeID u = None ->
  let uid := CognitoIdentityPoolID request in
  let customer n := {| Stripe.ID := fresh_id "cus_" n;
                       Stripe.Email := Ledger.Email u;
                       Stripe.Name := Ledger.Username u;
                       Stripe.Metadata := [("UserID", uid)] |} in
  let n := List.length (customers w) in
  let out1 := CreateCustomer.createCustomer request w in
  let out2 := CreateCustomer.createCustomer request (snd out1) in
  fst out1 = ({| StatusCode := StatusInternalServerError;
                 Body := "Error updating user with new Stripe ID";
                 Headers := json_headers |}, Some e)
  /\ users (snd out1) = users w
  /\ customers (snd out1) = (customers w ++ [customer n])%list
  /\ snd (fst out2) = None
  /\ customers (snd out2)
     = (customers w ++ [customer n; customer (S n)])%list
  /\ Ledger.select_user (users (snd out2)) uid
     = Some (Ledger.set_stripe_id u (Some (fresh_id "cus_" (S n)))).
Proof.
  intros Hf Hsf Hu Hs uid customer n out1 out2. subst uid customer n.
  cbv beta.
  destruct (customer_persist_fails_run A request w u e)
    as (R1 & U1 & C1 & D1 & S1);
    try assumption; try (rewrite Hf; reflexivity);
    try (rewrite Hsf; reflexivity).
  fold out1 in R1, U1, C1, D1, S1. rewrite Hf in D1. rewrite Hsf in S1.
  cbn [tl] in D1, S1.
  destruct (customer_new_run A request (snd out1) u)
    as (R2 & U2 & C2 & _);
    try (rewrite D1; reflexivity); try (rewrite S1; reflexivity);
    try (rewrite U1; exact Hu); try exact Hs.
  fold out2 in R2, U2, C2.
  rewrite C1, length_app, Nat.add_1_r in R2, U2, C2.
  split; [exact R1|]. split; [exact U1|]. split; [exact C1|].
  split; [rewrite R2; reflexivity|]. split.
  - rewrite C2, <- app_assoc. reflexivity.
  - rewrite U2, U1, select_user_update_stripe_id, Hu. reflexivity.
Qed.

Lemma createCustomer_unrecorded_customer_is_duplicated_witness :
  let rq : APIGatewayProxyRequest unit := request_of (Decoded tt) in
  let w := with_db_faults (with_users no_world [sample_user 0 None])
             [None; Some "invalid connection"] in
  let out1 := CreateCustomer.createCustomer rq w in
  let out2 := CreateCustomer.createCustomer rq (snd out1) in
  db_faults w = [None; Some "invalid connection"]
  /\ StatusCode (fst (fst out1)) = 500
  /\ map Stripe.Email (customers (snd out2))
     = ["jenny@example.com"; "jenny@example.com"]
  /\ map Stripe.ID (customers (snd out2)) = ["cus_0"; "cus_1"].
Proof.
  intros rq w out1 out2. split; [reflexivity|].
  destruct (createCustomer_unrecorded_customer_is_duplicated unit rq w
              (sample_user 0 None) "invalid connection"
              eq_refl eq_refl eq_refl eq_refl) as (R1 & _ & _ & _ & C2 & _).
  fold out1 out2 in R1, C2.
  split; [rewrite R1; reflexivity|]. rewrite C2. split; reflexivity.
Defined.

(** X21: the identity mapper makes intent submission possible.  For a user
    without a reference, after an invocation of the identity mapper, an
    intent submission by the same caller (no call failing) attaches the
    payment method to the customer just created and creates the intent for
    that customer; it is answered 200 with a nil error. *)
Theorem createCustomer_then_createPaymentIntent
    (A : Type) (crequest : APIGatewayProxyRequest A)
    (prequest : APIGatewayProxyRequest CreatePaymentIntent.PaymentIntentRequest)
    (submission : CreatePaymentIntent.PaymentIntentRequest)
    (w : World) (u : Ledger.User) :
  RequestBody prequest = Decoded submission ->
  CognitoIdentityPoolID prequest = CognitoIdentityPoolID crequest ->
  db_faults w = [] ->
  stripe_faults w = [] ->
  Ledger.select_user (users w) (CognitoIdentityPoolID crequest) = Some u ->
  Ledger.StripeID u = None ->
  let cid := fresh_id "cus_" (List.length (customers w)) in
  let pm := CreatePaymentIntent.PaymentMethodID submission in
  let out1 := CreateCustomer.createCustomer crequest w in
  let out2 := CreatePaymentIntent.createPaymentIntent prequest (snd out1) in
  StatusCode (fst (fst out2)) = StatusOK
  /\ snd (fst out2) = None
  /\ calls_since (snd out1) (snd out2)
     = [QueryUser (CognitoIdentityPoolID prequest);
        PaymentMethodAttach pm cid;
        PaymentIntentNew
          {| Stripe.Amount := CreatePaymentIntent.Amount submission;
             Stripe.Currency := CreatePaymentIntent.Currency submission;
             Stripe.Customer_ := cid;
             Stripe.PaymentMethod := pm;
             Stripe.SetupFutureUsage := "off_session" |}]
  /\ exists c, Stripe.find_customer (customers (snd out2)) cid = Some c.
Proof.
  intros Hbody Hcaller Hf Hsf Hu Hs cid pm out1 out2.
  destruct (customer_new_run A crequest w u)
    as (_ & U1 & C1 & D1 & S1 & _);
    try assumption; try (rewrite Hf; reflexivity);
    try (rewrite Hsf; reflexivity).
  fold out1 cid in U1, C1, D1, S1. rewrite Hf in D1. rewrite Hsf in S1.
  cbn [tl] in D1, S1.
  assert (Hu1 : Ledger.select_user (users (snd out1))
                  (CognitoIdentityPoolID prequest)
                = Some (Ledger.set_stripe_id u (Some cid))).
  { rewrite Hcaller, U1, select_user_update_stripe_id, Hu. reflexivity. }
  destruct (submit_created_run prequest submission Hbody (snd out1)
              (Ledger.set_stripe_id u (Some cid)) cid)
    as (R2 & _ & _ & T2);
    try (rewrite D1; reflexivity); try (rewrite S1; reflexivity);
    try exact Hu1; try reflexivity.
  fold out2 in R2, T2.
  destruct (submit_cases prequest (snd out1)) as (_ & _ & C2 & _).
  fold out2 in C2.
  split; [rewrite R2; reflexivity|]. split; [rewrite R2; reflexivity|].
  split; [exact (calls_since_app _ _ _ T2)|].
  rewrite C2, C1.
  apply (find_customer_created (customers w)
           {| Stripe.ID := cid; Stripe.Email := Ledger.Email u;
              Stripe.Name := Ledger.Username u;
              Stripe.Metadata := [("UserID", CognitoIdentityPoolID crequest)] |}).
Qed.

Lemma createCustomer_then_createPaymentIntent_witness :
  let crq : APIGatewayProxyRequest unit := request_of (Decoded tt) in
  let sub := {| CreatePaymentIntent.Amount := 2000;
                CreatePaymentIntent.Currency := "usd";
                CreatePaymentIntent.PaymentMethodID := "pm_1" |} in
  let prq := request_of (Decoded sub) in
  let w := with_users no_world [sample_user 0 None] in
  let out1 := CreateCustomer.createCustomer crq w in
  let out2 := CreatePaymentIntent.createPaymentIntent prq (snd out1) in
  Ledger.StripeID (sample_user 0 None) = None
  /\ StatusCode (fst (fst out2)) = StatusOK
  /\ count_calls is_processor_call (calls_since (snd out1) (snd out2)) = 2%nat.
Proof.
  intros crq sub prq w out1 out2. split; [reflexivity|].
  destruct (createCustomer_then_createPaymentIntent unit crq prq sub w
              (sample_user 0 None)
              eq_refl eq_refl eq_refl eq_refl eq_refl eq_refl)
    as (R & _ & T & _).
  fold out1 out2 in R, T.
  split; [exact R|]. rewrite T. reflexivity.
Defined.

(** ** Negative amounts *)

Lemma round_aux_opp (s : bool) (m e : Z) (l : location) :
  binary_round_aux prec64 emax64 (negb s) m e l
  = SFopp (binary_round_aux prec64 emax64 s m e l).
Proof.
  unfold binary_round_aux.
  destruct (shr_fexp prec64 emax64 m e l) as [mrs' e'].
  destruct (shr_fexp prec64 emax64
              (round_nearest_even (shr_m mrs') (loc_of_shr_record mrs'))
              e' loc_Exact) as [mrs'' e''].
  destruct (shr_m mrs'') as [|p|p]; try reflexivity.
  destruct (e'' <=? emax64 - prec64); reflexivity.
Qed.

Lemma float64_of_int64_opp (a : Z) :
  a <> 0 -> float64_of_int64 (- a) = SFopp (float64_of_int64 a).
Proof.
  intros N. destruct a as [|p|p]; [contradiction| |]; simpl Z.opp;
    cbv beta iota delta [float64_of_int64 binary_normalize binary_round];
    destruct (shl_align p 0 (fexp prec64 emax64 (Zpos (digits2_pos p) + 0)))
      as [mz ez].
  - apply (round_aux_opp false).
  - rewrite (round_aux_opp false).
    destruct (binary_round_aux prec64 emax64 false (Zpos mz) ez loc_Exact)
      as [s|s| |s m e]; try reflexivity; destruct s; reflexivity.
Qed.

Lemma float64_div_100_opp (x : float64) :
  float64_div (SFopp x) float64_100 = SFopp (float64_div x float64_100).
Proof.
  rewrite float64_100_eq. unfold float64_div.
  destruct x as [s|s| |s m e];
    [destruct s; reflexivity | destruct s; reflexivity | reflexivity |].
  unfold SFopp at 1. unfold SFdiv.
  destruct (SFdiv_core_binary prec64 emax64 (Zpos m) e
              (Zpos 7036874417766400) (-46)) as [[mz ez] lz].
  rewrite !xorb_false_r. apply round_aux_opp.
Qed.

Lemma float64_to_Q_opp (x : float64) :
  (float64_to_Q (SFopp x) == - float64_to_Q x)%Q.
Proof.
  destruct x as [s|s| |s m e]; try reflexivity.
  unfold SFopp, float64_to_Q.
  destruct e as [|e|e]; destruct s; unfold Qeq, Qopp;
    cbn [negb Qnum Qden inject_Z]; change (Zneg m) with (- Zpos m); ring.
Qed.

(** The quotient of a negative amount is the opposite of the quotient of
    its absolute value. *)
Lemma balance_delta_opp (a : Z) :
  (float64_to_Q (balance_delta (- a)) == - float64_to_Q (balance_delta a))%Q.
Proof.
  destruct (Z.eq_dec a 0) as [->|N]; [reflexivity|].
  unfold balance_delta.
  rewrite (float64_of_int64_opp a N), float64_div_100_opp.
  apply float64_to_Q_opp.
Qed.

(** X23: the webhook does not look at the sign of the amount.  A success
    event whose amount is negative is answered 200 like any other and lowers
    the balance of the caller's user: by exactly [a/100] for an amount [-a]
    that is a multiple of 25 cents (below 2^53). *)
Theorem webhook_negative_amount_debits
    (request : APIGatewayProxyRequest Webhook.StripeWebhookEvent)
    (event : Webhook.StripeWebhookEvent) (w : World) (u : Ledger.User)
    (a : Z) :
  RequestBody request = Decoded event ->
  Webhook.Type_ event = "payment_intent.succeeded" ->
  hd None (db_faults w) = None ->
  hd None (tl (db_faults w)) = None ->
  Ledger.select_user (users w) (CognitoIdentityPoolID request) = Some u ->
  Webhook.Amount (Webhook.Object (Webhook.Data event)) = - a ->
  0 < a < 2 ^ 53 ->
  a mod 25 = 0 ->
  let out := Webhook.webhook request w in
  fst out = (Webhook.received event, None)
  /\ exists u',
       Ledger.select_user (users (snd out)) (CognitoIdentityPoolID request)
       = Some u'
       /\ (Ledger.AccountBalance u' == Ledger.AccountBalance u - (a # 100))%Q
       /\ (Ledger.AccountBalance u' < Ledger.AccountBalance u)%Q.
Proof.
  intros Hbody Htype H1 H2 Hu Ha Hr Hm out.
  destruct (webhook_succeeded_run request event Hbody Htype w H1 H2)
    as (R & Hus & _).
  fold out in R, Hus.
  split; [exact R|].
  rewrite Hus, select_user_add_balance, Hu, Ha. cbn [option_map].
  eexists. split; [reflexivity|].
  cbn [Ledger.AccountBalance Ledger.set_balance].
  assert (E : (Qred (Ledger.AccountBalance u + float64_to_Q (balance_delta (- a)))
               == Ledger.AccountBalance u - (a # 100))%Q).
  { rewrite Qred_correct, balance_delta_opp.
    rewrite (balance_delta_exact a) by (try assumption; lia).
    reflexivity. }
  split; [exact E|].
  rewrite E. unfold Qminus.
  rewrite <- (Qplus_0_r (Ledger.AccountBalance u)) at 2.
  apply Qplus_lt_r. unfold Qlt. simpl. lia.
Qed.

Lemma webhook_negative_amount_debits_witness :
  let rq := request_of (Decoded (succeeded_event "pi_1" (-2000))) in
  let w := ledger_world [] in
  let out := Webhook.webhook rq w in
  (0 < 2000 < 2 ^ 53 /\ 2000 mod 25 = 0)
  /\ StatusCode (fst (fst out)) = 200
  /\ exists u',
       Ledger.select_user (users (snd out)) "7" = Some u'
       /\ (Ledger.AccountBalance u' == 0 - (2000 # 100))%Q.
Proof.
  intros rq w out.
  assert (R : 0 < 2000 < 2 ^ 53) by (split; [lia | reflexivity]).
  split; [split; [exact R | reflexivity]|].
  destruct (webhook_negative_amount_debits rq (succeeded_event "pi_1" (-2000))
              w (sample_user 0 (Some "cus_0")) 2000
              eq_refl eq_refl eq_refl eq_refl eq_refl eq_refl R eq_refl)
    as (S & u' & Hu' & E & _).
  fold out in S, Hu'.
  split; [rewrite S; reflexivity|].
  exists u'. split; [exact Hu' | exact E].
Defined.
